(** * Qanounek: hybrid retrieval and ranking engine

    A shallow embedding of the ranking core of the legal question-answering
    backend: [vector_store/hybrid_search.py] (score normalisation, fusion,
    keyword-index rebuild) and [vector_store/search.py] (article grouping,
    source extraction, confidence, the top-level request pipeline).

    Conventions of the model.
    - A Python [float] is an exact rational ([Q]); comparisons are the
      numeric ones ([Qle_bool], [Qeq_bool]) and results are stated up to
      [==].  Rounding error, infinities and NaN are outside the model.
    - A Python [dict] whose iteration order is observed (every dict that is
      sorted or listed below) is an association list in insertion order.
    - The result dictionaries exchanged between the stages are records; a
      key that may be absent is an [option] field.
    - A [str] is a [string]; one element of the string stands for one
      character.
    - A raised exception is [None]; a [try]/[except] is a [match] on it. *)

From Stdlib Require Import QArith Qround Lqa ZArith Lia List String Ascii Bool.
From Stdlib Require Import Sorted Permutation.
From stdpp Require Import gmap strings.
From Stdlib Require DecimalString DecimalNat.
Import ListNotations.

Local Open Scope string_scope.
Local Open Scope Q_scope.

(** ** Python primitives *)

Module Py.

(** [l[:n]] for an integer [n]: a negative stop counts from the end. *)
Definition slice_to {A : Type} (n : Z) (l : list A) : list A :=
  if (0 <=? n)%Z then firstn (Z.to_nat n) l
  else firstn (Z.to_nat (Z.of_nat (length l) + n)) l.

(** [s[:n]] on strings, for a non-negative literal stop. *)
Definition str_slice_to (n : nat) (s : string) : string := substring 0 n s.

Definition Qlt_bool (x y : Q) : bool := negb (Qle_bool y x).

(** [max(l)] and [min(l)] on a non-empty list given as head and tail: the
    first largest (smallest) element is kept. *)
Definition max_from (x : Q) (xs : list Q) : Q :=
  fold_left (fun m y => if Qlt_bool m y then y else m) xs x.

Definition min_from (x : Q) (xs : list Q) : Q :=
  fold_left (fun m y => if Qlt_bool y m then y else m) xs x.

(** [sum(l)]: left to right from 0. *)
Definition sum (l : list Q) : Q := fold_left Qplus l 0.

(** [float(len(l))]. *)
Definition len {A : Type} (l : list A) : Q := inject_Z (Z.of_nat (length l)).

(** [l.sort(key=key, reverse=True)] and [sorted(l, key=key, reverse=True)]:
    a stable sort into descending key order.  An element is inserted in
    front of the first element whose key is not larger than its own, so
    equal keys keep their original relative order. *)
Fixpoint insert_desc {A : Type} (key : A -> Q) (x : A) (l : list A) : list A :=
  match l with
  | [] => [x]
  | y :: l' =>
      if Qle_bool (key y) (key x) then x :: y :: l'
      else y :: insert_desc key x l'
  end.

Definition sort_desc {A : Type} (key : A -> Q) (l : list A) : list A :=
  fold_right (insert_desc key) [] l.

(** [round(x)] to the nearest integer, ties to the even one. *)
Definition round_half_even (x : Q) : Z :=
  let f := Qfloor x in
  let r := x - inject_Z f in
  if Qlt_bool r (1 # 2) then f
  else if Qlt_bool (1 # 2) r then (f + 1)%Z
  else if Z.even f then f else (f + 1)%Z.

(** [round(x, 3)]. *)
Definition round3 (x : Q) : Q := Qmake (round_half_even (x * 1000)) 1000.

(** [min(x, y)] on two arguments: the first one unless the second is
    smaller. *)
Definition min2 (x y : Q) : Q := if Qlt_bool y x then y else x.

(** [f"{v}"] of a value that is a string or [None]. *)
Definition fmt (v : option string) : string :=
  match v with Some s => s | None => "None" end.

(** An insertion-ordered dictionary with string keys. *)
Definition dict (V : Type) : Type := list (string * V).

Fixpoint get {V : Type} (d : dict V) (k : string) : option V :=
  match d with
  | [] => None
  | (k', v) :: d' => if String.eqb k' k then Some v else get d' k
  end.

Definition contains {V : Type} (d : dict V) (k : string) : bool :=
  match get d k with Some _ => true | None => false end.

(** [d[k] = v]: an existing key keeps its position, a new key goes last. *)
Fixpoint set {V : Type} (d : dict V) (k : string) (v : V) : dict V :=
  match d with
  | [] => [(k, v)]
  | (k', v') :: d' =>
      if String.eqb k' k then (k', v) :: d' else (k', v') :: set d' k v
  end.

(** [d[k] = f(d[k])] for a key that is present (in-place update of the
    value object). *)
Fixpoint update {V : Type} (d : dict V) (k : string) (f : V -> V) : dict V :=
  match d with
  | [] => []
  | (k', v') :: d' =>
      if String.eqb k' k then (k', f v') :: d' else (k', v') :: update d' k f
  end.

Definition keys {V : Type} (d : dict V) : list string := map fst d.
Definition values {V : Type} (d : dict V) : list V := map snd d.

(** [[f(x) for x in l]] where [f] may raise. *)
Fixpoint mapM {A B : Type} (f : A -> option B) (l : list A) : option (list B) :=
  match l with
  | [] => Some []
  | x :: l' =>
      match f x with
      | None => None
      | Some y =>
          match mapM f l' with
          | None => None
          | Some ys => Some (y :: ys)
          end
      end
  end.

End Py.

(** ** Data model *)

(** The [metadata] dictionary of a fragment. *)
Record metadata_dict : Type := {
  code_source : option string;
  article_number : option string;
  chunk_id : option string
}.

(** A search result: the dictionary built by [QdrantStore.search] and
    [_bm25_search] and extended by the later stages. *)
Record result_dict : Type := {
  text : string;
  metadata : metadata_dict;
  score : Q;
  search_type : option string;
  vector_score : option Q;
  bm25_score : option Q;
  vector_score_norm : option Q;
  bm25_score_norm : option Q;
  hybrid_score : option Q
}.

Definition set_score (v : Q) (r : result_dict) : result_dict :=
  {| text := text r; metadata := metadata r; score := v;
     search_type := search_type r;
     vector_score := vector_score r; bm25_score := bm25_score r;
     vector_score_norm := vector_score_norm r;
     bm25_score_norm := bm25_score_norm r;
     hybrid_score := hybrid_score r |}.

Definition set_search_type (v : string) (r : result_dict) : result_dict :=
  {| text := text r; metadata := metadata r; score := score r;
     search_type := Some v;
     vector_score := vector_score r; bm25_score := bm25_score r;
     vector_score_norm := vector_score_norm r;
     bm25_score_norm := bm25_score_norm r;
     hybrid_score := hybrid_score r |}.

Definition set_vector_score_norm (v : Q) (r : result_dict) : result_dict :=
  {| text := text r; metadata := metadata r; score := score r;
     search_type := search_type r;
     vector_score := vector_score r; bm25_score := bm25_score r;
     vector_score_norm := Some v;
     bm25_score_norm := bm25_score_norm r;
     hybrid_score := hybrid_score r |}.

Definition set_bm25_score_norm (v : Q) (r : result_dict) : result_dict :=
  {| text := text r; metadata := metadata r; score := score r;
     search_type := search_type r;
     vector_score := vector_score r; bm25_score := bm25_score r;
     vector_score_norm := vector_score_norm r;
     bm25_score_norm := Some v;
     hybrid_score := hybrid_score r |}.

Definition set_hybrid_score (v : Q) (r : result_dict) : result_dict :=
  {| text := text r; metadata := metadata r; score := score r;
     search_type := search_type r;
     vector_score := vector_score r; bm25_score := bm25_score r;
     vector_score_norm := vector_score_norm r;
     bm25_score_norm := bm25_score_norm r;
     hybrid_score := Some v |}.

(** The two values of the [score_key] argument of [_normalize_scores]. *)
Inductive score_key : Type := vector_score_key | bm25_score_key.

(** [r.get(score_key, 0)]. *)
Definition get_score (k : score_key) (r : result_dict) : Q :=
  match k with
  | vector_score_key => default 0 (vector_score r)
  | bm25_score_key => default 0 (bm25_score r)
  end.

(** [r.get(f'{score_key}_norm')]. *)
Definition get_norm (k : score_key) (r : result_dict) : option Q :=
  match k with
  | vector_score_key => vector_score_norm r
  | bm25_score_key => bm25_score_norm r
  end.

(** [r[f'{score_key}_norm'] = v]. *)
Definition set_norm (k : score_key) (v : Q) (r : result_dict) : result_dict :=
  match k with
  | vector_score_key => set_vector_score_norm v r
  | bm25_score_key => set_bm25_score_norm v r
  end.

(** ** [hybrid_search.py]: score normalisation *)

(** [HybridSearchEngine._normalize_scores]. *)
Definition _normalize_scores (results : list result_dict) (k : score_key)
  : list result_dict :=
  match map (get_score k) results with
  | [] => results
  | s :: ss =>
      let max_score := Py.max_from s ss in
      let min_score := Py.min_from s ss in
      if Qeq_bool max_score min_score then
        map (set_norm k 1) results
      else
        map (fun r =>
               let original_score := get_score k r in
               let normalized :=
                 (original_score - min_score) / (max_score - min_score) in
               set_norm k normalized r) results
  end.

(** ** [hybrid_search.py]: fusion *)

(** [HybridSearchEngine._get_doc_id]. *)
Definition _get_doc_id (m : metadata_dict) : string :=
  let code := default "unknown" (code_source m) in
  let article := default "unknown" (article_number m) in
  let chunk := default "0" (chunk_id m) in
  code ++ "_" ++ article ++ "_" ++ chunk.

(** Body of the first loop of [_merge_results]:
    [merged_docs[doc_id] = {**result, 'vector_score_norm': ...,
    'bm25_score_norm': 0}]. *)
Definition merge_vector (merged_docs : Py.dict result_dict)
    (result : result_dict) : Py.dict result_dict :=
  let doc_id := _get_doc_id (metadata result) in
  Py.set merged_docs doc_id
    (set_bm25_score_norm 0
       (set_vector_score_norm (default 0 (vector_score_norm result)) result)).

(** Body of the second loop of [_merge_results]. *)
Definition merge_bm25 (merged_docs : Py.dict result_dict)
    (result : result_dict) : Py.dict result_dict :=
  let doc_id := _get_doc_id (metadata result) in
  if Py.contains merged_docs doc_id then
    Py.update merged_docs doc_id
      (fun doc =>
         set_search_type "hybrid"
           (set_bm25_score_norm (default 0 (bm25_score_norm result)) doc))
  else
    Py.set merged_docs doc_id
      (set_bm25_score_norm (default 0 (bm25_score_norm result))
         (set_vector_score_norm 0 result)).

(** Body of the third loop: [doc['vector_score_norm']] and
    [doc['bm25_score_norm']] raise [KeyError] on a missing key. *)
Definition final_score (doc : result_dict) : option result_dict :=
  match vector_score_norm doc, bm25_score_norm doc with
  | Some v, Some b =>
      let final_score := (4 # 10) * v + (6 # 10) * b in
      Some (set_hybrid_score final_score (set_score final_score doc))
  | _, _ => None
  end.

(** The dictionary [merged_docs] after the two merging loops. *)
Definition merged_docs_of (vector_normalized bm25_normalized : list result_dict)
  : Py.dict result_dict :=
  fold_left merge_bm25 bm25_normalized
    (fold_left merge_vector vector_normalized []).

(** [HybridSearchEngine._merge_results].  The [except] branch returns
    [vector_results[:limit]], the list [_normalize_scores] has already
    written to. *)
Definition _merge_results (vector_results bm25_results : list result_dict)
    (limit : Z) : list result_dict :=
  let vector_normalized := _normalize_scores vector_results vector_score_key in
  let bm25_normalized := _normalize_scores bm25_results bm25_score_key in
  let merged_docs := merged_docs_of vector_normalized bm25_normalized in
  match Py.mapM final_score (Py.values merged_docs) with
  | Some final_results =>
      Py.slice_to limit (Py.sort_desc score final_results)
  | None => Py.slice_to limit vector_normalized
  end.

(** ** [hybrid_search.py]: the keyword index held by the engine *)

Module Bm25.
Section Index.

(** The [rank_bm25] structure and its constructor, which raises on a corpus
    without any term, and the tokenizer [_tokenize_text], which catches its
    own errors. *)
Variable bm25 : Type.
Variable BM25Okapi : list (list string) -> option bm25.
Variable _tokenize_text : string -> list string.

(** The attributes of [HybridSearchEngine] that queries read. *)
Record engine : Type := {
  bm25_index : option bm25;
  documents : list string;
  metadata_list : list metadata_dict
}.

(** The assignments and in-place appends of [_create_bm25_index], one
    constructor per statement that writes to the engine. *)
Inductive stmt : Type :=
| reset_documents
| reset_metadata_list
| append_document (t : string)
| append_metadata (m : metadata_dict)
| assign_bm25_index (tokenized_docs : list (list string)).

Definition exec (s : stmt) (e : engine) : engine :=
  match s with
  | reset_documents =>
      {| bm25_index := bm25_index e; documents := [];
         metadata_list := metadata_list e |}
  | reset_metadata_list =>
      {| bm25_index := bm25_index e; documents := documents e;
         metadata_list := [] |}
  | append_document t =>
      {| bm25_index := bm25_index e; documents := (documents e ++ [t])%list;
         metadata_list := metadata_list e |}
  | append_metadata m =>
      {| bm25_index := bm25_index e; documents := documents e;
         metadata_list := (metadata_list e ++ [m])%list |}
  | assign_bm25_index tokenized_docs =>
      match BM25Okapi tokenized_docs with
      | Some b =>
          {| bm25_index := Some b; documents := documents e;
             metadata_list := metadata_list e |}
      | None => e
      end
  end.

(** The statements [_create_bm25_index] executes on the documents
    [all_results] returned by the vector store, in program order.  Writing
    the cache file follows the last assignment and touches no attribute. *)
Definition _create_bm25_index_stmts (all_results : list result_dict)
  : list stmt :=
  let tokenized_docs := map (fun r => _tokenize_text (text r)) all_results in
  ([reset_documents; reset_metadata_list]
   ++ flat_map (fun r => [append_document (text r);
                          append_metadata (metadata r)]) all_results
   ++ match tokenized_docs with
      | [] => []
      | _ :: _ => [assign_bm25_index tokenized_docs]
      end)%list.

(** Every engine state a reader can observe while the statements run: the
    state before the first one and the state after each one. *)
Fixpoint trace (ss : list stmt) (e : engine) : list engine :=
  e :: match ss with
       | [] => []
       | s :: ss' => trace ss' (exec s e)
       end.

Definition run (ss : list stmt) (e : engine) : engine :=
  fold_left (fun e s => exec s e) ss e.

(** [HybridSearchEngine._create_bm25_index]. *)
Definition _create_bm25_index (all_results : list result_dict) (e : engine)
  : engine :=
  run (_create_bm25_index_stmts all_results) e.

(** [HybridSearchEngine.rebuild_bm25_index]: removing the cache file leaves
    the engine as it is, then the index is created again. *)
Definition rebuild_bm25_index (all_results : list result_dict) (e : engine)
  : engine :=
  _create_bm25_index all_results e.

Definition rebuild_trace (all_results : list result_dict) (e : engine)
  : list engine :=
  trace (_create_bm25_index_stmts all_results) e.

(** The complete snapshot of a corpus whose index construction gives [b]. *)
Definition snapshot (all_results : list result_dict) (b : bm25) : engine :=
  {| bm25_index := Some b;
     documents := map text all_results;
     metadata_list := map metadata all_results |}.

End Index.
End Bm25.

(** ** [search.py]: article grouping *)

(** The key built by the f-string
    [f"{metadata.get('code_source')}_{metadata.get('article_number')}"]. *)
Definition article_key (m : metadata_dict) : string :=
  Py.fmt (code_source m) ++ "_" ++ Py.fmt (article_number m).

(** Body of the first loop of [_group_chunks_by_article]. *)
Definition group_add (grouped : Py.dict (list result_dict))
    (result : result_dict) : Py.dict (list result_dict) :=
  let key := article_key (metadata result) in
  let grouped :=
    if Py.contains grouped key then grouped else Py.set grouped key [] in
  Py.update grouped key (fun chunks => (chunks ++ [result])%list).

(** [best_score * 0.7 + avg_score * 0.3] on chunks already sorted;
    [chunks[0]] raises on an empty list. *)
Definition article_score (chunks : list result_dict) : option Q :=
  match chunks with
  | [] => None
  | best :: _ =>
      let best_score := score best in
      let avg_score := Py.sum (map score chunks) / Py.len chunks in
      Some (best_score * (7 # 10) + avg_score * (3 # 10))
  end.

(** Body of the second loop: sort the chunks of one article in place and
    record the article's score. *)
Definition score_article (entry : string * list result_dict)
  : option ((string * list result_dict) * (string * Q)) :=
  let chunks := Py.sort_desc score (snd entry) in
  match article_score chunks with
  | Some s => Some ((fst entry, chunks), (fst entry, s))
  | None => None
  end.

(** [d[k]] paired with [k], raising on a missing key. *)
Definition item_of {V : Type} (d : Py.dict V) (k : string)
  : option (string * V) :=
  match Py.get d k with Some v => Some (k, v) | None => None end.

(** [RAGSearchEngine._group_chunks_by_article]. *)
Definition _group_chunks_by_article (results : list result_dict)
  : option (Py.dict (list result_dict)) :=
  let grouped := fold_left group_add results [] in
  match Py.mapM score_article grouped with
  | None => None
  | Some scored =>
      let grouped := map fst scored in
      let article_scores := map snd scored in
      match Py.mapM (item_of article_scores) (Py.keys article_scores) with
      | None => None
      | Some keyed =>
          let sorted_article_keys := Py.keys (Py.sort_desc snd keyed) in
          Py.mapM (item_of grouped) sorted_article_keys
      end
  end.

(** ** [search.py]: sources and confidence *)

Module Source.
(** One entry of the [sources] list of a response. *)
Record t : Type := {
  article_number : string;
  code_source : string;
  relevance_score : Q;
  text_preview : string;
  search_type : string
}.
End Source.

Definition code_display_table : Py.dict string :=
  [("code_travail", "Code du Travail");
   ("code_penal", "Code Pénal");
   ("code_commerce", "Code de Commerce");
   ("code_route", "Code de la Route");
   ("code_procedure_civile", "Code de Procédure Civile")].

(** [result['text'][:150] + "..." if len(result['text']) > 150 else
    result['text']]. *)
Definition text_preview_of (t : string) : string :=
  if (150 <? String.length t)%nat then Py.str_slice_to 150 t ++ "..." else t.

(** The dictionary appended to [sources] for one result. *)
Definition source_of (result : result_dict) : Source.t :=
  let md := metadata result in
  let code := default "N/A" (code_source md) in
  let code_display := default code (Py.get code_display_table code) in
  {| Source.article_number := default "N/A" (article_number md);
     Source.code_source := code_display;
     Source.relevance_score := Py.round3 (score result);
     Source.text_preview := text_preview_of (text result);
     Source.search_type := default "unknown" (search_type result) |}.

(** Body of the loop of [_extract_sources] on the pair
    [(sources, seen_articles)]. *)
Definition extract_step (st : list Source.t * gset string)
    (result : result_dict) : list Source.t * gset string :=
  let key := article_key (metadata result) in
  if bool_decide (key ∈ snd st) then st
  else ((fst st ++ [source_of result])%list, {[ key ]} ∪ snd st).

(** [RAGSearchEngine._extract_sources]. *)
Definition _extract_sources (results : list result_dict) : list Source.t :=
  fst (fold_left extract_step results ([], ∅)).

(** [r.get('search_type') == 'hybrid']. *)
Definition is_hybrid (r : result_dict) : bool :=
  match search_type r with
  | Some s => String.eqb s "hybrid"
  | None => false
  end.

Definition hybrid_bonus (results : list result_dict) : Q :=
  if existsb is_hybrid results then 11 # 10 else 1.

(** [RAGSearchEngine._calculate_confidence]. *)
Definition _calculate_confidence (results : list result_dict) : Q :=
  match results with
  | [] => 0
  | _ :: _ =>
      let top_results := Py.slice_to 5 results in
      let avg_score := Py.sum (map score top_results) / Py.len top_results in
      let source_factor := Py.min2 (Py.len results / 3) 1 in
      let confidence := avg_score * source_factor * hybrid_bonus results in
      Py.round3 (Py.min2 confidence 1)
  end.

(** ** [search.py]: the request pipeline *)

(** The dictionary returned by [search_and_answer]; the two early returns
    carry no [search_types] key. *)
Record response : Type := {
  answer : string;
  sources : list Source.t;
  confidence : Q;
  search_results_count : Z;
  search_types : option (list string)
}.

Definition no_information_response : response :=
  {| answer := "Aucune information trouvée dans les textes juridiques.";
     sources := [];
     confidence := 0;
     search_results_count := 0;
     search_types := None |}.

Definition search_error_response : response :=
  {| answer := "Une erreur s'est produite lors de la recherche.";
     sources := [];
     confidence := 0;
     search_results_count := 0;
     search_types := None |}.

(** [flattened_results]: the chunks of the [max_results] best articles. *)
Definition flatten_best (search_results : list result_dict) (max_results : Z)
  : option (list result_dict) :=
  match _group_chunks_by_article search_results with
  | None => None
  | Some grouped_results =>
      let best_articles :=
        Py.slice_to max_results (Py.values grouped_results) in
      Some (concat best_articles)
  end.

Section Pipeline.

(** The collaborators of [RAGSearchEngine]: the reformulation step (it
    catches every error and falls back to the question), the embedding
    model (it may raise), the vector store ([QdrantStore.search] returns
    the empty list on any error) and the answer generator (it catches
    the model's errors). *)
Variable embedding : Type.
Variable _reformulate_to_legal_terms : string -> string.
Variable encode : string -> option embedding.
Variable vector_store_search : embedding -> Z -> list result_dict.
Variable generate_optimized_response : string -> list result_dict -> string.

(** The tagged [search_results] of a request. *)
Definition tagged_search_results (question : string)
  : option (list result_dict) :=
  let enriched_question := _reformulate_to_legal_terms question in
  match encode enriched_question with
  | None => None
  | Some question_embedding =>
      let search_results := vector_store_search question_embedding 20 in
      Some (map (set_search_type "vector") search_results)
  end.

(** The body of the [try] block of [search_and_answer]; [None] when it
    raises. *)
Definition search_and_answer_try (question : string) (max_results : Z)
  : option response :=
  match tagged_search_results question with
  | None => None
  | Some [] => Some no_information_response
  | Some search_results =>
      match flatten_best search_results max_results with
      | None => None
      | Some flattened_results =>
          let answer :=
            generate_optimized_response question
              (Py.slice_to 10 flattened_results) in
          let sources :=
            _extract_sources (Py.slice_to max_results flattened_results) in
          let confidence := _calculate_confidence flattened_results in
          Some {| answer := answer;
                  sources := sources;
                  confidence := confidence;
                  search_results_count :=
                    Z.of_nat (length search_results);
                  search_types :=
                    Some (map (fun r => default "unknown" (search_type r))
                              (Py.slice_to 5 flattened_results)) |}
      end
  end.

(** [RAGSearchEngine.search_and_answer]. *)
Definition search_and_answer (question : string) (max_results : Z)
  : response :=
  match search_and_answer_try question max_results with
  | Some r => r
  | None => search_error_response
  end.

End Pipeline.

(** ** Vocabulary of the statements *)

(** All the scores of a list are numerically equal. *)
Definition all_equal_scores (k : score_key) (results : list result_dict)
  : Prop :=
  forall a b, In a results -> In b results -> get_score k a == get_score k b.

(** The min-max scaling of a score [x] between the extreme scores. *)
Definition min_max (lo hi x : Q) : Q := (x - lo) / (hi - lo).

(** A fragment as the vector store returns it. *)
Definition fragment (code article : string) (body : string) (s : Q)
  : result_dict :=
  {| text := body;
     metadata := {| code_source := Some code; article_number := Some article;
                    chunk_id := None |};
     score := s; search_type := None;
     vector_score := None; bm25_score := None;
     vector_score_norm := None; bm25_score_norm := None;
     hybrid_score := None |}.

(** The article key of a result, and the test that a result belongs to the
    article [k]. *)
Definition key_of (r : result_dict) : string := article_key (metadata r).

Definition in_article (k : string) (r : result_dict) : bool :=
  String.eqb (key_of r) k.

(** The distinct elements of a list in order of first appearance. *)
Fixpoint first_occurrences (l : list string) : list string :=
  match l with
  | [] => []
  | x :: l' =>
      x :: List.filter (fun y => negb (String.eqb x y)) (first_occurrences l')
  end.

(** The composite score of a group of chunks (0 for the empty group, which
    has none). *)
Definition composite (chunks : list result_dict) : Q :=
  default 0 (article_score chunks).

Definition entry_composite (e : string * list result_dict) : Q :=
  composite (snd e).

(** The articles of a result list in order of first appearance, each with
    all its fragments, best first. *)
Definition article_groups (results : list result_dict)
  : Py.dict (list result_dict) :=
  map (fun k => (k, Py.sort_desc score (List.filter (in_article k) results)))
      (first_occurrences (map key_of results)).

(** The composite score in the words of the specification: 0.7 times the
    best score of the group plus 0.3 times the mean of all its scores. *)
Definition is_composite_of (scores : list Q) (c : Q) : Prop :=
  exists best,
    In best scores /\
    (forall s, In s scores -> s <= best) /\
    c == (7 # 10) * best + (3 # 10) * (Py.sum scores / Py.len scores).

(** Descending order of a list under a numeric key. *)
Definition descending {A : Type} (key : A -> Q) (l : list A) : Prop :=
  StronglySorted (fun a b => key b <= key a) l.

(** Tie-breaking in the words of the specification: of two groups with
    equal composite scores, the one emitted first has the smaller key. *)
Definition ties_by_ascending_identity (groups : Py.dict (list result_dict))
  : Prop :=
  forall pre e1 mid e2 post,
    groups = (pre ++ e1 :: mid ++ e2 :: post)%list ->
    entry_composite e1 == entry_composite e2 ->
    String.leb (fst e1) (fst e2) = true.

(** The articles of a result list in order of first appearance, each with
    its fragments in input order. *)
Definition arrival_groups (results : list result_dict)
  : Py.dict (list result_dict) :=
  map (fun k => (k, List.filter (in_article k) results))
      (first_occurrences (map key_of results)).

(** The composite score of article [k] in a result list. *)
Definition article_composite (results : list result_dict) (k : string) : Q :=
  composite (Py.sort_desc score (List.filter (in_article k) results)).

(** The worked example: article 41 of the labour code with fused scores
    0.9, 0.6, 0.3 and article 12 of the penal code with 0.95, 0.2. *)
Definition article_41_fragments : list result_dict :=
  [fragment "code_travail" "41" "a" (9 # 10);
   fragment "code_travail" "41" "b" (6 # 10);
   fragment "code_travail" "41" "c" (3 # 10)].

Definition article_12_fragments : list result_dict :=
  [fragment "code_penal" "12" "d" (95 # 100);
   fragment "code_penal" "12" "e" (2 # 10)].

(** Two articles with one fragment each and the same score. *)
Definition tied_fragments : list result_dict :=
  [fragment "code_travail" "41" "a" (1 # 2);
   fragment "code_penal" "12" "d" (1 # 2)].

(** The first fragment of every article, in input order. *)
Fixpoint first_per_article (results : list result_dict) : list result_dict :=
  match results with
  | [] => []
  | r :: rs =>
      r :: List.filter (fun x => negb (in_article (key_of r) x))
             (first_per_article rs)
  end.

(** A text of 151 characters. *)
Definition long_text : string :=
  string_of_list_ascii (repeat "a"%char 151).

(** Two fragments of one article, the lower-scored one first. *)
Definition low_fragment : result_dict :=
  fragment "code_travail" "41" "b" (2 # 10).

Definition high_fragment : result_dict :=
  fragment "code_travail" "41" "a" (9 # 10).

(** The unrounded confidence: the mean score of the first five results,
    times [min(count / 3, 1)], times the hybrid bonus. *)
Definition raw_confidence (results : list result_dict) : Q :=
  let top := firstn 5 results in
  Py.sum (map score top) / Py.len top
  * Py.min2 (Py.len results / 3) 1
  * (if existsb is_hybrid results then 11 # 10 else 1).

(** Clamping to the unit interval, in the words of the specification. *)
Definition clamp_unit (x : Q) : Q :=
  if Py.Qlt_bool x 0 then 0 else if Py.Qlt_bool 1 x then 1 else x.

(** The confidence in the words of the specification. *)
Definition spec_confidence (results : list result_dict) : Q :=
  Py.round3 (clamp_unit (raw_confidence results)).

(** A fragment with a negative similarity score. *)
Definition negative_fragment : result_dict :=
  fragment "code_travail" "41" "a" (-1 # 2).

(** A vector store holding the worked example, and one holding nothing;
    the other collaborators are trivial. *)
Definition example_store (_ : unit) (_ : Z) : list result_dict :=
  (article_41_fragments ++ article_12_fragments)%list.

Definition empty_store (_ : unit) (_ : Z) : list result_dict := [].

Definition example_encode (_ : string) : option unit := Some tt.

Definition example_reformulate (question : string) : string := question.

Definition example_generate (_ : string) (_ : list result_dict) : string :=
  "ok".

(** States of the keyword index during a rebuild. *)
Module Rebuild.
Section States.

Variable bm25 : Type.
Variable BM25Okapi : list (list string) -> option bm25.
Variable _tokenize_text : string -> list string.

(** Atomicity in the words of the specification: every observable state is
    the previous snapshot or the next one. *)
Definition atomic (all_results : list result_dict)
    (old new : Bm25.engine bm25) : Prop :=
  Forall (fun e => e = old \/ e = new)
         (Bm25.rebuild_trace bm25 BM25Okapi _tokenize_text all_results old).

(** The documents have been emptied, the rest is the old state. *)
Definition emptied (old e : Bm25.engine bm25) : Prop :=
  Bm25.bm25_index bm25 e = Bm25.bm25_index bm25 old /\
  Bm25.documents bm25 e = [] /\
  Bm25.metadata_list bm25 e = Bm25.metadata_list bm25 old.

(** The old index structure is active while the documents hold a prefix of
    the new corpus and the metadata the same prefix, or one entry less. *)
Definition refilling (all_results : list result_dict)
    (old e : Bm25.engine bm25) : Prop :=
  Bm25.bm25_index bm25 e = Bm25.bm25_index bm25 old /\
  exists done todo,
    all_results = (done ++ todo)%list /\
    Bm25.documents bm25 e = map text done /\
    (Bm25.metadata_list bm25 e = map metadata done \/
     exists done' r,
       done = (done' ++ [r])%list /\
       Bm25.metadata_list bm25 e = map metadata done').

(** The complete snapshot of the new corpus. *)
Definition rebuilt (all_results : list result_dict) (e : Bm25.engine bm25)
  : Prop :=
  exists b,
    BM25Okapi (map (fun r => _tokenize_text (text r)) all_results) = Some b /\
    e = Bm25.snapshot bm25 all_results b.

(** What a reader can observe during the rebuild. *)
Definition observable (all_results : list result_dict)
    (old e : Bm25.engine bm25) : Prop :=
  e = old \/
  emptied old e \/
  refilling all_results old e \/
  rebuilt all_results e.

End States.
End Rebuild.

(** A one-document corpus and a toy index structure: the tokenized corpus
    itself, one token per text. *)
Definition one_document : list result_dict :=
  [fragment "code_travail" "41" "a" (1 # 2)].

Definition toy_index (docs : list (list string))
  : option (list (list string)) := Some docs.

Definition toy_tokenize (t : string) : list string := [t].

Definition toy_snapshot : Bm25.engine (list (list string)) :=
  Bm25.snapshot (list (list string)) one_document [["a"]].

(** The document identifier [_get_doc_id] gives a result. *)
Definition doc_id_of (r : result_dict) : string := _get_doc_id (metadata r).

(** The vector term [v] of a merged fragment [d]: the normalised vector
    score of a vector hit with the same identity, or 0 when the vector list
    has no such hit. *)
Definition vector_term (vector_normalized : list result_dict)
    (d : result_dict) (v : Q) : Prop :=
  (exists r, In r vector_normalized /\ doc_id_of r = doc_id_of d /\
             vector_score_norm r = Some v) \/
  (~ In (doc_id_of d) (map doc_id_of vector_normalized) /\ v = 0).

(** The keyword term [b] of a merged fragment, likewise. *)
Definition keyword_term (bm25_normalized : list result_dict)
    (d : result_dict) (b : Q) : Prop :=
  (exists r, In r bm25_normalized /\ doc_id_of r = doc_id_of d /\
             bm25_score_norm r = Some b) \/
  (~ In (doc_id_of d) (map doc_id_of bm25_normalized) /\ b = 0).

(** What the third loop of [_merge_results] makes of a merged entry. *)
Definition scored (doc : result_dict) : result_dict :=
  default doc (final_score doc).

(** Hits as [_vector_search] and [_bm25_search] hand them to the fusion. *)
Definition vector_hit (code article chunk : string) (s : Q) : result_dict :=
  {| text := "t";
     metadata := {| code_source := Some code; article_number := Some article;
                    chunk_id := Some chunk |};
     score := s; search_type := Some "vector";
     vector_score := Some s; bm25_score := None;
     vector_score_norm := None; bm25_score_norm := None;
     hybrid_score := None |}.

Definition bm25_hit (code article chunk : string) (s : Q) : result_dict :=
  {| text := "t";
     metadata := {| code_source := Some code; article_number := Some article;
                    chunk_id := Some chunk |};
     score := s; search_type := Some "bm25";
     vector_score := None; bm25_score := Some s;
     vector_score_norm := None; bm25_score_norm := None;
     hybrid_score := None |}.

Definition sample_vector_hits : list result_dict :=
  [vector_hit "code_travail" "41" "1" (8 # 10);
   vector_hit "code_travail" "41" "2" (5 # 10);
   vector_hit "code_penal" "12" "1" (2 # 10)].

Definition sample_bm25_hits : list result_dict :=
  [bm25_hit "code_penal" "12" "1" 7;
   bm25_hit "code_route" "3" "1" 4;
   bm25_hit "code_travail" "41" "2" 1].

(** * The rest of the retrieval code *)

(** ** [hybrid_search.py]: the two searches and their fusion *)

Definition set_vector_score (v : Q) (r : result_dict) : result_dict :=
  {| text := text r; metadata := metadata r; score := score r;
     search_type := search_type r;
     vector_score := Some v; bm25_score := bm25_score r;
     vector_score_norm := vector_score_norm r;
     bm25_score_norm := bm25_score_norm r;
     hybrid_score := hybrid_score r |}.

Module Hybrid.
Section Engine.

(** The collaborators of [HybridSearchEngine]: the embedding model (it may
    raise), the vector store (it returns the empty list on any error), the
    [rank_bm25] structure with its scoring method [get_scores] (one score
    per indexed document) and the tokenizer. *)
Variable embedding : Type.
Variable encode : string -> option embedding.
Variable vector_store_search : embedding -> Z -> list result_dict.
Variable bm25 : Type.
Variable get_scores : bm25 -> list string -> list Q.
Variable _tokenize_text : string -> list string.

(** [HybridSearchEngine._vector_search]: any error gives the empty list. *)
Definition _vector_search (question : string) (limit : Z)
  : list result_dict :=
  match encode question with
  | None => []
  | Some question_embedding =>
      let results := vector_store_search question_embedding limit in
      map (fun result =>
             set_vector_score (score result)
               (set_search_type "vector" result)) results
  end.

(** The dictionary built for one keyword hit; [self.documents[idx]] and
    [self.metadata_list[idx]] raise on an index out of range. *)
Definition bm25_result (e : Bm25.engine bm25) (hit : nat * Q)
  : option result_dict :=
  match nth_error (Bm25.documents bm25 e) (fst hit),
        nth_error (Bm25.metadata_list bm25 e) (fst hit) with
  | Some t, Some m =>
      Some {| text := t; metadata := m; score := snd hit;
              search_type := Some "bm25";
              vector_score := None; bm25_score := Some (snd hit);
              vector_score_norm := None; bm25_score_norm := None;
              hybrid_score := None |}
  | _, _ => None
  end.

(** [[(idx, score) for idx, score in enumerate(scores) if score > 0]]. *)
Definition positive_hits (scores : list Q) : list (nat * Q) :=
  List.filter (fun hit => Py.Qlt_bool 0 (snd hit))
              (combine (seq 0 (length scores)) scores).

(** [HybridSearchEngine._bm25_search]: any error gives the empty list. *)
Definition _bm25_search (e : Bm25.engine bm25) (question : string)
    (limit : Z) : list result_dict :=
  match Bm25.bm25_index bm25 e with
  | None => []
  | Some index =>
      match _tokenize_text question with
      | [] => []
      | query_tokens =>
          let scores := get_scores index query_tokens in
          let scored_docs := Py.sort_desc snd (positive_hits scores) in
          match Py.mapM (bm25_result e) (Py.slice_to limit scored_docs) with
          | Some results => results
          | None => []
          end
      end
  end.

(** [HybridSearchEngine.hybrid_search].  Neither search raises and
    [_merge_results] handles its own errors, so the fallback of the outer
    [try] is never taken. *)
Definition hybrid_search (e : Bm25.engine bm25) (question : string)
    (limit : Z) : list result_dict :=
  let vector_results := _vector_search question (limit * 2) in
  let bm25_results := _bm25_search e question (limit * 2) in
  _merge_results vector_results bm25_results limit.

End Engine.
End Hybrid.

(** A toy scoring method on the toy index: 1 for a document that contains
    a query token, 0 otherwise; an embedding model that always fails; an
    engine without keyword index. *)
Definition toy_scores (index : list (list string)) (tokens : list string)
  : list Q :=
  map (fun doc =>
         if existsb (fun t => existsb (String.eqb t) doc) tokens
         then 1 else 0) index.


Definition engine_without_index : Bm25.engine (list (list string)) :=
  {| Bm25.bm25_index := None; Bm25.documents := [];
     Bm25.metadata_list := [] |}.

(** ** More Python primitives *)

Module PyStr.

(** [str.isspace] on one character with a code point below 256. *)
Definition is_space (c : ascii) : bool :=
  let n := nat_of_ascii c in
  ((9 <=? n) && (n <=? 13) || (28 <=? n) && (n <=? 31)
   || (n =? 32) || (n =? 133) || (n =? 160))%nat.

(** [s.split()]: the maximal runs of non-space characters; [word] holds
    the run being read. *)
Fixpoint split_from (word : string) (s : string) : list string :=
  match s with
  | EmptyString => match word with EmptyString => [] | _ => [word] end
  | String c s' =>
      if is_space c then
        match word with
        | EmptyString => split_from EmptyString s'
        | _ => word :: split_from EmptyString s'
        end
      else split_from (word ++ String c EmptyString) s'
  end.

Definition split (s : string) : list string := split_from EmptyString s.

(** [f"{n}"] of a non-negative integer. *)
Definition of_nat (n : nat) : string :=
  DecimalString.NilEmpty.string_of_uint (Nat.to_uint n).

(** [range(0, stop, step)] for a positive step. *)
Definition range_step (stop step : nat) : list nat :=
  map (fun j => (j * step)%nat) (seq 0 ((stop + step - 1) / step)).

(** [l[i:j]] for non-negative bounds. *)
Definition slice {A : Type} (i j : nat) (l : list A) : list A :=
  firstn (j - i) (skipn i l).

End PyStr.

(** ** [article_parser.py]: the article record *)

Module Article.
(** The dataclass [Article]. *)
Record t : Type := {
  number : string;
  content : string;
  code_source : string;
  word_count : nat;
  char_count : nat;
  extraction_confidence : Q
}.
End Article.

(** ** [chunker.py] *)

Module Chunker.

(** The [metadata] dictionary the chunker attaches to a chunk: these five
    keys and no other. *)
Record metadata_t : Type := {
  article_number : string;
  code_source : string;
  chunk_index : nat;
  total_chunks : nat;
  is_complete_article : bool
}.

(** The dataclass [Chunk]. *)
Record Chunk : Type := {
  id : string;
  text : string;
  metadata : metadata_t;
  token_count : nat
}.

Section Splitter.

(** [config.chunking.chunk_size] and the text splitter's [split_text]. *)
Variable chunk_size : nat.
Variable split_text : string -> list string.

(** [IntelligentChunker._chunk_single_article]. *)
Definition _chunk_single_article (article : Article.t) (code_name : string)
    (start_id : nat) : list Chunk :=
  let content := Article.content article in
  let article_number := Article.number article in
  if (String.length content <=? chunk_size)%nat then
    [{| id := code_name ++ "_art" ++ article_number ++ "_chunk1";
        text := content;
        metadata := {| article_number := article_number;
                       code_source := code_name;
                       chunk_index := 0;
                       total_chunks := 1;
                       is_complete_article := true |};
        token_count := length (PyStr.split content) |}]
  else
    let text_chunks := split_text content in
    map (fun item =>
           let i := fst item in
           let chunk_text := snd item in
           {| id := code_name ++ "_art" ++ article_number ++ "_chunk"
                    ++ PyStr.of_nat (i + 1);
              text := chunk_text;
              metadata := {| article_number := article_number;
                             code_source := code_name;
                             chunk_index := i;
                             total_chunks := length text_chunks;
                             is_complete_article := false |};
              token_count := length (PyStr.split chunk_text) |})
        (combine (seq 0 (length text_chunks)) text_chunks).

(** Body of the loop of [chunk_articles] on the pair
    [(chunks, chunk_counter)]. *)
Definition chunk_step (code_name : string) (st : list Chunk * nat)
    (article : Article.t) : list Chunk * nat :=
  let article_chunks := _chunk_single_article article code_name (snd st) in
  ((fst st ++ article_chunks)%list, (snd st + length article_chunks)%nat).

(** [IntelligentChunker.chunk_articles] on the code name and the articles
    of [articles_data]. *)
Definition chunk_articles (code_name : string) (articles : list Article.t)
  : list Chunk :=
  fst (fold_left (chunk_step code_name) articles ([], 0%nat)).

End Splitter.
End Chunker.

(** ** [qdrant_store.py]: filling the collection *)

Module Qdrant.

(** The payload of a point and the point itself. *)
Record payload_t : Type := {
  text : string;
  metadata : Chunker.metadata_t;
  chunk_id : string
}.

Record PointStruct (vector : Type) : Type := {
  id : string;
  point_vector : vector;
  payload : payload_t
}.

Section Store.

(** The vectors are opaque; [uuid4 i] is the identifier drawn for the
    point of index [i]. *)
Variable vector : Type.
Variable uuid4 : nat -> string.

(** The point of one chunk; [embeddings[i]] raises when there are fewer
    embeddings than chunks. *)
Definition point_of (embeddings : list vector) (item : nat * Chunker.Chunk)
  : option (PointStruct vector) :=
  match nth_error embeddings (fst item) with
  | None => None
  | Some v =>
      Some {| id := uuid4 (fst item);
              point_vector := v;
              payload := {| text := Chunker.text (snd item);
                            metadata := Chunker.metadata (snd item);
                            chunk_id := Chunker.id (snd item) |} |}
  end.

(** The batches [points[i:i + 100]] for [i] in
    [range(0, len(points), 100)]. *)
Definition batches {A : Type} (points : list A) : list (list A) :=
  map (fun i => PyStr.slice i (i + 100) points)
      (PyStr.range_step (length points) 100).

(** [QdrantStore.add_chunks]: the batches handed to [client.upsert], in
    order, or [None] when building the points raises (the error is logged
    and raised again before anything is written).  The client's own
    failures are not part of this model. *)
Definition add_chunks (chunks : list Chunker.Chunk)
    (embeddings : list vector)
  : option (list (list (PointStruct vector))) :=
  match Py.mapM (point_of embeddings)
                (combine (seq 0 (length chunks)) chunks) with
  | None => None
  | Some points => Some (batches points)
  end.

End Store.
End Qdrant.

(** The result dictionary [QdrantStore.search] formats from one stored
    payload and its similarity score, as far as the search code reads it:
    the metadata carries [code_source] and [article_number] and has no
    [chunk_id] key (the chunk identifier sits beside the metadata, not in
    it). *)
Definition search_metadata (m : Chunker.metadata_t) : metadata_dict :=
  {| code_source := Some (Chunker.code_source m);
     article_number := Some (Chunker.article_number m);
     chunk_id := None |}.


(** ** [article_parser.py]: validating the parsed articles *)

Module Parser.

(** [l.sort(key=key)] with integer keys: a stable sort into ascending
    order.  An element is inserted in front of the first element whose key
    is not smaller than its own. *)
Fixpoint insert_asc {A : Type} (key : A -> Z) (x : A) (l : list A) : list A :=
  match l with
  | [] => [x]
  | y :: l' =>
      if (key x <=? key y)%Z then x :: y :: l'
      else y :: insert_asc key x l'
  end.

Definition sort_asc {A : Type} (key : A -> Z) (l : list A) : list A :=
  fold_right (insert_asc key) [] l.

Section Validate.

(** [int(s)] on an article number; [None] when it raises [ValueError]. *)
Variable int_of : string -> option Z.

(** The local function [sort_key], as a function of the article number. *)
Definition number_key (number : string) : Z :=
  match int_of number with
  | Some n => n
  | None => 99999%Z
  end.

Definition sort_key (article : Article.t) : Z :=
  number_key (Article.number article).

(** Body of the de-duplication loop on the pair
    [(unique_articles, seen_numbers)]. *)
Definition unique_step (st : list Article.t * gset string)
    (article : Article.t) : list Article.t * gset string :=
  if bool_decide (Article.number article ∈ snd st) then st
  else ((fst st ++ [article])%list, {[ Article.number article ]} ∪ snd st).

(** [ArticleParser._validate_and_clean_articles]; the continuity check
    only writes to the log. *)
Definition _validate_and_clean_articles (articles : list Article.t)
    (code_name : string) : list Article.t :=
  let articles := sort_asc sort_key articles in
  fst (fold_left unique_step articles ([], ∅)).

End Validate.
End Parser.

(** ** [hybrid_search.py]: the keyword index and its cache file *)

Module Cache.
Section Disk.

Variable bm25 : Type.
Variable BM25Okapi : list (list string) -> option bm25.
Variable _tokenize_text : string -> list string.

(** The dictionary pickled in [bm25_index.pkl]; a key may be missing from
    a file written by something else. *)
Record cache_data : Type := {
  cached_bm25_index : option bm25;
  cached_documents : option (list string);
  cached_metadata_list : option (list metadata_dict)
}.

(** The cache file: absent, present but not loadable, or a pickled
    dictionary. *)
Inductive file : Type :=
| missing
| unreadable
| pickled (d : cache_data).

(** [_create_bm25_index] with the cache file: the file is written after
    the index reference has been assigned, and only then.  Writing is taken
    to succeed. *)
Definition _create_bm25_index (all_results : list result_dict)
    (st : Bm25.engine bm25 * file) : Bm25.engine bm25 * file :=
  let e := Bm25._create_bm25_index bm25 BM25Okapi _tokenize_text
             all_results (fst st) in
  match map (fun r => _tokenize_text (text r)) all_results with
  | [] => (e, snd st)
  | tokenized_docs =>
      match BM25Okapi tokenized_docs with
      | None => (e, snd st)
      | Some _ =>
          (e, pickled {| cached_bm25_index := Bm25.bm25_index bm25 e;
                         cached_documents := Some (Bm25.documents bm25 e);
                         cached_metadata_list :=
                           Some (Bm25.metadata_list bm25 e) |})
      end
  end.

(** [_load_or_create_bm25_index]: the three attributes are assigned one
    after the other from the loaded dictionary; any error on the way leads
    to [_create_bm25_index] on the engine as it is by then. *)
Definition _load_or_create_bm25_index (all_results : list result_dict)
    (st : Bm25.engine bm25 * file) : Bm25.engine bm25 * file :=
  let e := fst st in
  match snd st with
  | missing => _create_bm25_index all_results st
  | unreadable => _create_bm25_index all_results st
  | pickled cache_data =>
      match cached_bm25_index cache_data with
      | None => _create_bm25_index all_results st
      | Some index =>
          let e1 := {| Bm25.bm25_index := Some index;
                       Bm25.documents := Bm25.documents bm25 e;
                       Bm25.metadata_list := Bm25.metadata_list bm25 e |} in
          match cached_documents cache_data with
          | None => _create_bm25_index all_results (e1, snd st)
          | Some documents =>
              let e2 := {| Bm25.bm25_index := Some index;
                           Bm25.documents := documents;
                           Bm25.metadata_list :=
                             Bm25.metadata_list bm25 e |} in
              match cached_metadata_list cache_data with
              | None => _create_bm25_index all_results (e2, snd st)
              | Some metadata_list =>
                  ({| Bm25.bm25_index := Some index;
                      Bm25.documents := documents;
                      Bm25.metadata_list := metadata_list |}, snd st)
              end
          end
      end
  end.

(** [rebuild_bm25_index] with the cache file: the file is removed first. *)
Definition rebuild_bm25_index (all_results : list result_dict)
    (st : Bm25.engine bm25 * file) : Bm25.engine bm25 * file :=
  _create_bm25_index all_results (fst st, missing).

(** The engine at the start of [HybridSearchEngine.__init__]. *)
Definition fresh : Bm25.engine bm25 :=
  {| Bm25.bm25_index := None; Bm25.documents := [];
     Bm25.metadata_list := [] |}.

End Disk.
End Cache.

(** ** More sample data *)

Definition sample_article (number body : string) : Article.t :=
  {| Article.number := number; Article.content := body;
     Article.code_source := "code_travail";
     Article.word_count := 0; Article.char_count := 0;
     Article.extraction_confidence := 1 |}.

(** A splitter that cuts a text into pieces of five characters, at most
    two of them. *)
Definition toy_split (s : string) : list string :=
  [substring 0 5 s; substring 5 5 s].

(** A hit as it comes from the store for a chunk with the given metadata. *)
Definition stored_hit (m : Chunker.metadata_t) (body : string) (s : Q)
  : result_dict :=
  {| text := body; metadata := search_metadata m;
     score := s; search_type := None;
     vector_score := None; bm25_score := None;
     vector_score_norm := None; bm25_score_norm := None;
     hybrid_score := None |}.

Definition first_chunk_metadata : Chunker.metadata_t :=
  {| Chunker.article_number := "41"; Chunker.code_source := "code_travail";
     Chunker.chunk_index := 0; Chunker.total_chunks := 2;
     Chunker.is_complete_article := false |}.

Definition second_chunk_metadata : Chunker.metadata_t :=
  {| Chunker.article_number := "41"; Chunker.code_source := "code_travail";
     Chunker.chunk_index := 1; Chunker.total_chunks := 2;
     Chunker.is_complete_article := false |}.

(** [int] on the article numbers of the samples. *)
Definition toy_int (s : string) : option Z :=
  if String.eqb s "1" then Some 1%Z
  else if String.eqb s "2" then Some 2%Z
  else None.

(** The articles kept by the de-duplication loop: the first one of every
    number. *)
Fixpoint first_by_number (l : list Article.t) : list Article.t :=
  match l with
  | [] => []
  | a :: l' =>
      a :: List.filter
             (fun x => negb (String.eqb (Article.number a) (Article.number x)))
             (first_by_number l')
  end.

(** ** Fragments and document identifiers *)

(** The identity key of a fragment, in the words of the specification:
    code, article number and chunk index. *)
Definition fragment_identity (m : Chunker.metadata_t)
  : string * string * nat :=
  (Chunker.code_source m, Chunker.article_number m, Chunker.chunk_index m).

(** A collection holding the two chunks of article 41, as the store
    returns them; a vector search that finds the first chunk only; the
    keyword engine built from the collection. *)
Definition two_chunks : list result_dict :=
  [stored_hit first_chunk_metadata "a" 0;
   stored_hit second_chunk_metadata "b" 0].

Definition first_chunk_store (_ : unit) (_ : Z) : list result_dict :=
  [stored_hit first_chunk_metadata "a" (8 # 10)].

Definition two_chunk_engine : Bm25.engine (list (list string)) :=
  Bm25.rebuild_bm25_index (list (list string)) toy_index toy_tokenize
    two_chunks engine_without_index.

(** The hits of a list that carry the document identifier [id]: the last
    one and the first one. *)
Definition has_doc_id (id : string) (r : result_dict) : bool :=
  String.eqb (doc_id_of r) id.

Definition last_hit (id : string) (l : list result_dict)
  : option result_dict :=
  List.find (has_doc_id id) (rev l).

Definition first_hit (id : string) (l : list result_dict)
  : option result_dict :=
  List.find (has_doc_id id) l.

(** The two terms of the fused score of the entry stored under [id]: the
    normalised score of the last hit with that identifier, 0 without one. *)
Definition vector_term_of (id : string) (vector_normalized : list result_dict)
  : Q :=
  match last_hit id vector_normalized with
  | Some r => default 0 (vector_score_norm r)
  | None => 0
  end.

Definition keyword_term_of (id : string) (bm25_normalized : list result_dict)
  : Q :=
  match last_hit id bm25_normalized with
  | Some r => default 0 (bm25_score_norm r)
  | None => 0
  end.

(** The hit whose text and metadata the entry stored under [id] carries:
    the last vector hit with that identifier, or the first keyword hit
    when there is no vector hit. *)
Definition carrier (id : string)
    (vector_normalized bm25_normalized : list result_dict)
  : option result_dict :=
  match last_hit id vector_normalized with
  | Some r => Some r
  | None => first_hit id bm25_normalized
  end.

(** Two vector hits and two keyword hits under one identifier. *)
Definition repeated_vector_hits : list result_dict :=
  [vector_hit "code_travail" "41" "1" (9 # 10);
   vector_hit "code_penal" "12" "1" (1 # 10);
   vector_hit "code_travail" "41" "1" (5 # 10)].


(** * Properties *)

(** ** Python primitives *)

Lemma Qlt_bool_true (x y : Q) : Py.Qlt_bool x y = true <-> x < y.
Proof.
  unfold Py.Qlt_bool. rewrite negb_true_iff.
  split; intros H.
  - apply Qnot_le_lt. intros Hle. apply Qle_bool_iff in Hle. congruence.
  - destruct (Qle_bool y x) eqn:E; [|reflexivity].
    apply Qle_bool_iff in E. exfalso. apply (Qlt_not_le _ _ H E).
Qed.

Lemma Qlt_bool_false (x y : Q) : Py.Qlt_bool x y = false <-> y <= x.
Proof.
  unfold Py.Qlt_bool. rewrite negb_false_iff. apply Qle_bool_iff.
Qed.

Lemma Qeq_bool_false (x y : Q) : Qeq_bool x y = false <-> ~ x == y.
Proof.
  split.
  - intros H Heq. apply Qeq_bool_iff in Heq. congruence.
  - intros H. destruct (Qeq_bool x y) eqn:E; [|reflexivity].
    apply Qeq_bool_iff in E. contradiction.
Qed.

Lemma max_from_spec (xs : list Q) : forall x,
  In (Py.max_from x xs) (x :: xs) /\
  forall y, In y (x :: xs) -> y <= Py.max_from x xs.
Proof.
  induction xs as [|a xs IH]; intros x.
  - split; [left; reflexivity|]. intros y [<-|[]]. apply Qle_refl.
  - unfold Py.max_from in *. cbn [fold_left].
    destruct (Py.Qlt_bool x a) eqn:E.
    + destruct (IH a) as [Hin Hmax]. split.
      * right. exact Hin.
      * intros y [<-|Hy]; [|apply Hmax, Hy].
        apply Qlt_bool_true in E. apply Qle_trans with a.
        -- apply Qlt_le_weak, E.
        -- apply Hmax. left. reflexivity.
    + destruct (IH x) as [Hin Hmax]. split.
      * destruct Hin as [Hin|Hin]; [left; exact Hin|right; right; exact Hin].
      * intros y [<-|[<-|Hy]].
        -- apply Hmax. left. reflexivity.
        -- apply Qlt_bool_false in E. apply Qle_trans with x; [exact E|].
           apply Hmax. left. reflexivity.
        -- apply Hmax. right. exact Hy.
Qed.

Lemma min_from_spec (xs : list Q) : forall x,
  In (Py.min_from x xs) (x :: xs) /\
  forall y, In y (x :: xs) -> Py.min_from x xs <= y.
Proof.
  induction xs as [|a xs IH]; intros x.
  - split; [left; reflexivity|]. intros y [<-|[]]. apply Qle_refl.
  - unfold Py.min_from in *. cbn [fold_left].
    destruct (Py.Qlt_bool a x) eqn:E.
    + destruct (IH a) as [Hin Hmin]. split.
      * right. exact Hin.
      * intros y [<-|Hy]; [|apply Hmin, Hy].
        apply Qlt_bool_true in E. apply Qle_trans with a.
        -- apply Hmin. left. reflexivity.
        -- apply Qlt_le_weak, E.
    + destruct (IH x) as [Hin Hmin]. split.
      * destruct Hin as [Hin|Hin]; [left; exact Hin|right; right; exact Hin].
      * intros y [<-|[<-|Hy]].
        -- apply Hmin. left. reflexivity.
        -- apply Qlt_bool_false in E. apply Qle_trans with x; [|exact E].
           apply Hmin. left. reflexivity.
        -- apply Hmin. right. exact Hy.
Qed.

(** ** Score normalisation *)

Lemma get_norm_set_norm (k : score_key) (v : Q) (r : result_dict) :
  get_norm k (set_norm k v r) = Some v.
Proof. destruct k; reflexivity. Qed.

Lemma metadata_set_norm (k : score_key) (v : Q) (r : result_dict) :
  metadata (set_norm k v r) = metadata r.
Proof. destruct k; reflexivity. Qed.

Lemma min_max_bounds (lo hi x : Q) :
  lo <= x -> x <= hi -> ~ hi == lo -> 0 <= min_max lo hi x <= 1.
Proof.
  intros Hlo Hhi Hne. unfold min_max.
  assert (Hpos : 0 < hi - lo).
  { destruct (Qle_lt_or_eq lo hi) as [Hlt|Heq].
    - apply Qle_trans with x; assumption.
    - lra.
    - exfalso. apply Hne. symmetry. exact Heq. }
  split.
  - apply Qle_shift_div_l; [exact Hpos|]. lra.
  - apply Qle_shift_div_r; [exact Hpos|]. lra.
Qed.

Lemma min_max_hi (lo hi : Q) : ~ hi == lo -> min_max lo hi hi == 1.
Proof. intros Hne. unfold min_max. field. lra. Qed.

Lemma min_max_lo (lo hi : Q) : ~ hi == lo -> min_max lo hi lo == 0.
Proof. intros Hne. unfold min_max. field. lra. Qed.

(** The two branches of [_normalize_scores] on a non-empty list. *)
Lemma normalize_scores_cases (results : list result_dict) (k : score_key) :
  results <> [] ->
  exists lo hi,
    (exists a, In a results /\ get_score k a = lo) /\
    (exists b, In b results /\ get_score k b = hi) /\
    (forall r, In r results -> lo <= get_score k r <= hi) /\
    ((hi == lo /\ _normalize_scores results k = map (set_norm k 1) results) \/
     (~ hi == lo /\
      _normalize_scores results k =
        map (fun r => set_norm k (min_max lo hi (get_score k r)) r) results)).
Proof.
  intros Hne. unfold _normalize_scores.
  destruct (map (get_score k) results) as [|s ss] eqn:E.
  { destruct results; [contradiction|discriminate]. }
  destruct (max_from_spec ss s) as [Hmax_in Hmax].
  destruct (min_from_spec ss s) as [Hmin_in Hmin].
  exists (Py.min_from s ss), (Py.max_from s ss).
  rewrite <- E in Hmax_in, Hmin_in.
  apply in_map_iff in Hmax_in. apply in_map_iff in Hmin_in.
  destruct Hmax_in as [b [Hb Hbin]]. destruct Hmin_in as [a [Ha Hain]].
  split; [exists a; auto|]. split; [exists b; auto|]. split.
  - intros r Hr.
    assert (Hin : In (get_score k r) (s :: ss)).
    { rewrite <- E. apply in_map. exact Hr. }
    split; [apply Hmin, Hin|apply Hmax, Hin].
  - destruct (Qeq_bool (Py.max_from s ss) (Py.min_from s ss)) eqn:Eq.
    + left. split; [apply Qeq_bool_iff, Eq|reflexivity].
    + right. split; [apply Qeq_bool_false, Eq|reflexivity].
Qed.

(** C2. On a non-empty list, [_normalize_scores] keeps every entry and
    writes a normalised score to each: when all scores are equal every
    normalised score is 1; otherwise every normalised score lies in [0,1],
    some entry (a maximal one) gets 1 and some entry (a minimal one)
    gets 0. *)
Theorem normalize_scores_min_max (results : list result_dict) (k : score_key) :
  results <> [] ->
  let out := _normalize_scores results k in
  length out = length results /\
  (all_equal_scores k results ->
     Forall (fun r => get_norm k r = Some 1) out) /\
  (~ all_equal_scores k results ->
     Forall (fun r => exists v, get_norm k r = Some v /\ 0 <= v <= 1) out /\
     Exists (fun r => exists v, get_norm k r = Some v /\ v == 1) out /\
     Exists (fun r => exists v, get_norm k r = Some v /\ v == 0) out).
Proof.
  intros Hne out. subst out.
  destruct (normalize_scores_cases results k Hne)
    as (lo & hi & (a & Ha & Hlo) & (b & Hb & Hhi) & Hbnd & Hcase).
  destruct Hcase as [[Heq ->]|[Hneq ->]].
  - split; [apply length_map|]. split.
    + intros _. apply List.Forall_map, List.Forall_forall. intros r _.
      apply get_norm_set_norm.
    + intros Hno. exfalso. apply Hno. intros x y Hx Hy.
      destruct (Hbnd x Hx), (Hbnd y Hy). lra.
  - split; [apply length_map|]. split.
    + intros Hall. exfalso. apply Hneq.
      rewrite <- Hlo, <- Hhi. apply Hall; assumption.
    + intros _. split; [|split].
      * apply List.Forall_map, List.Forall_forall. intros r Hr.
        eexists. split; [apply get_norm_set_norm|].
        destruct (Hbnd r Hr). apply min_max_bounds; assumption.
      * apply List.Exists_map, List.Exists_exists. exists b. split; [exact Hb|].
        eexists. split; [apply get_norm_set_norm|].
        rewrite Hhi. apply min_max_hi, Hneq.
      * apply List.Exists_map, List.Exists_exists. exists a. split; [exact Ha|].
        eexists. split; [apply get_norm_set_norm|].
        rewrite Hlo. apply min_max_lo, Hneq.
Qed.

Lemma normalize_scores_min_max_witness :
  sample_vector_hits <> [] /\
  length (_normalize_scores sample_vector_hits vector_score_key)
    = length sample_vector_hits.
Proof.
  assert (H : sample_vector_hits <> []) by discriminate.
  split; [exact H|].
  apply (normalize_scores_min_max sample_vector_hits vector_score_key H).
Defined.

Example normalize_scores_sample :
  map (fun r => option_map Qred (vector_score_norm r))
      (_normalize_scores sample_vector_hits vector_score_key)
  = [Some 1; Some (1 # 2); Some 0].
Proof. vm_compute. reflexivity. Qed.

(** ** Stable descending sort *)

Section Sorting.
Context {A : Type} (key : A -> Q).

Lemma insert_desc_perm (x : A) (l : list A) :
  Permutation (Py.insert_desc key x l) (x :: l).
Proof.
  induction l as [|y l IH]; cbn [Py.insert_desc].
  - reflexivity.
  - destruct (Qle_bool (key y) (key x)); [reflexivity|].
    rewrite IH. apply perm_swap.
Qed.

Lemma sort_desc_perm (l : list A) : Permutation (Py.sort_desc key l) l.
Proof.
  induction l as [|x l IH]; cbn.
  - reflexivity.
  - fold (Py.sort_desc key l). rewrite insert_desc_perm, IH. reflexivity.
Qed.

Lemma sort_desc_In (l : list A) (x : A) : In x (Py.sort_desc key l) <-> In x l.
Proof.
  split; apply Permutation_in;
    [apply sort_desc_perm | symmetry; apply sort_desc_perm].
Qed.

Lemma sort_desc_length (l : list A) : length (Py.sort_desc key l) = length l.
Proof. apply Permutation_length, sort_desc_perm. Qed.

Lemma insert_desc_descending (x : A) (l : list A) :
  descending key l -> descending key (Py.insert_desc key x l).
Proof.
  unfold descending. induction l as [|y l IH]; intros Hs; cbn [Py.insert_desc].
  - constructor; constructor.
  - destruct (Qle_bool (key y) (key x)) eqn:E.
    + apply Qle_bool_iff in E. constructor; [exact Hs|].
      constructor; [exact E|].
      apply StronglySorted_inv in Hs. destruct Hs as [_ Hall].
      eapply List.Forall_impl; [|exact Hall]. intros a Ha. cbn in Ha.
      apply Qle_trans with (key y); assumption.
    + apply StronglySorted_inv in Hs. destruct Hs as [Hs Hall].
      constructor; [apply IH, Hs|].
      apply List.Forall_forall. intros a Ha.
      apply (Permutation_in _ (insert_desc_perm x l)) in Ha.
      destruct Ha as [<-|Ha].
      * apply Qlt_le_weak. apply Qnot_le_lt. intros Hle.
        apply Qle_bool_iff in Hle. congruence.
      * rewrite List.Forall_forall in Hall. apply Hall, Ha.
Qed.

Lemma sort_desc_descending (l : list A) : descending key (Py.sort_desc key l).
Proof.
  induction l as [|x l IH]; cbn.
  - constructor.
  - apply insert_desc_descending, IH.
Qed.

(** Stability: the elements with a given key value keep their order. *)
Lemma insert_desc_filter_eq (v : Q) (x : A) (l : list A) :
  List.filter (fun a => Qeq_bool (key a) v) (Py.insert_desc key x l) =
  List.filter (fun a => Qeq_bool (key a) v) (x :: l).
Proof.
  induction l as [|y l IH]; cbn [Py.insert_desc].
  - reflexivity.
  - destruct (Qle_bool (key y) (key x)) eqn:E; [reflexivity|].
    cbn [List.filter]. rewrite IH. cbn [List.filter].
    destruct (Qeq_bool (key x) v) eqn:Ex; [|reflexivity].
    destruct (Qeq_bool (key y) v) eqn:Ey; [|reflexivity].
    exfalso. apply Qeq_bool_iff in Ex, Ey.
    assert (Hle : key y <= key x) by (rewrite Ex, Ey; apply Qle_refl).
    apply Qle_bool_iff in Hle. congruence.
Qed.

Lemma sort_desc_stable (v : Q) (l : list A) :
  List.filter (fun a => Qeq_bool (key a) v) (Py.sort_desc key l) =
  List.filter (fun a => Qeq_bool (key a) v) l.
Proof.
  induction l as [|x l IH]; cbn [Py.sort_desc fold_right].
  - reflexivity.
  - fold (Py.sort_desc key l). rewrite insert_desc_filter_eq.
    cbn [List.filter]. rewrite IH. reflexivity.
Qed.

Lemma descending_head_max (x : A) (l : list A) :
  descending key (x :: l) -> forall a, In a (x :: l) -> key a <= key x.
Proof.
  intros Hs a [<-|Ha]; [apply Qle_refl|].
  apply StronglySorted_inv in Hs. destruct Hs as [_ Hall].
  rewrite List.Forall_forall in Hall. apply Hall, Ha.
Qed.

End Sorting.

(** Sorting commutes with an injection of the elements. *)
Lemma sort_desc_map {A B : Type} (f : A -> B) (key : B -> Q) (l : list A) :
  Py.sort_desc key (map f l) = map f (Py.sort_desc (fun a => key (f a)) l).
Proof.
  induction l as [|x l IH]; cbn [map Py.sort_desc fold_right].
  - reflexivity.
  - fold (Py.sort_desc key (map f l)).
    fold (Py.sort_desc (fun a => key (f a)) l). rewrite IH.
    generalize (Py.sort_desc (fun a => key (f a)) l). intros s.
    induction s as [|y s IHs]; cbn [map Py.insert_desc].
    + reflexivity.
    + destruct (Qle_bool (key (f y)) (key (f x))); [reflexivity|].
      cbn [map]. rewrite IHs. reflexivity.
Qed.

(** ** Insertion-ordered dictionaries *)

Lemma mapM_Some_map {A B : Type} (f : A -> option B) (g : A -> B) (l : list A) :
  (forall x, In x l -> f x = Some (g x)) -> Py.mapM f l = Some (map g l).
Proof.
  induction l as [|x l IH]; intros H; cbn [Py.mapM map].
  - reflexivity.
  - rewrite (H x (or_introl eq_refl)), IH; [reflexivity|].
    intros y Hy. apply H. right. exact Hy.
Qed.

Lemma get_In_NoDup {V : Type} (d : Py.dict V) (k : string) (v : V) :
  List.NoDup (Py.keys d) -> In (k, v) d -> Py.get d k = Some v.
Proof.
  induction d as [|[k' v'] d IH]; intros Hnd Hin; [destruct Hin|].
  cbn [Py.get]. cbn in Hnd. apply List.NoDup_cons_iff in Hnd.
  destruct Hnd as [Hnot Hnd].
  destruct (String.eqb_spec k' k) as [->|Hne].
  - destruct Hin as [Heq|Hin]; [congruence|].
    exfalso. apply Hnot. change k with (fst (k, v)). apply in_map, Hin.
  - destruct Hin as [Heq|Hin]; [congruence|]. apply IH; assumption.
Qed.

Lemma mapM_item_of {V : Type} (d l : Py.dict V) :
  List.NoDup (Py.keys d) -> (forall e, In e l -> In e d) ->
  Py.mapM (item_of d) (Py.keys l) = Some l.
Proof.
  intros Hnd Hsub.
  induction l as [|[k v] l IH]; [reflexivity|].
  cbn [Py.keys map fst Py.mapM]. unfold item_of at 1.
  rewrite (get_In_NoDup d k v Hnd (Hsub _ (or_introl eq_refl))).
  unfold Py.keys in IH. rewrite IH; [reflexivity|].
  intros e He. apply Hsub. right. exact He.
Qed.

Section MappedKeys.
Context {V : Type} (f : string -> V).

Lemma get_mapped_absent (ks : list string) (k : string) :
  ~ In k ks -> Py.get (map (fun k => (k, f k)) ks) k = None.
Proof.
  induction ks as [|a ks IH]; intros Hnot; [reflexivity|].
  cbn [map Py.get]. destruct (String.eqb_spec a k) as [->|Hne].
  - exfalso. apply Hnot. left. reflexivity.
  - apply IH. intros Hin. apply Hnot. right. exact Hin.
Qed.

Lemma get_mapped_present (ks : list string) (k : string) :
  In k ks -> Py.get (map (fun k => (k, f k)) ks) k = Some (f k).
Proof.
  induction ks as [|a ks IH]; intros Hin; [destruct Hin|].
  cbn [map Py.get]. destruct (String.eqb_spec a k) as [->|Hne];
    [reflexivity|].
  destruct Hin as [Heq|Hin]; [contradiction|]. apply IH, Hin.
Qed.

Lemma set_mapped_absent (ks : list string) (k : string) (v : V) :
  ~ In k ks ->
  Py.set (map (fun k => (k, f k)) ks) k v =
  (map (fun k => (k, f k)) ks ++ [(k, v)])%list.
Proof.
  induction ks as [|a ks IH]; intros Hnot; [reflexivity|].
  cbn [map Py.set]. destruct (String.eqb_spec a k) as [->|Hne].
  - exfalso. apply Hnot. left. reflexivity.
  - rewrite IH; [reflexivity|]. intros Hin. apply Hnot. right. exact Hin.
Qed.

Lemma update_mapped_absent (ks : list string) (k : string) (v : V)
    (h : V -> V) :
  ~ In k ks ->
  Py.update (map (fun k => (k, f k)) ks ++ [(k, v)])%list k h =
  (map (fun k => (k, f k)) ks ++ [(k, h v)])%list.
Proof.
  induction ks as [|a ks IH]; intros Hnot.
  - cbn. rewrite String.eqb_refl. reflexivity.
  - cbn [map app Py.update]. destruct (String.eqb_spec a k) as [->|Hne].
    + exfalso. apply Hnot. left. reflexivity.
    + rewrite IH; [reflexivity|]. intros Hin. apply Hnot. right. exact Hin.
Qed.

Lemma update_mapped_present (ks : list string) (k : string) (h : V -> V) :
  List.NoDup ks ->
  Py.update (map (fun k => (k, f k)) ks) k h =
  map (fun a => (a, if String.eqb a k then h (f a) else f a)) ks.
Proof.
  induction ks as [|a ks IH]; intros Hnd; [reflexivity|].
  apply List.NoDup_cons_iff in Hnd. destruct Hnd as [Hnot Hnd].
  cbn [map Py.update]. destruct (String.eqb_spec a k) as [->|Hne].
  - f_equal. apply map_ext_in. intros b Hb.
    destruct (String.eqb_spec b k) as [->|_]; [contradiction|reflexivity].
  - rewrite IH by exact Hnd. reflexivity.
Qed.

End MappedKeys.

(** ** Order of first appearance *)

Lemma first_occurrences_In (l : list string) (x : string) :
  In x (first_occurrences l) <-> In x l.
Proof.
  induction l as [|a l IH]; [reflexivity|]. cbn [first_occurrences].
  split.
  - intros [<-|Hin]; [left; reflexivity|].
    apply filter_In in Hin. right. apply IH, Hin.
  - intros [<-|Hin]; [left; reflexivity|].
    destruct (String.eqb_spec a x) as [->|Hne]; [left; reflexivity|].
    right. apply filter_In. split; [apply IH, Hin|].
    apply negb_true_iff, String.eqb_neq, Hne.
Qed.

Lemma first_occurrences_NoDup (l : list string) :
  List.NoDup (first_occurrences l).
Proof.
  induction l as [|a l IH]; cbn [first_occurrences]; constructor.
  - intros Hin. apply filter_In in Hin. destruct Hin as [_ Hne].
    rewrite String.eqb_refl in Hne. discriminate.
  - apply List.NoDup_filter, IH.
Qed.

Lemma first_occurrences_fresh (l : list string) (x : string) :
  ~ In x l -> first_occurrences (l ++ [x]) = (first_occurrences l ++ [x])%list.
Proof.
  induction l as [|a l IH]; intros Hnot; [reflexivity|].
  cbn [app first_occurrences].
  rewrite IH by (intros H; apply Hnot; right; exact H).
  rewrite List.filter_app. cbn [List.filter].
  destruct (String.eqb_spec a x) as [->|Hne]; [|reflexivity].
  exfalso. apply Hnot. left. reflexivity.
Qed.

Lemma first_occurrences_seen (l : list string) (x : string) :
  In x l -> first_occurrences (l ++ [x]) = first_occurrences l.
Proof.
  induction l as [|a l IH]; intros Hin; [destruct Hin|].
  cbn [app first_occurrences].
  destruct (String.eqb_spec a x) as [->|Hne].
  - f_equal. destruct (in_dec string_dec x l) as [Hx|Hx].
    + rewrite IH by exact Hx. reflexivity.
    + rewrite (first_occurrences_fresh l x Hx), List.filter_app.
      cbn [List.filter]. rewrite String.eqb_refl. cbn [negb].
      apply app_nil_r.
  - destruct Hin as [Heq|Hin]; [contradiction|].
    rewrite IH by exact Hin. reflexivity.
Qed.

(** ** Article grouping *)

Lemma filter_none {A : Type} (p : A -> bool) (l : list A) :
  (forall x, In x l -> p x = false) -> List.filter p l = [].
Proof.
  induction l as [|x l IH]; intros H; [reflexivity|]. cbn [List.filter].
  rewrite (H x (or_introl eq_refl)). apply IH.
  intros y Hy. apply H. right. exact Hy.
Qed.

Lemma contains_arrival_groups (results : list result_dict) (k : string) :
  Py.contains (arrival_groups results) k = true <->
  In k (map key_of results).
Proof.
  unfold Py.contains, arrival_groups.
  destruct (in_dec string_dec k (map key_of results)) as [Hin|Hnot].
  - rewrite get_mapped_present by (apply first_occurrences_In, Hin).
    tauto.
  - rewrite get_mapped_absent
      by (intros H; apply Hnot, first_occurrences_In, H).
    split; [discriminate|contradiction].
Qed.

(** The first loop of [_group_chunks_by_article] builds the groups in order
    of first appearance, each in input order. *)
Lemma fold_group_add (results : list result_dict) :
  fold_left group_add results [] = arrival_groups results.
Proof.
  induction results as [|r results IH] using rev_ind; [reflexivity|].
  rewrite fold_left_app. cbn [fold_left]. rewrite IH. clear IH.
  unfold group_add. fold (key_of r).
  destruct (in_dec string_dec (key_of r) (map key_of results)) as [Hin|Hnot].
  - destruct (Py.contains (arrival_groups results) (key_of r)) eqn:E.
    2:{ apply contains_arrival_groups in Hin. congruence. }
    unfold arrival_groups. rewrite map_app. cbn [map].
    rewrite (first_occurrences_seen _ _ Hin).
    rewrite update_mapped_present by apply first_occurrences_NoDup.
    apply map_ext. intros k. f_equal.
    rewrite List.filter_app. cbn [List.filter].
    change (in_article k r) with (String.eqb (key_of r) k).
    rewrite (String.eqb_sym (key_of r) k).
    destruct (String.eqb k (key_of r)); [reflexivity|].
    symmetry. apply app_nil_r.
  - destruct (Py.contains (arrival_groups results) (key_of r)) eqn:E.
    { apply contains_arrival_groups in E. contradiction. }
    assert (Hfo : ~ In (key_of r) (first_occurrences (map key_of results))).
    { intros H. apply Hnot, first_occurrences_In, H. }
    unfold arrival_groups. rewrite map_app. cbn [map].
    rewrite (first_occurrences_fresh _ _ Hnot).
    rewrite set_mapped_absent by exact Hfo.
    rewrite update_mapped_absent by exact Hfo.
    rewrite map_app. cbn [map app]. f_equal.
    + apply map_ext_in. intros k Hk. f_equal.
      rewrite List.filter_app. cbn [List.filter].
      change (in_article k r) with (String.eqb (key_of r) k).
      destruct (String.eqb_spec (key_of r) k) as [<-|_]; [contradiction|].
      symmetry. apply app_nil_r.
    + f_equal. f_equal. rewrite List.filter_app. cbn [List.filter].
      change (in_article (key_of r) r)
        with (String.eqb (key_of r) (key_of r)).
      rewrite String.eqb_refl.
      rewrite filter_none; [reflexivity|].
      intros x Hx. unfold in_article.
      destruct (String.eqb_spec (key_of x) (key_of r)) as [Heq|_];
        [|reflexivity].
      exfalso. apply Hnot. rewrite <- Heq. apply in_map, Hx.
Qed.

Lemma arrival_groups_keys (results : list result_dict) :
  Py.keys (arrival_groups results) = first_occurrences (map key_of results).
Proof.
  unfold Py.keys, arrival_groups. rewrite map_map. cbn [fst]. apply map_id.
Qed.

Lemma article_groups_keys (results : list result_dict) :
  Py.keys (article_groups results) = first_occurrences (map key_of results).
Proof.
  unfold Py.keys, article_groups. rewrite map_map. cbn [fst]. apply map_id.
Qed.

Lemma article_groups_arrival (results : list result_dict) :
  article_groups results =
  map (fun e => (fst e, Py.sort_desc score (snd e))) (arrival_groups results).
Proof. unfold article_groups, arrival_groups. rewrite map_map. reflexivity. Qed.

(** Every article of the input has at least one fragment. *)
Lemma arrival_group_inhabited (results : list result_dict) (k : string)
    (chunks : list result_dict) :
  In (k, chunks) (arrival_groups results) ->
  chunks = List.filter (in_article k) results /\ chunks <> [].
Proof.
  unfold arrival_groups. intros Hin. apply in_map_iff in Hin.
  destruct Hin as [k' [Heq Hk]]. inversion Heq; subst k' chunks. clear Heq.
  split; [reflexivity|].
  apply first_occurrences_In, in_map_iff in Hk. destruct Hk as [r [Hr Hin]].
  assert (H : In r (List.filter (in_article k) results)).
  { apply filter_In. split; [exact Hin|].
    unfold in_article. rewrite Hr. apply String.eqb_refl. }
  intros Hnil. rewrite Hnil in H. destruct H.
Qed.

Lemma sort_desc_not_nil {A : Type} (key : A -> Q) (l : list A) :
  l <> [] -> Py.sort_desc key l <> [].
Proof.
  intros Hne Hnil. apply Hne. apply length_zero_iff_nil.
  rewrite <- (sort_desc_length key), Hnil. reflexivity.
Qed.

Lemma article_score_composite (chunks : list result_dict) :
  chunks <> [] -> article_score chunks = Some (composite chunks).
Proof. destruct chunks; [contradiction|reflexivity]. Qed.

(** [_group_chunks_by_article] never raises: its result is the groups of
    [article_groups] stably sorted by descending composite score. *)
Lemma group_chunks_by_article_closed_form (results : list result_dict) :
  _group_chunks_by_article results =
  Some (Py.sort_desc entry_composite (article_groups results)).
Proof.
  unfold _group_chunks_by_article. rewrite fold_group_add.
  rewrite (mapM_Some_map _
    (fun e => ((fst e, Py.sort_desc score (snd e)),
               (fst e, composite (Py.sort_desc score (snd e)))))).
  2:{ intros [k chunks] Hin. unfold score_article. cbn [fst snd].
      apply arrival_group_inhabited in Hin. destruct Hin as [_ Hne].
      rewrite article_score_composite by (apply sort_desc_not_nil, Hne).
      reflexivity. }
  rewrite !map_map. cbn [fst snd].
  rewrite <- article_groups_arrival.
  change (map (fun e => (fst e, composite (Py.sort_desc score (snd e))))
              (arrival_groups results))
    with (map (fun e => (fst ((fun e => (fst e, Py.sort_desc score (snd e))) e),
                         entry_composite
                           ((fun e => (fst e, Py.sort_desc score (snd e))) e)))
              (arrival_groups results)).
  rewrite <- (map_map (fun e => (fst e, Py.sort_desc score (snd e)))
                      (fun e => (fst e, entry_composite e))).
  rewrite <- article_groups_arrival.
  set (d := article_groups results).
  assert (Hnd : List.NoDup (Py.keys d)).
  { subst d. rewrite article_groups_keys. apply first_occurrences_NoDup. }
  set (scores := map (fun e => (fst e, entry_composite e)) d).
  assert (Hkeys : Py.keys scores = Py.keys d).
  { subst scores. unfold Py.keys. rewrite map_map. reflexivity. }
  rewrite (mapM_item_of scores scores);
    [|rewrite Hkeys; exact Hnd|intros e He; exact He].
  subst scores. rewrite sort_desc_map. cbn [snd].
  change (fun a : string * list result_dict => entry_composite a)
    with entry_composite.
  unfold Py.keys at 1. rewrite map_map. cbn [fst].
  apply (mapM_item_of d). 
  - exact Hnd.
  - intros e He. apply sort_desc_In in He. exact He.
Qed.

Lemma composite_of_sorted (chunks : list result_dict) :
  chunks <> [] -> descending score chunks ->
  is_composite_of (map score chunks) (composite chunks).
Proof.
  intros Hne Hs. destruct chunks as [|best rest]; [contradiction|].
  exists (score best). split; [left; reflexivity|]. split.
  - intros s Hin. apply in_map_iff in Hin. destruct Hin as [c [<- Hc]].
    apply (descending_head_max score best rest Hs c Hc).
  - unfold composite, article_score. cbn [default from_option id].
    unfold Py.len. rewrite length_map.
    set (avg := Py.sum _ / _). ring.
Qed.

Lemma article_groups_entry (results : list result_dict) (k : string)
    (chunks : list result_dict) :
  In (k, chunks) (article_groups results) ->
  chunks = Py.sort_desc score (List.filter (in_article k) results) /\
  chunks <> [].
Proof.
  rewrite article_groups_arrival. intros Hin. apply in_map_iff in Hin.
  destruct Hin as [[k' c'] [Heq Hin]]. cbn [fst snd] in Heq.
  inversion Heq; subst k' chunks. clear Heq.
  apply arrival_group_inhabited in Hin. destruct Hin as [-> Hne].
  split; [reflexivity|]. apply sort_desc_not_nil, Hne.
Qed.

(** C3. On a non-empty result list [_group_chunks_by_article] returns
    groups such that each group holds all the fragments of its article, best
    first; the score it ranks the group by is 0.7 times the best fragment
    score plus 0.3 times the mean of the group's scores; and the groups are
    in descending order of that score.  On the worked example the article
    with scores 0.95, 0.2 (composite 0.8375) comes before the article with
    scores 0.9, 0.6, 0.3 (composite 0.81). *)
Theorem group_chunks_composite_ranking :
  (forall results : list result_dict,
     results <> [] ->
     exists groups,
       _group_chunks_by_article results = Some groups /\
       groups <> [] /\
       (forall k chunks,
          In (k, chunks) groups ->
          Permutation chunks (List.filter (in_article k) results) /\
          descending score chunks /\
          exists c,
            article_score chunks = Some c /\
            is_composite_of (map score chunks) c) /\
       descending entry_composite groups) /\
  (option_map (map (fun e => (fst e, map score (snd e))))
     (_group_chunks_by_article (article_41_fragments ++ article_12_fragments))
   = Some [("code_penal_12", [95 # 100; 2 # 10]);
           ("code_travail_41", [9 # 10; 6 # 10; 3 # 10])] /\
   composite article_12_fragments == 8375 # 10000 /\
   composite article_41_fragments == 81 # 100).
Proof.
  split.
  - intros results Hne.
    exists (Py.sort_desc entry_composite (article_groups results)).
    split; [apply group_chunks_by_article_closed_form|]. split; [|split].
    + apply sort_desc_not_nil. unfold article_groups.
      destruct results as [|r results]; [contradiction|]. discriminate.
    + intros k chunks Hin. apply sort_desc_In in Hin.
      apply article_groups_entry in Hin. destruct Hin as [Heq Hnil].
      assert (Hs : descending score chunks).
      { rewrite Heq. apply sort_desc_descending. }
      split; [rewrite Heq; apply sort_desc_perm|]. split; [exact Hs|].
      exists (composite chunks).
      split; [apply article_score_composite, Hnil|].
      apply composite_of_sorted; assumption.
    + apply sort_desc_descending.
  - split; [vm_compute; reflexivity|]. split; vm_compute; reflexivity.
Qed.

Lemma group_chunks_composite_ranking_witness :
  article_41_fragments <> [] /\
  exists groups,
    _group_chunks_by_article article_41_fragments = Some groups /\
    groups <> [] /\
    (forall k chunks,
       In (k, chunks) groups ->
       Permutation chunks (List.filter (in_article k) article_41_fragments) /\
       descending score chunks /\
       exists c,
         article_score chunks = Some c /\
         is_composite_of (map score chunks) c) /\
    descending entry_composite groups.
Proof.
  split; [discriminate|].
  apply (proj1 group_chunks_composite_ranking article_41_fragments).
  discriminate.
Defined.

(** C7, the claim as stated fails: two articles with equal composite scores
    come out in arrival order, here with the larger key first, and the
    reversed input gives the reversed group order. *)
Lemma group_ties_counterexample :
  (exists groups,
     _group_chunks_by_article tied_fragments = Some groups /\
     ~ ties_by_ascending_identity groups) /\
  option_map Py.keys (_group_chunks_by_article tied_fragments) =
    Some ["code_travail_41"; "code_penal_12"] /\
  option_map Py.keys (_group_chunks_by_article (rev tied_fragments)) =
    Some ["code_penal_12"; "code_travail_41"].
Proof.
  split; [|split; vm_compute; reflexivity].
  eexists. split; [vm_compute; reflexivity|].
  intros H.
  specialize (H [] _ [] _ [] eq_refl). cbn [fst] in H.
  assert (Hleb : String.leb "code_travail_41" "code_penal_12" = true).
  { apply H. vm_compute. reflexivity. }
  vm_compute in Hleb. discriminate.
Qed.

Lemma filter_map_comm {A B : Type} (f : A -> B) (p : B -> bool) (l : list A) :
  List.filter p (map f l) = map f (List.filter (fun a => p (f a)) l).
Proof.
  induction l as [|x l IH]; [reflexivity|]. cbn [map List.filter].
  rewrite IH. destruct (p (f x)); reflexivity.
Qed.

(** C7 as amended. Groups whose composite scores are equal are emitted in
    the order in which their articles first appear in the input: for every
    score value, the keys of the output groups with that composite score
    are the articles with that composite score in order of first
    appearance. *)
Theorem group_ties_keep_first_appearance (results : list result_dict) :
  exists groups,
    _group_chunks_by_article results = Some groups /\
    forall v,
      Py.keys (List.filter (fun e => Qeq_bool (entry_composite e) v) groups) =
      List.filter (fun k => Qeq_bool (article_composite results k) v)
                  (first_occurrences (map key_of results)).
Proof.
  eexists. split; [apply group_chunks_by_article_closed_form|].
  intros v. rewrite sort_desc_stable. unfold article_groups.
  rewrite filter_map_comm. unfold Py.keys. rewrite map_map. cbn [fst].
  rewrite map_id. reflexivity.
Qed.

(** ** Source extraction *)

Lemma length_append (s1 s2 : string) :
  String.length (s1 ++ s2) = (String.length s1 + String.length s2)%nat.
Proof.
  induction s1 as [|c s1 IH]; simpl; [reflexivity|].
  rewrite IH. reflexivity.
Qed.

Lemma length_substring_0 (n : nat) : forall s : string,
  (n <= String.length s)%nat -> String.length (substring 0 n s) = n.
Proof.
  induction n as [|n IH]; intros s Hle.
  - destruct s; reflexivity.
  - destruct s as [|c s]; cbn [String.length] in Hle; [lia|].
    cbn [substring String.length]. rewrite IH by lia. reflexivity.
Qed.

Lemma filter_filter {A : Type} (p q : A -> bool) (l : list A) :
  List.filter p (List.filter q l) = List.filter (fun x => q x && p x) l.
Proof.
  induction l as [|x l IH]; [reflexivity|]. cbn [List.filter].
  destruct (q x); cbn [List.filter andb]; rewrite IH; reflexivity.
Qed.

(** The loop of [_extract_sources] from any intermediate state. *)
Lemma fold_extract_step (results : list result_dict) :
  forall (acc : list Source.t) (seen : gset string),
    fst (fold_left extract_step results (acc, seen)) =
    (acc ++ map source_of
              (List.filter (fun x => negb (bool_decide (key_of x ∈ seen)))
                           (first_per_article results)))%list.
Proof.
  induction results as [|r rs IH]; intros acc seen.
  - cbn. symmetry. apply app_nil_r.
  - cbn [fold_left first_per_article List.filter]. unfold extract_step at 2.
    fold (key_of r). cbn [fst snd].
    destruct (bool_decide (key_of r ∈ seen)) eqn:E; cbn [negb].
    + rewrite IH. f_equal. f_equal. rewrite filter_filter.
      apply List.filter_ext. intros x.
      apply bool_decide_eq_true in E. unfold in_article.
      destruct (String.eqb_spec (key_of x) (key_of r)) as [Heq|Hne];
        [|reflexivity].
      cbn [negb andb]. rewrite Heq. rewrite bool_decide_eq_true_2 by exact E.
      reflexivity.
    + rewrite IH. rewrite <- app_assoc. cbn [app map]. f_equal. f_equal.
      f_equal. rewrite filter_filter. apply List.filter_ext. intros x.
      apply bool_decide_eq_false in E. unfold in_article.
      destruct (String.eqb_spec (key_of x) (key_of r)) as [Heq|Hne];
        cbn [negb andb].
      * rewrite Heq.
        rewrite bool_decide_eq_true_2
          by (apply elem_of_union_l, elem_of_singleton; reflexivity).
        reflexivity.
      * f_equal. apply bool_decide_ext.
        rewrite elem_of_union, elem_of_singleton. tauto.
Qed.

Lemma extract_sources_first_per_article (results : list result_dict) :
  _extract_sources results = map source_of (first_per_article results).
Proof.
  unfold _extract_sources. rewrite fold_extract_step. cbn [app].
  f_equal. clear.
  induction (first_per_article results) as [|x l IH]; [reflexivity|].
  cbn [List.filter].
  rewrite bool_decide_eq_false_2 by apply not_elem_of_empty.
  cbn [negb]. rewrite IH. reflexivity.
Qed.

Lemma first_per_article_In (results : list result_dict) (x : result_dict) :
  In x (first_per_article results) -> In x results.
Proof.
  induction results as [|r rs IH]; [intros []|]. cbn [first_per_article].
  intros [<-|Hin]; [left; reflexivity|].
  apply filter_In in Hin. right. apply IH, Hin.
Qed.

(** The fragments kept for one article: the first one carrying its key. *)
Lemma first_per_article_key (pre post : list result_dict) (r : result_dict) :
  (forall x, In x pre -> key_of x <> key_of r) ->
  List.filter (in_article (key_of r)) (first_per_article (pre ++ r :: post))
  = [r].
Proof.
  induction pre as [|a pre IH]; intros Hpre.
  - cbn [app first_per_article List.filter]. unfold in_article at 1.
    rewrite String.eqb_refl. f_equal. rewrite filter_filter.
    apply filter_none. intros x _. destruct (in_article (key_of r) x);
      reflexivity.
  - cbn [app first_per_article List.filter].
    assert (Ha : key_of a <> key_of r) by (apply Hpre; left; reflexivity).
    unfold in_article at 1. apply String.eqb_neq in Ha. rewrite Ha.
    rewrite filter_filter.
    rewrite <- (IH (fun x Hx => Hpre x (or_intror Hx))).
    apply List.filter_ext. intros x. unfold in_article.
    destruct (String.eqb_spec (key_of x) (key_of r)) as [Heq|Hne].
    + rewrite Heq, String.eqb_sym, Ha. reflexivity.
    + apply andb_false_r.
Qed.

(** C5, the claim as stated fails: with the lower-scored fragment first,
    the single entry returned for the article is the lower-scored one. *)
Lemma extract_sources_counterexample :
  key_of low_fragment = key_of high_fragment /\
  score low_fragment < score high_fragment /\
  _extract_sources [low_fragment; high_fragment] = [source_of low_fragment] /\
  source_of low_fragment <> source_of high_fragment.
Proof.
  split; [reflexivity|]. split; [reflexivity|].
  split; [vm_compute; reflexivity|]. vm_compute. discriminate.
Qed.

(** C5 as amended. [_extract_sources] keeps, for every article of the
    input, exactly one fragment: the first one in input order that carries
    the article's key.  It is the highest-scored fragment of the article
    whenever no later fragment of the article scores higher, as in the
    output of the article grouping. *)
Theorem extract_sources_keeps_first (pre post : list result_dict)
    (r : result_dict) :
  (forall x, In x pre -> key_of x <> key_of r) ->
  let results := (pre ++ r :: post)%list in
  let kept := first_per_article results in
  _extract_sources results = map source_of kept /\
  List.filter (in_article (key_of r)) kept = [r] /\
  ((forall x, In x post -> key_of x = key_of r -> score x <= score r) ->
   forall x, In x results -> key_of x = key_of r -> score x <= score r).
Proof.
  intros Hpre results kept. subst results kept.
  split; [apply extract_sources_first_per_article|].
  split; [apply first_per_article_key, Hpre|].
  intros Hpost x Hin Hkey. apply in_app_or in Hin.
  destruct Hin as [Hin|[<-|Hin]].
  - exfalso. apply (Hpre x Hin Hkey).
  - apply Qle_refl.
  - apply Hpost; assumption.
Qed.

Lemma extract_sources_keeps_first_witness :
  (forall x, In x [fragment "code_penal" "12" "d" (1 # 2)] ->
             key_of x <> key_of low_fragment) /\
  List.filter (in_article (key_of low_fragment))
    (first_per_article
       [fragment "code_penal" "12" "d" (1 # 2); low_fragment; high_fragment])
  = [low_fragment].
Proof.
  assert (H : forall x, In x [fragment "code_penal" "12" "d" (1 # 2)] ->
                        key_of x <> key_of low_fragment).
  { intros x [<-|[]]. vm_compute. discriminate. }
  split; [exact H|].
  apply (extract_sources_keeps_first
           [fragment "code_penal" "12" "d" (1 # 2)] [high_fragment]
           low_fragment H).
Defined.

(** C9, the claim as stated fails: a text of 151 characters gets a preview
    of 153 characters. *)
Lemma text_preview_counterexample :
  exists s,
    _extract_sources [fragment "code_travail" "41" long_text (1 # 2)] = [s] /\
    String.length (Source.text_preview s) = 153%nat /\
    ~ (String.length (Source.text_preview s) <= 150)%nat.
Proof.
  eexists. split; [vm_compute; reflexivity|].
  split; [vm_compute; reflexivity|]. vm_compute. lia.
Qed.

(** C9 as amended. The preview of every extracted source is the text of
    the fragment it was built from when that text has at most 150
    characters, and otherwise the first 150 characters of the text followed
    by the three-character marker, 153 characters in all; the marker is
    appended only in the second case. *)
Theorem text_preview_length (results : list result_dict) :
  Forall (fun s =>
            exists r,
              In r results /\ s = source_of r /\
              (String.length (Source.text_preview s) <= 153)%nat /\
              (((String.length (text r) <= 150)%nat /\
                Source.text_preview s = text r) \/
               ((150 < String.length (text r))%nat /\
                Source.text_preview s = substring 0 150 (text r) ++ "..." /\
                String.length (Source.text_preview s) = 153%nat)))
         (_extract_sources results).
Proof.
  rewrite extract_sources_first_per_article.
  apply List.Forall_forall. intros s Hin. apply in_map_iff in Hin.
  destruct Hin as [r [<- Hin]]. exists r.
  split; [apply first_per_article_In, Hin|]. split; [reflexivity|].
  cbn [source_of Source.text_preview]. unfold text_preview_of.
  destruct (Nat.ltb_spec 150 (String.length (text r))) as [Hlt|Hle].
  - assert (Hlen : String.length (Py.str_slice_to 150 (text r) ++ "...")
                   = 153%nat).
    { rewrite length_append. unfold Py.str_slice_to.
      rewrite length_substring_0 by lia. reflexivity. }
    split; [lia|]. right. split; [exact Hlt|]. split; [reflexivity|exact Hlen].
  - split; [lia|]. left. split; [exact Hle|reflexivity].
Qed.

(** ** Confidence *)

Lemma fold_plus_nonneg (l : list Q) : forall a,
  0 <= a -> (forall x, In x l -> 0 <= x) -> 0 <= fold_left Qplus l a.
Proof.
  induction l as [|x l IH]; intros a Ha H; cbn [fold_left]; [exact Ha|].
  apply IH.
  - assert (0 <= x) by (apply H; left; reflexivity). lra.
  - intros y Hy. apply H. right. exact Hy.
Qed.

Lemma sum_nonneg (l : list Q) : (forall x, In x l -> 0 <= x) -> 0 <= Py.sum l.
Proof. apply fold_plus_nonneg, Qle_refl. Qed.

Lemma len_pos {A : Type} (l : list A) : l <> [] -> 0 < Py.len l.
Proof.
  intros Hne. destruct l as [|x l]; [contradiction|].
  unfold Py.len. change 0 with (inject_Z 0). rewrite <- Zlt_Qlt.
  cbn [length]. lia.
Qed.

Lemma min2_le_r (x y : Q) : Py.min2 x y <= y.
Proof.
  unfold Py.min2. destruct (Py.Qlt_bool y x) eqn:E; [apply Qle_refl|].
  apply Qlt_bool_false in E. exact E.
Qed.

Lemma min2_nonneg (x y : Q) : 0 <= x -> 0 <= y -> 0 <= Py.min2 x y.
Proof.
  intros Hx Hy. unfold Py.min2. destruct (Py.Qlt_bool y x); assumption.
Qed.

(** Rounding stays between the integers around its argument. *)
Lemma round_half_even_bounds (x : Q) (lo hi : Z) :
  inject_Z lo <= x -> x <= inject_Z hi ->
  (lo <= Py.round_half_even x <= hi)%Z.
Proof.
  intros Hlo Hhi.
  assert (Hf1 : (lo <= Qfloor x)%Z).
  { rewrite <- (Qfloor_Z lo). apply Qfloor_resp_le, Hlo. }
  assert (Hf2 : (Qfloor x <= hi)%Z).
  { rewrite <- (Qfloor_Z hi). apply Qfloor_resp_le, Hhi. }
  unfold Py.round_half_even.
  destruct (Py.Qlt_bool (x - inject_Z (Qfloor x)) (1 # 2)) eqn:E1; [lia|].
  apply Qlt_bool_false in E1.
  assert (Hlt : (Qfloor x < hi)%Z).
  { apply Z.le_neq. split; [exact Hf2|]. intros Heq. rewrite Heq in E1. lra. }
  destruct (Py.Qlt_bool (1 # 2) (x - inject_Z (Qfloor x))); [lia|].
  destruct (Z.even (Qfloor x)); lia.
Qed.

Lemma round3_bounds (x : Q) : 0 <= x -> x <= 1 -> 0 <= Py.round3 x <= 1.
Proof.
  intros H0 H1.
  destruct (round_half_even_bounds (x * 1000) 0 1000) as [Hlo Hhi].
  - change (inject_Z 0) with 0. lra.
  - change (inject_Z 1000) with 1000. lra.
  - unfold Py.round3, Qle. cbn [Qnum Qden]. split; lia.
Qed.

Lemma round3_le_1 (x : Q) : x <= 1 -> Py.round3 x <= 1.
Proof.
  intros H1. unfold Py.round3, Py.round_half_even.
  assert (Hf : (Qfloor (x * 1000) <= 1000)%Z).
  { apply Z.le_trans with (Qfloor (inject_Z 1000)); [|rewrite Qfloor_Z; lia].
    apply Qfloor_resp_le. change (inject_Z 1000) with 1000. lra. }
  set (f := Qfloor (x * 1000)) in *.
  assert (Hfx : inject_Z f <= x * 1000) by apply Qfloor_le.
  assert (Hr : (f < 1000)%Z \/ x * 1000 - inject_Z f < 1 # 2).
  { destruct (Z.eq_dec f 1000%Z) as [Heq|Hne]; [right|left; lia].
    rewrite Heq. change (inject_Z 1000) with 1000. lra. }
  unfold Qle. cbn [Qnum Qden].
  destruct (Py.Qlt_bool (x * 1000 - inject_Z f) (1 # 2)) eqn:E1; [lia|].
  apply Qlt_bool_false in E1.
  destruct Hr as [Hr|Hr]; [|lra].
  destruct (Py.Qlt_bool (1 # 2) (x * 1000 - inject_Z f)); [lia|].
  destruct (Z.even f); lia.
Qed.

Lemma calculate_confidence_raw (results : list result_dict) :
  results <> [] ->
  _calculate_confidence results =
  Py.round3 (Py.min2 (raw_confidence results) 1).
Proof. intros Hne. destruct results; [contradiction|reflexivity]. Qed.

Lemma raw_confidence_nonneg (results : list result_dict) :
  results <> [] ->
  (forall r, In r (firstn 5 results) -> 0 <= score r) ->
  0 <= raw_confidence results.
Proof.
  intros Hne Hpos. unfold raw_confidence.
  assert (Htop : firstn 5 results <> []).
  { destruct results; [contradiction|discriminate]. }
  assert (Hsum : 0 <= Py.sum (map score (firstn 5 results))).
  { apply sum_nonneg. intros x Hx. apply in_map_iff in Hx.
    destruct Hx as [r [<- Hr]]. apply Hpos, Hr. }
  assert (Havg : 0 <= Py.sum (map score (firstn 5 results))
                      / Py.len (firstn 5 results)).
  { apply Qle_shift_div_l; [apply len_pos, Htop|]. lra. }
  assert (Hfac : 0 <= Py.min2 (Py.len results / 3) 1).
  { apply min2_nonneg; [|lra].
    apply Qle_shift_div_l; [reflexivity|].
    pose proof (len_pos results Hne). lra. }
  apply Qmult_le_0_compat; [apply Qmult_le_0_compat; assumption|].
  destruct (existsb is_hybrid results); lra.
Qed.

(** C4, the claim as stated fails: no lower clamp is applied, so a
    negative score gives a negative confidence where the clamp to the unit
    interval gives 0. *)
Lemma calculate_confidence_counterexample :
  _calculate_confidence [negative_fragment] == -167 # 1000 /\
  spec_confidence [negative_fragment] == 0 /\
  ~ _calculate_confidence [negative_fragment]
    == spec_confidence [negative_fragment].
Proof.
  split; [vm_compute; reflexivity|]. split; [vm_compute; reflexivity|].
  vm_compute. discriminate.
Qed.

(** C4 as amended. On a non-empty list the confidence is the mean score
    of the first five results, times [min(count / 3, 1)], times 1.1 if some
    result is tagged hybrid and 1 otherwise, capped at 1 from above only and
    rounded to three decimals; it never exceeds 1, and when the first five
    scores are non-negative it lies in the unit interval and is the value
    obtained by clamping to the unit interval. *)
Theorem calculate_confidence_formula (results : list result_dict) :
  results <> [] ->
  _calculate_confidence results =
    Py.round3 (Py.min2 (raw_confidence results) 1) /\
  (existsb is_hybrid results = true <->
   exists r, In r results /\ search_type r = Some "hybrid") /\
  (exists z : Z, _calculate_confidence results = Qmake z 1000) /\
  _calculate_confidence results <= 1 /\
  ((forall r, In r (firstn 5 results) -> 0 <= score r) ->
   0 <= _calculate_confidence results <= 1 /\
   _calculate_confidence results = spec_confidence results).
Proof.
  intros Hne. rewrite (calculate_confidence_raw results Hne).
  split; [reflexivity|]. split; [|split; [|split]].
  - rewrite existsb_exists. unfold is_hybrid.
    split; intros [r [Hin Hr]]; exists r; (split; [exact Hin|]).
    + destruct (search_type r) as [s|]; [|discriminate].
      apply String.eqb_eq in Hr. congruence.
    + rewrite Hr. reflexivity.
  - eexists. reflexivity.
  - apply round3_le_1, min2_le_r.
  - intros Hpos.
    pose proof (raw_confidence_nonneg results Hne Hpos) as H0.
    split.
    + apply round3_bounds; [apply min2_nonneg; [exact H0|lra]|apply min2_le_r].
    + unfold spec_confidence, clamp_unit, Py.min2.
      destruct (Py.Qlt_bool (raw_confidence results) 0) eqn:E; [|reflexivity].
      apply Qlt_bool_true in E. lra.
Qed.

Lemma calculate_confidence_formula_witness :
  article_41_fragments <> [] /\
  _calculate_confidence article_41_fragments =
    Py.round3 (Py.min2 (raw_confidence article_41_fragments) 1) /\
  _calculate_confidence article_41_fragments <= 1.
Proof.
  assert (Hne : article_41_fragments <> []) by discriminate.
  destruct (calculate_confidence_formula article_41_fragments Hne)
    as (Heq & _ & _ & Hle & _).
  split; [exact Hne|]. split; [exact Heq|exact Hle].
Defined.

(** ** The request pipeline *)

Lemma firstn_In {A : Type} (x : A) (n : nat) : forall l : list A,
  In x (firstn n l) -> In x l.
Proof.
  induction n as [|n IH]; intros l Hin; [destruct Hin|].
  destruct l as [|a l]; [destruct Hin|]. cbn [firstn] in Hin.
  destruct Hin as [<-|Hin]; [left; reflexivity|right; apply IH, Hin].
Qed.

Lemma slice_to_In {A : Type} (n : Z) (l : list A) (x : A) :
  In x (Py.slice_to n l) -> In x l.
Proof. unfold Py.slice_to. destruct (0 <=? n)%Z; apply firstn_In. Qed.

(** Every fragment of the flattened context is one of the search results. *)
Lemma flatten_best_In (results flattened : list result_dict) (n : Z)
    (r : result_dict) :
  flatten_best results n = Some flattened -> In r flattened -> In r results.
Proof.
  unfold flatten_best. rewrite group_chunks_by_article_closed_form.
  intros Heq Hin. inversion Heq; subst flattened. clear Heq.
  apply in_concat in Hin. destruct Hin as [chunks [Hc Hr]].
  apply slice_to_In in Hc. unfold Py.values in Hc. apply in_map_iff in Hc.
  destruct Hc as [[k c] [Hk Hin]]. cbn [snd] in Hk. subst c.
  apply sort_desc_In, article_groups_entry in Hin. destruct Hin as [-> _].
  apply sort_desc_In, filter_In in Hr. apply Hr.
Qed.

Lemma flatten_best_total (results : list result_dict) (n : Z) :
  exists flattened, flatten_best results n = Some flattened.
Proof.
  unfold flatten_best. rewrite group_chunks_by_article_closed_form.
  eexists. reflexivity.
Qed.

Lemma not_hybrid_of_vector (l : list result_dict) :
  Forall (fun r => search_type r = Some "vector") l ->
  existsb is_hybrid l = false.
Proof.
  intros H. induction H as [|r l Hr _ IH]; [reflexivity|].
  cbn [existsb]. rewrite IH. unfold is_hybrid. rewrite Hr. reflexivity.
Qed.

Section PipelineProperties.

Context {embedding : Type}.
Context (reformulate : string -> string).
Context (encode : string -> option embedding).
Context (store : embedding -> Z -> list result_dict).
Context (generate : string -> list result_dict -> string).

Lemma tagged_search_results_vector (question : string)
    (results : list result_dict) :
  tagged_search_results embedding reformulate encode store question
    = Some results ->
  Forall (fun r => search_type r = Some "vector") results.
Proof.
  unfold tagged_search_results.
  destruct (encode (reformulate question)) as [e|]; [|discriminate].
  intros Heq. inversion Heq. apply List.Forall_forall. intros r Hin.
  apply in_map_iff in Hin. destruct Hin as [r0 [<- _]]. reflexivity.
Qed.

(** C6. When the embedding succeeds and the vector store returns no
    fragment, the body of [search_and_answer] finishes without raising and
    the response is the fixed one: the canned answer, no sources,
    confidence 0 and a result count of 0. *)
Theorem empty_retrieval_response (question : string) (max_results : Z)
    (question_embedding : embedding) :
  encode (reformulate question) = Some question_embedding ->
  store question_embedding 20%Z = [] ->
  search_and_answer_try embedding reformulate encode store generate
    question max_results = Some no_information_response /\
  search_and_answer embedding reformulate encode store generate
    question max_results =
    {| answer := "Aucune information trouvée dans les textes juridiques.";
       sources := [];
       confidence := 0;
       search_results_count := 0;
       search_types := None |}.
Proof.
  intros Henc Hstore.
  assert (H : search_and_answer_try embedding reformulate encode store generate
    question max_results = Some no_information_response).
  { unfold search_and_answer_try, tagged_search_results.
    rewrite Henc, Hstore. reflexivity. }
  split; [exact H|]. unfold search_and_answer. rewrite H. reflexivity.
Qed.

(** C10. Every search result of a request is tagged [vector], and so is
    every fragment of the flattened context, which always exists; no
    fragment satisfies the hybrid test, the bonus factor is 1, and on a
    non-empty retrieval the response carries the confidence computed on
    those fragments, sources tagged [vector] and search types [vector]. *)
Theorem pipeline_never_hybrid (question : string) (max_results : Z)
    (results : list result_dict) :
  tagged_search_results embedding reformulate encode store question
    = Some results ->
  Forall (fun r => search_type r = Some "vector") results /\
  exists flattened,
    flatten_best results max_results = Some flattened /\
    Forall (fun r => search_type r = Some "vector") flattened /\
    existsb is_hybrid flattened = false /\
    hybrid_bonus flattened = 1 /\
    (results <> [] ->
     exists resp,
       search_and_answer_try embedding reformulate encode store generate
    question max_results = Some resp /\
       search_and_answer embedding reformulate encode store generate
    question max_results = resp /\
       confidence resp = _calculate_confidence flattened /\
       Forall (fun s => Source.search_type s = "vector") (sources resp) /\
       search_types resp =
         Some (map (fun _ => "vector") (Py.slice_to 5 flattened))).
Proof.
  intros Htag.
  pose proof (tagged_search_results_vector question results Htag) as Hvec.
  split; [exact Hvec|].
  destruct (flatten_best_total results max_results) as [flattened Hflat].
  exists flattened.
  assert (Hfv : Forall (fun r => search_type r = Some "vector") flattened).
  { apply List.Forall_forall. intros r Hr.
    rewrite List.Forall_forall in Hvec.
    apply Hvec, (flatten_best_In results flattened max_results r Hflat Hr). }
  pose proof (not_hybrid_of_vector flattened Hfv) as Hnh.
  split; [exact Hflat|]. split; [exact Hfv|]. split; [exact Hnh|].
  split; [unfold hybrid_bonus; rewrite Hnh; reflexivity|].
  intros Hne. eexists.
  assert (Hatt :
    search_and_answer_try embedding reformulate encode store generate
      question max_results = Some
    {| answer := generate question (Py.slice_to 10 flattened);
       sources := _extract_sources (Py.slice_to max_results flattened);
       confidence := _calculate_confidence flattened;
       search_results_count := Z.of_nat (length results);
       search_types :=
         Some (map (fun r => default "unknown" (search_type r))
                   (Py.slice_to 5 flattened)) |}).
  { unfold search_and_answer_try. rewrite Htag.
    destruct results as [|r0 results]; [contradiction|].
    rewrite Hflat. reflexivity. }
  split; [exact Hatt|].
  split; [unfold search_and_answer; rewrite Hatt; reflexivity|].
  cbn [confidence sources search_types].
  rewrite List.Forall_forall in Hfv.
  split; [reflexivity|]. split.
  - rewrite extract_sources_first_per_article.
    apply List.Forall_forall. intros s Hs. apply in_map_iff in Hs.
    destruct Hs as [r [<- Hr]]. cbn [source_of Source.search_type].
    apply first_per_article_In, slice_to_In in Hr.
    rewrite (Hfv r Hr). reflexivity.
  - f_equal. apply map_ext_in. intros r Hr. apply slice_to_In in Hr.
    rewrite (Hfv r Hr). reflexivity.
Qed.

End PipelineProperties.

Lemma empty_retrieval_response_witness :
  example_encode (example_reformulate "q") = Some tt /\
  empty_store tt 20%Z = [] /\
  search_and_answer unit example_reformulate example_encode empty_store
    example_generate "q" 5 = no_information_response.
Proof.
  split; [reflexivity|]. split; [reflexivity|].
  apply (empty_retrieval_response example_reformulate example_encode
           empty_store example_generate "q" 5%Z tt); reflexivity.
Defined.

Lemma pipeline_never_hybrid_witness :
  tagged_search_results unit example_reformulate example_encode example_store
    "q" = Some (map (set_search_type "vector") (example_store tt 20%Z)) /\
  exists flattened,
    flatten_best (map (set_search_type "vector") (example_store tt 20%Z)) 5
      = Some flattened /\
    hybrid_bonus flattened = 1.
Proof.
  assert (H : tagged_search_results unit example_reformulate example_encode
                example_store "q"
              = Some (map (set_search_type "vector") (example_store tt 20%Z)))
    by reflexivity.
  split; [exact H|].
  destruct (pipeline_never_hybrid example_reformulate example_encode
              example_store example_generate "q" 5%Z _ H)
    as (_ & flattened & Hflat & _ & _ & Hbonus & _).
  exists flattened. split; [exact Hflat|exact Hbonus].
Defined.

(** ** Rebuilding the keyword index *)

Section RebuildProperties.

Context {bm25 : Type}.
Context (BM25Okapi : list (list string) -> option bm25).
Context (tokenize : string -> list string).
Context (all_results : list result_dict) (old : Bm25.engine bm25).

Lemma trace_head (ss : list Bm25.stmt) (e : Bm25.engine bm25) :
  Bm25.trace bm25 BM25Okapi ss e =
  e :: tl (Bm25.trace bm25 BM25Okapi ss e).
Proof. destruct ss; reflexivity. Qed.

Lemma trace_last (ss : list Bm25.stmt) : forall e d : Bm25.engine bm25,
  List.last (Bm25.trace bm25 BM25Okapi ss e) d =
  Bm25.run bm25 BM25Okapi ss e.
Proof.
  induction ss as [|s ss IH]; intros e d; [reflexivity|].
  cbn [Bm25.trace]. rewrite trace_head.
  change (List.last (e :: ?x :: ?l) d) with (List.last (x :: l) d).
  rewrite <- trace_head. apply IH.
Qed.

Lemma run_loop (todo : list result_dict) (rest : list Bm25.stmt) :
  forall e : Bm25.engine bm25,
    Bm25.run bm25 BM25Okapi
      (flat_map (fun r => [Bm25.append_document (text r);
                           Bm25.append_metadata (metadata r)]) todo
       ++ rest)%list e =
    Bm25.run bm25 BM25Okapi rest
      {| Bm25.bm25_index := Bm25.bm25_index bm25 e;
         Bm25.documents := (Bm25.documents bm25 e ++ map text todo)%list;
         Bm25.metadata_list :=
           (Bm25.metadata_list bm25 e ++ map metadata todo)%list |}.
Proof.
  induction todo as [|r todo IH]; intros e.
  - cbn [flat_map app map]. rewrite !app_nil_r. destruct e; reflexivity.
  - cbn [flat_map app map]. unfold Bm25.run in *. cbn [fold_left].
    rewrite IH. cbn. rewrite <- !app_assoc. reflexivity.
Qed.

(** The last statement: the index reference is replaced, or the constructor
    raises and the engine is left as it is. *)
Lemma tail_observable (e : Bm25.engine bm25) :
  Bm25.bm25_index bm25 e = Bm25.bm25_index bm25 old ->
  Bm25.documents bm25 e = map text all_results ->
  Bm25.metadata_list bm25 e = map metadata all_results ->
  Forall (Rebuild.observable bm25 BM25Okapi tokenize all_results old)
    (Bm25.trace bm25 BM25Okapi
       match map (fun r => tokenize (text r)) all_results with
       | [] => []
       | _ :: _ =>
           [Bm25.assign_bm25_index
              (map (fun r => tokenize (text r)) all_results)]
       end e).
Proof.
  intros Hi Hd Hm.
  assert (He : Rebuild.observable bm25 BM25Okapi tokenize all_results old
                 e).
  { right. right. left. split; [exact Hi|].
    exists all_results, []. rewrite app_nil_r.
    split; [reflexivity|]. split; [exact Hd|left; exact Hm]. }
  destruct (map (fun r => tokenize (text r)) all_results) as [|t ts] eqn:Et.
  - constructor; [exact He|constructor].
  - cbn [Bm25.trace]. constructor; [exact He|].
    constructor; [|constructor]. cbn [Bm25.exec].
    destruct (BM25Okapi (t :: ts)) as [b|] eqn:Eb; [|exact He].
    right. right. right. exists b. rewrite Et. split; [exact Eb|].
    unfold Bm25.snapshot. rewrite Hd, Hm. reflexivity.
Qed.

Lemma loop_observable (todo : list result_dict) :
  forall (done : list result_dict) (e : Bm25.engine bm25),
    all_results = (done ++ todo)%list ->
    Bm25.bm25_index bm25 e = Bm25.bm25_index bm25 old ->
    Bm25.documents bm25 e = map text done ->
    Bm25.metadata_list bm25 e = map metadata done ->
    Forall (Rebuild.observable bm25 BM25Okapi tokenize all_results old)
      (Bm25.trace bm25 BM25Okapi
         (flat_map (fun r => [Bm25.append_document (text r);
                              Bm25.append_metadata (metadata r)]) todo
          ++ match map (fun r => tokenize (text r)) all_results with
             | [] => []
             | _ :: _ =>
                 [Bm25.assign_bm25_index
                    (map (fun r => tokenize (text r)) all_results)]
             end)%list e).
Proof.
  induction todo as [|r todo IH]; intros done e Hall Hi Hd Hm.
  - cbn [flat_map app]. rewrite app_nil_r in Hall. subst done.
    apply tail_observable; assumption.
  - cbn [flat_map app Bm25.trace]. constructor; [|constructor].
    + right. right. left. split; [exact Hi|].
      exists done, (r :: todo).
      split; [exact Hall|]. split; [exact Hd|left; exact Hm].
    + right. right. left. split; [exact Hi|].
      exists (done ++ [r])%list, todo. rewrite <- app_assoc.
      split; [exact Hall|]. cbn [Bm25.exec Bm25.documents Bm25.metadata_list].
      split; [rewrite Hd, map_app; reflexivity|].
      right. exists done, r. split; [reflexivity|exact Hm].
    + apply (IH (done ++ [r])%list).
      * rewrite <- app_assoc. exact Hall.
      * exact Hi.
      * cbn. rewrite Hd, map_app. reflexivity.
      * cbn. rewrite Hm, map_app. reflexivity.
Qed.

(** C8 as amended. The rebuild writes to the engine in place.  Every state
    observable while it runs is the old state, or the old state with the
    documents emptied, or the old index structure next to a prefix of the
    new documents and metadata, or the complete new snapshot; the run ends
    in the state the rebuild returns, which is the complete new snapshot
    when the corpus is non-empty and the index construction succeeds. *)
Theorem rebuild_observable_states :
  Forall (Rebuild.observable bm25 BM25Okapi tokenize all_results old)
    (Bm25.rebuild_trace bm25 BM25Okapi tokenize all_results old) /\
  List.last (Bm25.rebuild_trace bm25 BM25Okapi tokenize all_results old) old =
    Bm25.rebuild_bm25_index bm25 BM25Okapi tokenize all_results old /\
  (forall b,
     all_results <> [] ->
     BM25Okapi (map (fun r => tokenize (text r)) all_results) = Some b ->
     Bm25.rebuild_bm25_index bm25 BM25Okapi tokenize all_results old =
       Bm25.snapshot bm25 all_results b).
Proof.
  split; [|split].
  - unfold Bm25.rebuild_trace, Bm25._create_bm25_index_stmts.
    cbn [app Bm25.trace]. constructor; [left; reflexivity|].
    constructor.
    { right. left. split; [reflexivity|]. split; reflexivity. }
    apply (loop_observable all_results []); reflexivity.
  - apply trace_last.
  - intros b Hne Hb.
    unfold Bm25.rebuild_bm25_index, Bm25._create_bm25_index,
      Bm25._create_bm25_index_stmts.
    unfold Bm25.run at 1. cbn [app fold_left].
    change (fold_left (fun e s => Bm25.exec bm25 BM25Okapi s e) ?ss ?e)
      with (Bm25.run bm25 BM25Okapi ss e).
    rewrite run_loop. cbn [Bm25.exec Bm25.bm25_index Bm25.documents
                             Bm25.metadata_list app].
    destruct (map (fun r => tokenize (text r)) all_results) as [|t ts] eqn:Et.
    { destruct all_results; [contradiction|discriminate]. }
    unfold Bm25.run. cbn [fold_left Bm25.exec]. rewrite Hb. reflexivity.
Qed.

End RebuildProperties.

Lemma rebuild_observable_states_witness :
  one_document <> [] /\
  toy_index (map (fun r => toy_tokenize (text r)) one_document)
    = Some [["a"]] /\
  Bm25.rebuild_bm25_index (list (list string)) toy_index toy_tokenize
    one_document toy_snapshot
  = Bm25.snapshot (list (list string)) one_document [["a"]].
Proof.
  split; [discriminate|]. split; [reflexivity|].
  apply (rebuild_observable_states toy_index toy_tokenize one_document
           toy_snapshot); [discriminate|reflexivity].
Defined.

(** C8, the claim as stated fails: rebuilding a complete snapshot from the
    very corpus it was built from passes through a state with no documents,
    which is neither the previous snapshot nor the next one. *)
Lemma rebuild_not_atomic_counterexample :
  Bm25.rebuild_bm25_index (list (list string)) toy_index toy_tokenize
    one_document toy_snapshot = toy_snapshot /\
  ~ Rebuild.atomic (list (list string)) toy_index toy_tokenize
      one_document toy_snapshot toy_snapshot.
Proof.
  split; [reflexivity|]. unfold Rebuild.atomic. intros H.
  apply Forall_inv_tail, Forall_inv in H.
  destruct H as [H|H]; vm_compute in H; discriminate.
Qed.

(** ** Fusion *)

Section DictUpdates.
Context {V : Type}.

Lemma contains_keys (d : Py.dict V) (k : string) :
  Py.contains d k = true <-> In k (Py.keys d).
Proof.
  unfold Py.contains. induction d as [|[k' v'] d IH]; cbn [Py.get Py.keys map].
  - split; [discriminate|intros []].
  - cbn [fst]. destruct (String.eqb_spec k' k) as [->|Hne].
    + split; [left; reflexivity|reflexivity].
    + rewrite IH. unfold Py.keys. split; [right; assumption|].
      intros [Heq|Hin]; [contradiction|exact Hin].
Qed.

Lemma set_keys (d : Py.dict V) (k : string) (v : V) (k' : string) :
  In k' (Py.keys (Py.set d k v)) <-> k' = k \/ In k' (Py.keys d).
Proof.
  unfold Py.keys. induction d as [|[a x] d IH]; cbn [Py.set map fst].
  - split; [intros [<-|[]]; left; reflexivity|].
    intros [->|[]]. left. reflexivity.
  - destruct (String.eqb_spec a k) as [->|Hne]; cbn [map fst In].
    + split; [intros [<-|H]; right; [left|right]; auto|].
      intros [->|[<-|H]]; [left|left|right]; auto.
    + rewrite IH. tauto.
Qed.

Lemma set_NoDup (d : Py.dict V) (k : string) (v : V) :
  List.NoDup (Py.keys d) -> List.NoDup (Py.keys (Py.set d k v)).
Proof.
  induction d as [|[a x] d IH]; intros Hnd; cbn [Py.set Py.keys map fst].
  - constructor; [intros []|constructor].
  - cbn [Py.keys map fst] in Hnd. apply List.NoDup_cons_iff in Hnd.
    destruct Hnd as [Hnot Hnd].
    destruct (String.eqb_spec a k) as [->|Hne]; cbn [Py.keys map fst].
    + constructor; assumption.
    + constructor; [|apply IH, Hnd].
      intros Hin. apply set_keys in Hin. destruct Hin as [->|Hin];
        contradiction.
Qed.

Lemma set_In (d : Py.dict V) (k : string) (v : V) (k' : string) (x : V) :
  List.NoDup (Py.keys d) ->
  In (k', x) (Py.set d k v) ->
  (k' = k /\ x = v) \/ (k' <> k /\ In (k', x) d).
Proof.
  induction d as [|[a y] d IH]; intros Hnd; cbn [Py.set].
  - intros [Heq|[]]. inversion Heq. left. split; reflexivity.
  - cbn [Py.keys map fst] in Hnd. apply List.NoDup_cons_iff in Hnd.
    destruct Hnd as [Hnot Hnd].
    destruct (String.eqb_spec a k) as [->|Hne].
    + intros [Heq|Hin].
      * inversion Heq. left. split; reflexivity.
      * right. split; [|right; exact Hin].
        intros ->. apply Hnot. change k with (fst (k, x)).
        apply in_map, Hin.
    + intros [Heq|Hin].
      * inversion Heq; subst. right. split; [exact Hne|left; reflexivity].
      * destruct (IH Hnd Hin) as [H|[H1 H2]]; [left; exact H|].
        right. split; [exact H1|right; exact H2].
Qed.

Lemma update_keys (d : Py.dict V) (k : string) (f : V -> V) :
  Py.keys (Py.update d k f) = Py.keys d.
Proof.
  induction d as [|[a y] d IH]; [reflexivity|]. cbn [Py.update].
  destruct (String.eqb a k); cbn [Py.keys map fst]; [reflexivity|].
  unfold Py.keys in IH. rewrite IH. reflexivity.
Qed.

Lemma update_In (d : Py.dict V) (k : string) (f : V -> V) (k' : string)
    (x : V) :
  List.NoDup (Py.keys d) ->
  In (k', x) (Py.update d k f) ->
  (k' = k /\ exists x0, In (k, x0) d /\ x = f x0) \/
  (k' <> k /\ In (k', x) d).
Proof.
  induction d as [|[a y] d IH]; intros Hnd; cbn [Py.update]; [intros []|].
  cbn [Py.keys map fst] in Hnd. apply List.NoDup_cons_iff in Hnd.
  destruct Hnd as [Hnot Hnd].
  destruct (String.eqb_spec a k) as [->|Hne].
  - intros [Heq|Hin].
    + inversion Heq. left. split; [reflexivity|].
      exists y. split; [left; reflexivity|reflexivity].
    + right. split; [|right; exact Hin].
      intros ->. apply Hnot. change k with (fst (k, x)). apply in_map, Hin.
  - intros [Heq|Hin].
    + inversion Heq; subst. right. split; [exact Hne|left; reflexivity].
    + destruct (IH Hnd Hin) as [[H1 [x0 [H2 H3]]]|[H1 H2]].
      * left. split; [exact H1|]. exists x0. split; [right; exact H2|exact H3].
      * right. split; [exact H1|right; exact H2].
Qed.

End DictUpdates.

Lemma normalize_scores_doc_ids (results : list result_dict) (k : score_key) :
  map doc_id_of (_normalize_scores results k) = map doc_id_of results.
Proof.
  unfold _normalize_scores.
  destruct (map (get_score k) results) as [|s ss]; [reflexivity|].
  destruct (Qeq_bool _ _); rewrite map_map; apply map_ext; intros r;
    unfold doc_id_of; rewrite metadata_set_norm; reflexivity.
Qed.

Lemma normalize_scores_defined (results : list result_dict) (k : score_key)
    (r : result_dict) :
  In r (_normalize_scores results k) -> exists v, get_norm k r = Some v.
Proof.
  intros Hin.
  assert (Hne : results <> []).
  { intros ->. destruct Hin. }
  destruct (normalize_scores_cases results k Hne)
    as (lo & hi & _ & _ & _ & [[_ Heq]|[_ Heq]]);
    rewrite Heq in Hin; apply in_map_iff in Hin;
    destruct Hin as [r0 [<- _]]; eexists; apply get_norm_set_norm.
Qed.

(** [merged_docs] after the first loop of [_merge_results] over [l]. *)
Lemma merge_vector_invariant (l : list result_dict) :
  let d := fold_left merge_vector l [] in
  List.NoDup (Py.keys d) /\
  (forall r, In r l -> In (doc_id_of r) (Py.keys d)) /\
  (forall id x,
     In (id, x) d ->
     doc_id_of x = id /\ bm25_score_norm x = Some 0 /\
     exists r, In r l /\ doc_id_of r = id /\
       vector_score_norm x = Some (default 0 (vector_score_norm r))).
Proof.
  induction l as [|r l IH] using rev_ind; cbn zeta.
  - split; [constructor|]. split; intros; contradiction.
  - rewrite fold_left_app. cbn [fold_left]. cbn zeta in IH.
    set (d := fold_left merge_vector l []) in *.
    destruct IH as (Hnd & Hcov & Hent). unfold merge_vector.
    fold (doc_id_of r). split; [apply set_NoDup, Hnd|]. split.
    + intros r' Hin. apply set_keys. apply in_app_or in Hin.
      destruct Hin as [Hin|[<-|[]]]; [right; apply Hcov, Hin|].
      left. reflexivity.
    + intros id x Hin. apply (set_In d _ _ _ _ Hnd) in Hin.
      destruct Hin as [[-> ->]|[Hne Hin]].
      * split; [reflexivity|]. split; [reflexivity|].
        exists r. split; [apply in_or_app; right; left; reflexivity|].
        split; reflexivity.
      * destruct (Hent id x Hin) as (H1 & H2 & r' & H3 & H4 & H5).
        split; [exact H1|]. split; [exact H2|].
        exists r'. split; [apply in_or_app; left; exact H3|].
        split; assumption.
Qed.

(** [merged_docs] after the second loop has gone over [l]. *)
Lemma merge_bm25_invariant (vn l : list result_dict) :
  let d := fold_left merge_bm25 l (fold_left merge_vector vn []) in
  List.NoDup (Py.keys d) /\
  (forall r, In r vn \/ In r l -> In (doc_id_of r) (Py.keys d)) /\
  (forall id x,
     In (id, x) d ->
     doc_id_of x = id /\
     (exists v, vector_score_norm x = Some v /\
        ((exists r, In r vn /\ doc_id_of r = id /\
                    v = default 0 (vector_score_norm r)) \/
         (~ In id (map doc_id_of vn) /\ v = 0))) /\
     (exists b, bm25_score_norm x = Some b /\
        ((exists r, In r l /\ doc_id_of r = id /\
                    b = default 0 (bm25_score_norm r)) \/
         (~ In id (map doc_id_of l) /\ b = 0)))).
Proof.
  induction l as [|r l IH] using rev_ind; cbn zeta.
  - cbn [fold_left].
    destruct (merge_vector_invariant vn) as (Hnd & Hcov & Hent).
    cbn zeta in *. split; [exact Hnd|]. split.
    + intros r [Hin|[]]. apply Hcov, Hin.
    + intros id x Hin.
      destruct (Hent id x Hin) as (H1 & H2 & r & H3 & H4 & H5).
      split; [exact H1|]. split.
      * eexists. split; [exact H5|]. left. exists r. auto.
      * exists 0. split; [exact H2|]. right. split; [intros []|reflexivity].
  - rewrite fold_left_app. cbn [fold_left]. cbn zeta in IH.
    set (d := fold_left merge_bm25 l (fold_left merge_vector vn [])) in *.
    destruct IH as (Hnd & Hcov & Hent).
    assert (Hold : forall id x,
      id <> doc_id_of r -> In (id, x) d ->
      doc_id_of x = id /\
      (exists v, vector_score_norm x = Some v /\
         ((exists r, In r vn /\ doc_id_of r = id /\
                     v = default 0 (vector_score_norm r)) \/
          (~ In id (map doc_id_of vn) /\ v = 0))) /\
      (exists b, bm25_score_norm x = Some b /\
         ((exists r0, In r0 (l ++ [r]) /\ doc_id_of r0 = id /\
                      b = default 0 (bm25_score_norm r0)) \/
          (~ In id (map doc_id_of (l ++ [r])) /\ b = 0)))).
    { intros id x Hne Hin.
      destruct (Hent id x Hin) as (H1 & H2 & b & H3 & H4).
      split; [exact H1|]. split; [exact H2|].
      exists b. split; [exact H3|].
      destruct H4 as [(r0 & Hr0 & Hid & Hb)|[Hnot Hb]].
      - left. exists r0. split; [apply in_or_app; left; exact Hr0|auto].
      - right. split; [|exact Hb]. rewrite map_app. intros Hin'.
        apply in_app_or in Hin'. destruct Hin' as [Hin'|[Heq|[]]];
          [contradiction|]. apply Hne. symmetry. exact Heq. }
    unfold merge_bm25. fold (doc_id_of r).
    destruct (Py.contains d (doc_id_of r)) eqn:E.
    + split; [rewrite update_keys; exact Hnd|]. split.
      * rewrite update_keys.
        intros r' [Hin|Hin]; [apply Hcov; left; exact Hin|].
        apply in_app_or in Hin. destruct Hin as [Hin|[<-|[]]].
        -- apply Hcov. right. exact Hin.
        -- apply contains_keys, E.
      * intros id x Hin. apply (update_In d _ _ _ _ Hnd) in Hin.
        destruct Hin as [[-> (x0 & Hx0 & ->)]|[Hne Hin]];
          [|apply Hold; assumption].
        destruct (Hent _ x0 Hx0) as (H1 & H2 & _).
        split; [exact H1|]. split; [exact H2|].
        eexists. split; [reflexivity|]. left. exists r.
        split; [apply in_or_app; right; left; reflexivity|].
        split; reflexivity.
    + assert (Hfresh : ~ In (doc_id_of r) (Py.keys d)).
      { intros Hin. apply contains_keys in Hin. congruence. }
      split; [apply set_NoDup, Hnd|]. split.
      * intros r' Hin. apply set_keys.
        destruct Hin as [Hin|Hin]; [right; apply Hcov; left; exact Hin|].
        apply in_app_or in Hin. destruct Hin as [Hin|[<-|[]]].
        -- right. apply Hcov. right. exact Hin.
        -- left. reflexivity.
      * intros id x Hin. apply (set_In d _ _ _ _ Hnd) in Hin.
        destruct Hin as [[-> ->]|[Hne Hin]]; [|apply Hold; assumption].
        split; [reflexivity|]. split.
        -- exists 0. split; [reflexivity|]. right. split; [|reflexivity].
           intros Hin. apply in_map_iff in Hin.
           destruct Hin as [r' [Hid Hr']]. apply Hfresh. rewrite <- Hid.
           apply Hcov. left. exact Hr'.
        -- eexists. split; [reflexivity|]. left. exists r.
           split; [apply in_or_app; right; left; reflexivity|].
           split; reflexivity.
Qed.

Lemma scored_doc_id (x : result_dict) : doc_id_of (scored x) = doc_id_of x.
Proof.
  unfold scored, final_score.
  destruct (vector_score_norm x), (bm25_score_norm x); reflexivity.
Qed.

Lemma merged_doc_ids (merged : Py.dict result_dict) :
  (forall id x, In (id, x) merged -> doc_id_of x = id) ->
  map doc_id_of (map scored (Py.values merged)) = Py.keys merged.
Proof.
  intros H. unfold Py.values, Py.keys. rewrite !map_map.
  apply map_ext_in. intros [id x] Hin. cbn [fst snd].
  rewrite scored_doc_id. apply H, Hin.
Qed.

Lemma descending_firstn {A : Type} (key : A -> Q) (n : nat) :
  forall l : list A, descending key l -> descending key (firstn n l).
Proof.
  unfold descending. induction n as [|n IH]; intros l Hs; [constructor|].
  destruct l as [|x l]; [constructor|]. cbn [firstn].
  apply StronglySorted_inv in Hs. destruct Hs as [Hs Hall].
  constructor; [apply IH, Hs|].
  apply List.Forall_forall. intros y Hy. apply firstn_In in Hy.
  rewrite List.Forall_forall in Hall. apply Hall, Hy.
Qed.

(** The sample lists fused: provenance tag, identity and fused score of
    the two best fragments. *)
Example merge_results_sample :
  map (fun d => (search_type d, doc_id_of d, Qred (score d)))
      (_merge_results sample_vector_hits sample_bm25_hits 2)
  = [(Some "hybrid", "code_penal_12_1", 3 # 5);
     (Some "vector", "code_travail_41_1", 2 # 5)].
Proof. vm_compute. reflexivity. Qed.

(** * Properties of the rest of the retrieval code *)

(** ** Normalisation and fusion *)

Lemma min_max_monotone (lo hi x y : Q) :
  lo <= hi -> ~ hi == lo -> x <= y -> min_max lo hi x <= min_max lo hi y.
Proof.
  intros Hle Hne Hxy. unfold min_max.
  assert (Hpos : 0 < hi - lo).
  { destruct (Qle_lt_or_eq lo hi Hle) as [Hlt|Heq]; [lra|].
    exfalso. apply Hne. symmetry. exact Heq. }
  apply Qle_shift_div_l; [exact Hpos|].
  unfold Qdiv. rewrite <- Qmult_assoc, (Qmult_comm (/ (hi - lo))).
  rewrite Qmult_inv_r by lra. lra.
Qed.

(** The fused list before the cut: one entry per document identifier,
    each with its two terms and the fused score. *)
Lemma merge_results_entries (vector_results bm25_results : list result_dict)
    (limit : Z) :
  exists full,
    List.NoDup (map doc_id_of full) /\
    (forall d, In d full ->
       exists v b,
         vector_score_norm d = Some v /\
         bm25_score_norm d = Some b /\
         vector_term (_normalize_scores vector_results vector_score_key) d v /\
         keyword_term (_normalize_scores bm25_results bm25_score_key) d b /\
         score d = (4 # 10) * v + (6 # 10) * b) /\
    _merge_results vector_results bm25_results limit
      = Py.slice_to limit full.
Proof.
  set (vn := _normalize_scores vector_results vector_score_key).
  set (bn := _normalize_scores bm25_results bm25_score_key).
  destruct (merge_bm25_invariant vn bn) as (Hnd & Hcov & Hent).
  cbn zeta in Hnd, Hcov, Hent.
  fold (merged_docs_of vn bn) in Hnd, Hcov, Hent.
  set (merged := merged_docs_of vn bn) in *.
  assert (Hval : forall x, In x (Py.values merged) ->
                           exists id, In (id, x) merged).
  { intros x Hin. unfold Py.values in Hin. apply in_map_iff in Hin.
    destruct Hin as [[id x'] [Heq Hin]]. cbn [snd] in Heq. subst x'.
    exists id. exact Hin. }
  assert (Hfin : Py.mapM final_score (Py.values merged)
                 = Some (map scored (Py.values merged))).
  { apply mapM_Some_map. intros x Hin. destruct (Hval x Hin) as [id Hid].
    destruct (Hent id x Hid) as (_ & (v & Hv & _) & (b & Hb & _)).
    unfold scored, final_score. rewrite Hv, Hb. reflexivity. }
  set (full := Py.sort_desc score (map scored (Py.values merged))).
  assert (Hids : map doc_id_of (map scored (Py.values merged))
                 = Py.keys merged).
  { apply merged_doc_ids. intros id x Hin. apply (Hent id x Hin). }
  assert (Hperm : Permutation (map doc_id_of full) (Py.keys merged)).
  { rewrite <- Hids. apply Permutation_map. apply sort_desc_perm. }
  exists full. split; [|split].
  - apply (Permutation_NoDup (l := Py.keys merged));
      [symmetry; exact Hperm|exact Hnd].
  - intros d Hd. apply sort_desc_In, in_map_iff in Hd.
    destruct Hd as [x [<- Hx]]. destruct (Hval x Hx) as [id Hid].
    destruct (Hent id x Hid) as (Hdoc & (v & Hv & Hvt) & (b & Hb & Hbt)).
    assert (Hsc : scored x =
      set_hybrid_score ((4 # 10) * v + (6 # 10) * b)
        (set_score ((4 # 10) * v + (6 # 10) * b) x)).
    { unfold scored, final_score. rewrite Hv, Hb. reflexivity. }
    exists v, b. rewrite Hsc.
    split; [exact Hv|]. split; [exact Hb|].
    split; [|split; [|reflexivity]].
    + unfold vector_term.
      change (doc_id_of (set_hybrid_score _ (set_score _ x)))
        with (doc_id_of x). rewrite Hdoc.
      destruct Hvt as [(r & Hr & Hrid & Hrv)|[Hnot Hz]];
        [left|right; split; assumption].
      exists r. split; [exact Hr|]. split; [exact Hrid|].
      destruct (normalize_scores_defined _ _ _ Hr) as [v' Hv'].
      cbn [get_norm] in Hv'. rewrite Hv' in Hrv |- *. cbn in Hrv.
      congruence.
    + unfold keyword_term.
      change (doc_id_of (set_hybrid_score _ (set_score _ x)))
        with (doc_id_of x). rewrite Hdoc.
      destruct Hbt as [(r & Hr & Hrid & Hrb)|[Hnot Hz]];
        [left|right; split; assumption].
      exists r. split; [exact Hr|]. split; [exact Hrid|].
      destruct (normalize_scores_defined _ _ _ Hr) as [b' Hb'].
      cbn [get_norm] in Hb'. rewrite Hb' in Hrb |- *. cbn in Hrb.
      congruence.
  - unfold _merge_results. fold vn bn merged. rewrite Hfin. reflexivity.
Qed.

(** X1. [_normalize_scores] changes nothing but the normalised-score key of
    each entry, and the value it writes is a monotone function of the raw
    score: the list keeps its order and length, and a hit with a higher raw
    score never gets a lower normalised one. *)
Theorem normalize_scores_rank_preserving (results : list result_dict)
    (k : score_key) :
  exists g : Q -> Q,
    (forall x y, x <= y -> g x <= g y) /\
    _normalize_scores results k =
      map (fun r => set_norm k (g (get_score k r)) r) results.
Proof.
  destruct results as [|r0 results].
  - exists (fun x => x). split; [intros x y H; exact H|reflexivity].
  - destruct (normalize_scores_cases (r0 :: results) k)
      as (lo & hi & (a & Ha & Hlo) & _ & Hbnd & Hcase); [discriminate|].
    destruct Hcase as [[_ Heq]|[Hne Heq]].
    + exists (fun _ => 1). split; [intros; apply Qle_refl|exact Heq].
    + exists (min_max lo hi). split; [|exact Heq].
      intros x y Hxy. apply min_max_monotone; [|exact Hne|exact Hxy].
      destruct (Hbnd a Ha) as [H1 H2]. apply Qle_trans with (get_score k a);
        assumption.
Qed.

Lemma normalize_scores_origin (results : list result_dict) (k : score_key)
    (r : result_dict) :
  In r (_normalize_scores results k) ->
  exists r0 v, In r0 results /\ r = set_norm k v r0.
Proof.
  intros Hin.
  assert (Hne : results <> []) by (intros ->; destruct Hin).
  destruct (normalize_scores_cases results k Hne)
    as (lo & hi & _ & _ & _ & [[_ Heq]|[_ Heq]]);
    rewrite Heq in Hin; apply in_map_iff in Hin;
    destruct Hin as [r0 [<- Hr0]]; exists r0; eexists;
    (split; [exact Hr0|reflexivity]).
Qed.

Lemma normalize_scores_range (results : list result_dict) (k : score_key)
    (r : result_dict) (v : Q) :
  In r (_normalize_scores results k) -> get_norm k r = Some v ->
  0 <= v <= 1.
Proof.
  intros Hin Hv.
  assert (Hne : results <> []) by (intros ->; destruct Hin).
  destruct (normalize_scores_cases results k Hne)
    as (lo & hi & _ & _ & Hbnd & [[_ Heq]|[Hneq Heq]]);
    rewrite Heq in Hin; apply in_map_iff in Hin;
    destruct Hin as [r0 [<- Hr0]]; rewrite get_norm_set_norm in Hv;
    inversion Hv; subst v.
  - split; lra.
  - destruct (Hbnd r0 Hr0). apply min_max_bounds; assumption.
Qed.

(** X2. Every fused score [_merge_results] returns lies in the unit
    interval, whatever the scales of the two input lists. *)
Theorem merge_results_score_range
    (vector_results bm25_results : list result_dict) (limit : Z)
    (d : result_dict) :
  In d (_merge_results vector_results bm25_results limit) ->
  0 <= score d <= 1.
Proof.
  intros Hin.
  destruct (merge_results_entries vector_results bm25_results limit)
    as (full & _ & Hent & Hout).
  rewrite Hout in Hin. apply slice_to_In in Hin.
  destruct (Hent d Hin) as (v & b & _ & _ & Hv & Hb & ->).
  assert (H0v : 0 <= v <= 1).
  { destruct Hv as [(r & Hr & _ & Hn)|[_ ->]]; [|split; lra].
    apply (normalize_scores_range _ vector_score_key r v Hr Hn). }
  assert (H0b : 0 <= b <= 1).
  { destruct Hb as [(r & Hr & _ & Hn)|[_ ->]]; [|split; lra].
    apply (normalize_scores_range _ bm25_score_key r b Hr Hn). }
  lra.
Qed.

Lemma set_keys_eq {V : Type} (d : Py.dict V) (k : string) (v : V) :
  Py.keys (Py.set d k v) =
  if Py.contains d k then Py.keys d else (Py.keys d ++ [k])%list.
Proof.
  unfold Py.contains, Py.keys.
  induction d as [|[a x] d IH]; cbn [Py.set Py.get map fst]; [reflexivity|].
  destruct (String.eqb a k); cbn [map fst]; [reflexivity|].
  rewrite IH. destruct (Py.get d k); reflexivity.
Qed.

Lemma keys_step (ids : list string) (d : Py.dict result_dict) (k : string)
    (d' : Py.dict result_dict) :
  Py.keys d = first_occurrences ids ->
  Py.keys d' =
    (if Py.contains d k then Py.keys d else (Py.keys d ++ [k])%list) ->
  Py.keys d' = first_occurrences (ids ++ [k]).
Proof.
  intros Hd Hd'. rewrite Hd'.
  destruct (Py.contains d k) eqn:E.
  - apply contains_keys in E. rewrite Hd in E. rewrite Hd.
    apply (proj1 (first_occurrences_In _ _)) in E. symmetry.
    apply first_occurrences_seen, E.
  - assert (Hnot : ~ In k ids).
    { intros Hin. apply (proj2 (first_occurrences_In _ _)) in Hin.
      rewrite <- Hd in Hin. apply contains_keys in Hin. congruence. }
    rewrite Hd. symmetry. apply first_occurrences_fresh, Hnot.
Qed.

(** The keys of [merged_docs] are the fragment identities of the vector
    hits followed by those of the keyword hits, in order of first
    appearance. *)
Lemma merged_keys (vn l : list result_dict) :
  Py.keys (fold_left merge_bm25 l (fold_left merge_vector vn [])) =
  first_occurrences (map doc_id_of (vn ++ l)).
Proof.
  induction l as [|r l IH] using rev_ind.
  - rewrite app_nil_r. cbn [fold_left].
    induction vn as [|r vn IH] using rev_ind; [reflexivity|].
    rewrite fold_left_app, map_app. cbn [fold_left map].
    apply (keys_step _ (fold_left merge_vector vn [])); [exact IH|].
    unfold merge_vector. apply set_keys_eq.
  - rewrite fold_left_app, app_assoc, map_app. cbn [fold_left map].
    apply (keys_step _ (fold_left merge_bm25 l
                          (fold_left merge_vector vn []))); [exact IH|].
    unfold merge_bm25. fold (doc_id_of r).
    destruct (Py.contains _ (doc_id_of r)) eqn:E.
    + apply update_keys.
    + rewrite set_keys_eq, E. reflexivity.
Qed.

(** The third loop never raises: the result is the sorted and sliced list
    of scored entries. *)
Lemma merge_results_unfold (vector_results bm25_results : list result_dict)
    (limit : Z) :
  _merge_results vector_results bm25_results limit =
  Py.slice_to limit
    (Py.sort_desc score
       (map scored
          (Py.values
             (merged_docs_of
                (_normalize_scores vector_results vector_score_key)
                (_normalize_scores bm25_results bm25_score_key))))).
Proof.
  unfold _merge_results.
  set (vn := _normalize_scores vector_results vector_score_key).
  set (bn := _normalize_scores bm25_results bm25_score_key).
  destruct (merge_bm25_invariant vn bn) as (_ & _ & Hent).
  cbn zeta in Hent. fold (merged_docs_of vn bn) in Hent.
  rewrite (mapM_Some_map _ scored); [reflexivity|].
  intros x Hin. unfold Py.values in Hin. apply in_map_iff in Hin.
  destruct Hin as [[id x'] [Heq Hin]]. cbn [snd] in Heq. subst x'.
  destruct (Hent id x Hin) as (_ & (v & Hv & _) & (b & Hb & _)).
  unfold scored, final_score. rewrite Hv, Hb. reflexivity.
Qed.



Lemma merge_vector_tags (l : list result_dict) (id : string)
    (x : result_dict) :
  In (id, x) (fold_left merge_vector l []) ->
  exists r, In r l /\ doc_id_of r = id /\ search_type x = search_type r.
Proof.
  induction l as [|r l IH] using rev_ind; [intros []|].
  rewrite fold_left_app. cbn [fold_left]. unfold merge_vector at 1.
  fold (doc_id_of r). intros Hin.
  destruct (merge_vector_invariant l) as (Hnd & _).
  apply (set_In _ _ _ _ _ Hnd) in Hin.
  destruct Hin as [[-> ->]|[_ Hin]].
  - exists r. split; [apply in_or_app; right; left; reflexivity|].
    split; reflexivity.
  - destruct (IH Hin) as (r' & Hr' & Hid & Hst).
    exists r'. split; [apply in_or_app; left; exact Hr'|]. split; assumption.
Qed.

Lemma count_occ_snoc (ids : list string) (k id : string) :
  List.count_occ string_dec (ids ++ [k]) id =
  (List.count_occ string_dec ids id + if string_dec k id then 1 else 0)%nat.
Proof.
  rewrite List.count_occ_app. cbn [List.count_occ].
  destruct (string_dec k id); reflexivity.
Qed.

(** The provenance tag of every entry of [merged_docs] after the second
    loop has gone over [l]. *)
Lemma merge_tags_invariant (vn l : list result_dict) (id : string)
    (x : result_dict) :
  In (id, x) (fold_left merge_bm25 l (fold_left merge_vector vn [])) ->
  (In id (map doc_id_of vn) ->
   (In id (map doc_id_of l) -> search_type x = Some "hybrid") /\
   (~ In id (map doc_id_of l) ->
    exists r, In r vn /\ doc_id_of r = id /\ search_type x = search_type r)) /\
  (~ In id (map doc_id_of vn) ->
   (List.count_occ string_dec (map doc_id_of l) id = 1%nat ->
    exists r, In r l /\ doc_id_of r = id /\ search_type x = search_type r) /\
   ((2 <= List.count_occ string_dec (map doc_id_of l) id)%nat ->
    search_type x = Some "hybrid")).
Proof.
  revert id x. induction l as [|r l IH] using rev_ind; intros id x.
  - cbn [fold_left map]. intros Hin.
    destruct (merge_vector_tags vn id x Hin) as (r & Hr & Hid & Hst).
    split.
    + intros _. split; [intros []|]. intros _. exists r. auto.
    + intros Hnot. exfalso. apply Hnot. rewrite <- Hid. apply in_map, Hr.
  - rewrite fold_left_app. cbn [fold_left].
    set (d := fold_left merge_bm25 l (fold_left merge_vector vn [])) in *.
    destruct (merge_bm25_invariant vn l) as (Hnd & _ & _).
    cbn zeta in Hnd. fold d in Hnd.
    assert (Hkeys : forall k, Py.contains d k = true <->
                              In k (map doc_id_of vn) \/
                              In k (map doc_id_of l)).
    { intros k. rewrite contains_keys. unfold d. rewrite merged_keys.
      rewrite first_occurrences_In, map_app, in_app_iff. reflexivity. }
    rewrite map_app. cbn [map]. rewrite count_occ_snoc.
    assert (Hother : forall id x,
      id <> doc_id_of r -> In (id, x) d ->
      (In id (map doc_id_of vn) ->
       (In id (map doc_id_of l ++ [doc_id_of r]) ->
        search_type x = Some "hybrid") /\
       (~ In id (map doc_id_of l ++ [doc_id_of r]) ->
        exists r, In r vn /\ doc_id_of r = id /\
                  search_type x = search_type r)) /\
      (~ In id (map doc_id_of vn) ->
       ((List.count_occ string_dec (map doc_id_of l) id
         + (if string_dec (doc_id_of r) id then 1 else 0))%nat = 1%nat ->
        exists r0, In r0 (l ++ [r]) /\ doc_id_of r0 = id /\
                   search_type x = search_type r0) /\
       ((2 <= List.count_occ string_dec (map doc_id_of l) id
              + (if string_dec (doc_id_of r) id then 1 else 0))%nat ->
        search_type x = Some "hybrid"))).
    { intros id' x' Hne Hin. destruct (IH id' x' Hin) as [Hv Hb].
      destruct (string_dec (doc_id_of r) id') as [Heq|_];
        [exfalso; apply Hne; symmetry; exact Heq|].
      rewrite Nat.add_0_r. split.
      - intros Hvn. destruct (Hv Hvn) as [H1 H2]. split.
        + intros Hin'. apply in_app_or in Hin'.
          destruct Hin' as [Hin'|[Heq|[]]]; [apply H1, Hin'|].
          exfalso. apply Hne. symmetry. exact Heq.
        + intros Hnot. apply H2. intros Hin'. apply Hnot.
          apply in_or_app. left. exact Hin'.
      - intros Hvn. destruct (Hb Hvn) as [H1 H2]. split; [|exact H2].
        intros Hc. destruct (H1 Hc) as (r0 & Hr0 & Hid & Hst).
        exists r0. split; [apply in_or_app; left; exact Hr0|].
        split; assumption. }
    unfold merge_bm25. fold (doc_id_of r).
    destruct (Py.contains d (doc_id_of r)) eqn:E; intros Hin.
    + apply (update_In d _ _ _ _ Hnd) in Hin.
      destruct Hin as [[-> (x0 & Hx0 & ->)]|[Hne Hin]];
        [|apply Hother; assumption].
      destruct (string_dec (doc_id_of r) (doc_id_of r)) as [_|Hc];
        [|contradiction].
      split.
      * intros _. split; [intros _; reflexivity|].
        intros Hnot. exfalso. apply Hnot. apply in_or_app. right. left.
        reflexivity.
      * intros Hvn. apply Hkeys in E. destruct E as [E|E]; [contradiction|].
        apply (List.count_occ_In string_dec) in E.
        split; [intros Hc; lia|intros _; reflexivity].
    + apply (set_In d _ _ _ _ Hnd) in Hin.
      destruct Hin as [[-> ->]|[Hne Hin]]; [|apply Hother; assumption].
      destruct (string_dec (doc_id_of r) (doc_id_of r)) as [_|Hc];
        [|contradiction].
      assert (Hfresh : ~ (In (doc_id_of r) (map doc_id_of vn) \/
                          In (doc_id_of r) (map doc_id_of l))).
      { intros H. apply Hkeys in H. congruence. }
      split; [intros Hvn; exfalso; apply Hfresh; left; exact Hvn|].
      intros _.
      assert (Hz : List.count_occ string_dec (map doc_id_of l) (doc_id_of r)
                   = 0%nat).
      { apply List.count_occ_not_In. intros H. apply Hfresh. right. exact H. }
      split; [|intros Hc; lia].
      intros _. exists r. split; [apply in_or_app; right; left; reflexivity|].
      split; reflexivity.
Qed.

Lemma scored_search_type (x : result_dict) :
  search_type (scored x) = search_type x.
Proof.
  unfold scored, final_score.
  destruct (vector_score_norm x), (bm25_score_norm x); reflexivity.
Qed.

Lemma search_type_set_norm (k : score_key) (v : Q) (r : result_dict) :
  search_type (set_norm k v r) = search_type r.
Proof. destruct k; reflexivity. Qed.

Lemma doc_id_set_norm (k : score_key) (v : Q) (r : result_dict) :
  doc_id_of (set_norm k v r) = doc_id_of r.
Proof. unfold doc_id_of. rewrite metadata_set_norm. reflexivity. Qed.

(** A hit of a normalised list, traced back to the raw list. *)
Lemma normalized_hit (results : list result_dict) (k : score_key)
    (r : result_dict) :
  In r (_normalize_scores results k) ->
  exists r0, In r0 results /\ doc_id_of r0 = doc_id_of r /\
             search_type r0 = search_type r.
Proof.
  intros Hin. destruct (normalize_scores_origin _ _ _ Hin)
    as (r0 & v & Hr0 & ->).
  exists r0. split; [exact Hr0|].
  rewrite doc_id_set_norm, search_type_set_norm. split; reflexivity.
Qed.

(** Every returned fragment is the scored copy of an entry of
    [merged_docs], stored under the fragment's own identity. *)
Lemma merge_results_origin (vector_results bm25_results : list result_dict)
    (limit : Z) (d : result_dict) :
  In d (_merge_results vector_results bm25_results limit) ->
  exists x,
    In (doc_id_of d, x)
       (merged_docs_of (_normalize_scores vector_results vector_score_key)
                       (_normalize_scores bm25_results bm25_score_key)) /\
    search_type d = search_type x.
Proof.
  rewrite merge_results_unfold. intros Hin.
  apply slice_to_In, sort_desc_In, in_map_iff in Hin.
  destruct Hin as [x [Hd Hx]]. unfold Py.values in Hx.
  apply in_map_iff in Hx. destruct Hx as [[id' x'] [Heq Hin]].
  cbn [snd] in Heq. subst x'.
  set (vn := _normalize_scores vector_results vector_score_key) in *.
  set (bn := _normalize_scores bm25_results bm25_score_key) in *.
  destruct (merge_bm25_invariant vn bn) as (_ & _ & Hent).
  cbn zeta in Hent. unfold merged_docs_of in Hin |- *.
  destruct (Hent id' x Hin) as (Hid & _).
  exists x. split.
  - rewrite <- Hd, scored_doc_id, Hid. exact Hin.
  - rewrite <- Hd. apply scored_search_type.
Qed.

(** The provenance tag of an entry of [merged_docs], in terms of the two
    hit lists as they were before normalisation. *)
Lemma merged_entry_tags (vector_results bm25_results : list result_dict)
    (id : string) (x : result_dict) :
  In (id, x)
     (merged_docs_of (_normalize_scores vector_results vector_score_key)
                     (_normalize_scores bm25_results bm25_score_key)) ->
  let in_vector := In id (map doc_id_of vector_results) in
  let keyword_count :=
    List.count_occ string_dec (map doc_id_of bm25_results) id in
  (in_vector \/ (1 <= keyword_count)%nat) /\
  (in_vector -> (1 <= keyword_count)%nat ->
   search_type x = Some "hybrid") /\
  (in_vector -> keyword_count = 0%nat ->
   exists r, In r vector_results /\ doc_id_of r = id /\
             search_type x = search_type r) /\
  (~ in_vector -> keyword_count = 1%nat ->
   exists r, In r bm25_results /\ doc_id_of r = id /\
             search_type x = search_type r) /\
  (~ in_vector -> (2 <= keyword_count)%nat ->
   search_type x = Some "hybrid").
Proof.
  intros Hin in_vector keyword_count. unfold merged_docs_of in Hin.
  set (vn := _normalize_scores vector_results vector_score_key) in *.
  set (bn := _normalize_scores bm25_results bm25_score_key) in *.
  destruct (merge_tags_invariant vn bn id x Hin) as [Hv Hb].
  unfold vn, bn in Hv, Hb. rewrite !normalize_scores_doc_ids in Hv, Hb.
  fold vn bn in Hv, Hb. fold in_vector keyword_count in Hv, Hb.
  assert (Hkey : In id (map doc_id_of vector_results) \/
                 In id (map doc_id_of bm25_results)).
  { assert (Hk : In id (Py.keys (fold_left merge_bm25 bn
                                   (fold_left merge_vector vn [])))).
    { change id with (fst (id, x)). apply in_map, Hin. }
    rewrite merged_keys in Hk.
    apply (proj1 (first_occurrences_In _ _)) in Hk.
    rewrite map_app in Hk. apply in_app_or in Hk. unfold vn, bn in Hk.
    rewrite !normalize_scores_doc_ids in Hk. exact Hk. }
  assert (Hcount : In id (map doc_id_of bm25_results) <->
                   (1 <= keyword_count)%nat).
  { unfold keyword_count. rewrite (List.count_occ_In string_dec). lia. }
  split; [destruct Hkey as [H|H]; [left; exact H|right; apply Hcount, H]|].
  split; [|split; [|split]].
  - intros Hiv Hc. apply (Hv Hiv), Hcount, Hc.
  - intros Hiv Hc. destruct (Hv Hiv) as [_ H].
    destruct H as (r & Hr & Hrid & Hrst).
    { intros Hin'. apply Hcount in Hin'. lia. }
    destruct (normalized_hit _ _ _ Hr) as (r0 & Hr0 & Hid0 & Hst0).
    exists r0. split; [exact Hr0|]. split; congruence.
  - intros Hiv Hc. destruct (Hb Hiv) as [H _].
    destruct (H Hc) as (r & Hr & Hrid & Hrst).
    destruct (normalized_hit _ _ _ Hr) as (r0 & Hr0 & Hid0 & Hst0).
    exists r0. split; [exact Hr0|]. split; congruence.
  - intros Hiv Hc. apply (Hb Hiv), Hc.
Qed.



(** ** Keyword search and hybrid search *)

Lemma mapM_Some_Forall2 {A B : Type} (f : A -> option B) (l : list A) :
  forall ys, Py.mapM f l = Some ys ->
             List.Forall2 (fun x y => f x = Some y) l ys.
Proof.
  induction l as [|x l IH]; intros ys H; cbn [Py.mapM] in H.
  - inversion H. constructor.
  - destruct (f x) as [y|] eqn:Ey; [|discriminate].
    destruct (Py.mapM f l) as [ys'|]; [|discriminate].
    inversion H. constructor; [exact Ey|apply IH; reflexivity].
Qed.

Lemma combine_seq_nth {A : Type} (l : list A) : forall (a i : nat) (x : A),
  In (i, x) (combine (seq a (length l)) l) ->
  (a <= i)%nat /\ nth_error l (i - a) = Some x.
Proof.
  induction l as [|y l IH]; intros a i x Hin; [destruct Hin|].
  cbn [length seq combine] in Hin. destruct Hin as [Heq|Hin].
  - inversion Heq; subst. split; [lia|]. rewrite Nat.sub_diag. reflexivity.
  - destruct (IH (S a) i x Hin) as [Hle Hnth]. split; [lia|].
    replace (i - a)%nat with (S (i - S a)) by lia. exact Hnth.
Qed.

Lemma positive_hits_spec (scores : list Q) (hit : nat * Q) :
  In hit (Hybrid.positive_hits scores) ->
  0 < snd hit /\ nth_error scores (fst hit) = Some (snd hit).
Proof.
  unfold Hybrid.positive_hits. intros Hin. apply filter_In in Hin.
  destruct Hin as [Hin Hpos]. apply Qlt_bool_true in Hpos.
  split; [exact Hpos|]. destruct hit as [i x].
  apply combine_seq_nth in Hin. destruct Hin as [_ Hnth].
  rewrite Nat.sub_0_r in Hnth. exact Hnth.
Qed.

Lemma descending_map {A B : Type} (f : A -> Q) (g : B -> Q) (l : list A) :
  forall l' : list B,
    map g l' = map f l -> descending f l -> descending g l'.
Proof.
  unfold descending. induction l as [|x l IH]; intros l' Heq Hs.
  - destruct l'; [constructor|discriminate].
  - destruct l' as [|y l']; [discriminate|]. cbn [map] in Heq.
    inversion Heq as [[Hy Hl]]. apply StronglySorted_inv in Hs.
    destruct Hs as [Hs Hall]. constructor; [apply IH; assumption|].
    apply List.Forall_forall. intros b Hb. rewrite Hy.
    apply (in_map g) in Hb. rewrite Hl in Hb. apply in_map_iff in Hb.
    destruct Hb as [a [<- Ha]]. rewrite List.Forall_forall in Hall.
    apply Hall, Ha.
Qed.

Section HybridProperties.

Context {embedding bm25 : Type}.
Context (encode : string -> option embedding).
Context (store : embedding -> Z -> list result_dict).
Context (get_scores : bm25 -> list string -> list Q).
Context (tokenize : string -> list string).

(** The two ways [_bm25_search] ends: nothing, or one result per hit of the
    sliced ranking. *)
Lemma bm25_search_cases (e : Bm25.engine bm25) (question : string)
    (limit : Z) :
  Hybrid._bm25_search bm25 get_scores tokenize e question limit = [] \/
  exists index,
    Bm25.bm25_index bm25 e = Some index /\
    tokenize question <> [] /\
    List.Forall2 (fun hit r => Hybrid.bm25_result bm25 e hit = Some r)
      (Py.slice_to limit
         (Py.sort_desc snd
            (Hybrid.positive_hits (get_scores index (tokenize question)))))
      (Hybrid._bm25_search bm25 get_scores tokenize e question limit).
Proof.
  unfold Hybrid._bm25_search.
  destruct (Bm25.bm25_index bm25 e) as [index|]; [|left; reflexivity].
  destruct (tokenize question) as [|t ts] eqn:Et; [left; reflexivity|].
  destruct (Py.mapM _ _) as [results|] eqn:Em; [|left; reflexivity].
  right. exists index. split; [reflexivity|]. split; [discriminate|].
  apply mapM_Some_Forall2, Em.
Qed.


(** X5. Every keyword hit [_bm25_search] returns is tagged [bm25], has a
    positive score, and is the text and metadata stored at an index where
    the index structure gave that score; the hits come in descending order
    of score, and at most [limit] of them for a non-negative limit. *)
Theorem bm25_search_sound (e : Bm25.engine bm25) (question : string)
    (limit : Z) :
  let results :=
    Hybrid._bm25_search bm25 get_scores tokenize e question limit in
  (forall r, In r results ->
     search_type r = Some "bm25" /\
     bm25_score r = Some (score r) /\
     0 < score r /\
     exists index idx,
       Bm25.bm25_index bm25 e = Some index /\
       nth_error (get_scores index (tokenize question)) idx
         = Some (score r) /\
       nth_error (Bm25.documents bm25 e) idx = Some (text r) /\
       nth_error (Bm25.metadata_list bm25 e) idx = Some (metadata r)) /\
  descending score results /\
  ((0 <= limit)%Z -> (length results <= Z.to_nat limit)%nat).
Proof.
  intros results. subst results.
  destruct (bm25_search_cases e question limit)
    as [->|(index & Hidx & _ & Hall)].
  { split; [intros r []|]. split; [constructor|]. intros _. cbn. lia. }
  set (ranked := Py.sort_desc snd
         (Hybrid.positive_hits (get_scores index (tokenize question)))) in *.
  set (results :=
         Hybrid._bm25_search bm25 get_scores tokenize e question limit) in *.
  assert (Hhit : forall hit r,
            Hybrid.bm25_result bm25 e hit = Some r ->
            score r = snd hit /\ search_type r = Some "bm25" /\
            bm25_score r = Some (score r) /\
            nth_error (Bm25.documents bm25 e) (fst hit) = Some (text r) /\
            nth_error (Bm25.metadata_list bm25 e) (fst hit)
              = Some (metadata r)).
  { intros hit r H. unfold Hybrid.bm25_result in H.
    destruct (nth_error (Bm25.documents bm25 e) (fst hit)) as [t|];
      [|discriminate].
    destruct (nth_error (Bm25.metadata_list bm25 e) (fst hit)) as [m|];
      [|discriminate].
    inversion H. cbn. repeat split; reflexivity. }
  assert (Hscores : map score results = map snd (Py.slice_to limit ranked)).
  { clear -Hall Hhit. induction Hall as [|hit r hits rs H _ IH];
      [reflexivity|].
    cbn [map]. rewrite IH. destruct (Hhit hit r H) as [-> _]. reflexivity. }
  split; [|split].
  - intros r Hr.
    assert (Hex : exists hit, In hit (Py.slice_to limit ranked) /\
                              Hybrid.bm25_result bm25 e hit = Some r).
    { clear -Hall Hr. induction Hall as [|hit r' hits rs H _ IH];
        [destruct Hr|].
      destruct Hr as [<-|Hr].
      - exists hit. split; [left; reflexivity|exact H].
      - destruct (IH Hr) as (h & Hh & Hb). exists h.
        split; [right; exact Hh|exact Hb]. }
    destruct Hex as (hit & Hin & Hb).
    destruct (Hhit hit r Hb) as (Hs & Ht & Hbs & Hd & Hm).
    apply slice_to_In, sort_desc_In, positive_hits_spec in Hin.
    destruct Hin as [Hpos Hnth]. rewrite <- Hs in Hpos, Hnth.
    split; [exact Ht|]. split; [exact Hbs|]. split; [exact Hpos|].
    exists index, (fst hit). auto.
  - apply (descending_map snd score (Py.slice_to limit ranked));
      [exact Hscores|].
    unfold Py.slice_to.
    destruct (0 <=? limit)%Z; apply descending_firstn, sort_desc_descending.
  - intros Hlimit. rewrite <- (length_map score), Hscores, length_map.
    unfold Py.slice_to. apply Z.leb_le in Hlimit. rewrite Hlimit.
    apply firstn_le_length.
Qed.

Lemma bm25_result_in_range (e : Bm25.engine bm25) (hit : nat * Q) :
  (fst hit < length (Bm25.documents bm25 e))%nat ->
  (fst hit < length (Bm25.metadata_list bm25 e))%nat ->
  exists r, Hybrid.bm25_result bm25 e hit = Some r /\ score r = snd hit.
Proof.
  intros Hd Hm. unfold Hybrid.bm25_result.
  destruct (nth_error (Bm25.documents bm25 e) (fst hit)) as [t|] eqn:Et.
  2:{ apply nth_error_None in Et. lia. }
  destruct (nth_error (Bm25.metadata_list bm25 e) (fst hit)) as [m|] eqn:Em.
  2:{ apply nth_error_None in Em. lia. }
  eexists. split; reflexivity.
Qed.

Lemma mapM_total {A B : Type} (f : A -> option B) (l : list A) :
  (forall x, In x l -> exists y, f x = Some y) ->
  exists ys, Py.mapM f l = Some ys.
Proof.
  induction l as [|x l IH]; intros H; [exists []; reflexivity|].
  destruct (H x (or_introl eq_refl)) as [y Hy].
  destruct IH as [ys Hys]; [intros z Hz; apply H; right; exact Hz|].
  exists (y :: ys). cbn [Py.mapM]. rewrite Hy, Hys. reflexivity.
Qed.

(** X6. When the index structure scores no more documents than the engine
    holds texts and metadata for, [_bm25_search] returns exactly the
    positive scores in descending order, cut at the limit: no positive hit
    within the limit is lost. *)
Theorem bm25_search_complete (e : Bm25.engine bm25) (index : bm25)
    (question : string) (limit : Z) :
  Bm25.bm25_index bm25 e = Some index ->
  tokenize question <> [] ->
  let scores := get_scores index (tokenize question) in
  (length scores <= length (Bm25.documents bm25 e))%nat ->
  (length scores <= length (Bm25.metadata_list bm25 e))%nat ->
  map score (Hybrid._bm25_search bm25 get_scores tokenize e question limit)
  = map snd (Py.slice_to limit
               (Py.sort_desc snd (Hybrid.positive_hits scores))).
Proof.
  intros Hidx Htok scores Hd Hm.
  set (ranked := Py.sort_desc snd (Hybrid.positive_hits scores)).
  assert (Hok : exists results,
            Py.mapM (Hybrid.bm25_result bm25 e) (Py.slice_to limit ranked)
            = Some results).
  { apply mapM_total. intros hit Hin.
    apply slice_to_In, sort_desc_In, positive_hits_spec in Hin.
    destruct Hin as [_ Hnth].
    assert (Hlt : (fst hit < length scores)%nat).
    { apply nth_error_Some. rewrite Hnth. discriminate. }
    destruct (bm25_result_in_range e hit) as (r & Hr & _); [lia|lia|].
    exists r. exact Hr. }
  destruct Hok as [results Hres].
  assert (Heq : Hybrid._bm25_search bm25 get_scores tokenize e question limit
                = results).
  { unfold Hybrid._bm25_search. rewrite Hidx.
    destruct (tokenize question) as [|t ts] eqn:Et; [contradiction|].
    fold scores ranked. rewrite Hres. reflexivity. }
  rewrite Heq. clear Heq. apply mapM_Some_Forall2 in Hres.
  induction Hres as [|hit r hits rs H _ IH]; [reflexivity|].
  cbn [map]. rewrite IH. f_equal. unfold Hybrid.bm25_result in H.
  destruct (nth_error (Bm25.documents bm25 e) (fst hit)); [|discriminate].
  destruct (nth_error (Bm25.metadata_list bm25 e) (fst hit));
    [|discriminate].
  inversion H. reflexivity.
Qed.

(** An engine without documents answers every keyword query with the
    empty list, whatever index structure it holds. *)
Lemma bm25_search_no_documents (e : Bm25.engine bm25) (question : string)
    (limit : Z) :
  Bm25.documents bm25 e = [] ->
  Hybrid._bm25_search bm25 get_scores tokenize e question limit = [].
Proof.
  intros Hd.
  destruct (bm25_search_cases e question limit)
    as [H|(index & _ & _ & Hall)]; [exact H|].
  destruct Hall as [|hit r hits rs H _]; [reflexivity|].
  unfold Hybrid.bm25_result in H. rewrite Hd in H.
  destruct (fst hit); discriminate.
Qed.

(** X7. Rebuilding the keyword index while the vector store returns no
    document keeps the old index structure but empties the documents, and
    from then on every keyword query returns the empty list. *)
Theorem rebuild_on_empty_store_silences_search
    (BM25Okapi : list (list string) -> option bm25)
    (e : Bm25.engine bm25) :
  let e' := Bm25.rebuild_bm25_index bm25 BM25Okapi tokenize [] e in
  Bm25.bm25_index bm25 e' = Bm25.bm25_index bm25 e /\
  Bm25.documents bm25 e' = [] /\
  Bm25.metadata_list bm25 e' = [] /\
  forall question limit,
    Hybrid._bm25_search bm25 get_scores tokenize e' question limit = [].
Proof.
  cbn zeta. split; [reflexivity|]. split; [reflexivity|].
  split; [reflexivity|]. intros question limit.
  apply bm25_search_no_documents. reflexivity.
Qed.

Lemma vector_search_tagged (question : string) (limit : Z)
    (r : result_dict) :
  In r (Hybrid._vector_search embedding encode store question limit) ->
  search_type r = Some "vector" /\ vector_score r = Some (score r).
Proof.
  unfold Hybrid._vector_search.
  destruct (encode question) as [q|]; [|intros []].
  intros Hin. apply in_map_iff in Hin. destruct Hin as [r0 [<- _]].
  split; reflexivity.
Qed.

(** X8. Without a keyword index, [hybrid_search] returns vector hits
    only: every fragment is tagged [vector], its keyword term is 0 and its
    fused score is 0.4 times its normalised vector score, so no score
    exceeds 0.4. *)
Theorem hybrid_search_without_index (e : Bm25.engine bm25)
    (question : string) (limit : Z) (d : result_dict) :
  Bm25.bm25_index bm25 e = None ->
  In d (Hybrid.hybrid_search embedding encode store bm25 get_scores tokenize
          e question limit) ->
  search_type d = Some "vector" /\
  bm25_score_norm d = Some 0 /\
  exists v,
    vector_score_norm d = Some v /\ 0 <= v <= 1 /\
    score d == (4 # 10) * v /\ score d <= 4 # 10.
Proof.
  intros Hidx. unfold Hybrid.hybrid_search.
  assert (Hb : Hybrid._bm25_search bm25 get_scores tokenize e question
                 (limit * 2) = []).
  { unfold Hybrid._bm25_search. rewrite Hidx. reflexivity. }
  rewrite Hb. clear Hb.
  set (vr := Hybrid._vector_search embedding encode store question
               (limit * 2)).
  intros Hin.
  destruct (merge_results_origin vr [] limit d Hin) as (x & Hx & Hst).
  destruct (merged_entry_tags vr [] _ x Hx) as (Hsome & _ & Hvec & _).
  rewrite <- Hst in Hvec.
  cbn [map List.count_occ] in Hsome, Hvec.
  destruct (merge_results_entries vr [] limit)
    as (full & _ & Hent & Hout).
  rewrite Hout in Hin. apply slice_to_In in Hin.
  destruct (Hent d Hin) as (v & b & Hv & Hb & Hvt & Hbt & Hs).
  assert (Hb0 : b = 0).
  { destruct Hbt as [(r & [] & _)|[_ H]]. exact H. }
  subst b.
  assert (Hrange : 0 <= v <= 1).
  { destruct Hvt as [(r & Hr & _ & Hn)|[_ ->]]; [|split; lra].
    apply (normalize_scores_range _ vector_score_key r v Hr Hn). }
  split.
  - destruct Hsome as [Hiv|Hc]; [|lia].
    destruct (Hvec Hiv eq_refl) as (r & Hr & _ & ->).
    apply (vector_search_tagged question (limit * 2) r Hr).
  - split; [exact Hb|]. exists v. split; [exact Hv|].
    split; [exact Hrange|]. rewrite Hs. split; lra.
Qed.


End HybridProperties.

Lemma merge_results_score_range_witness :
  exists d,
    In d (_merge_results sample_vector_hits sample_bm25_hits 2) /\
    0 <= score d <= 1.
Proof.
  exists (hd negative_fragment
            (_merge_results sample_vector_hits sample_bm25_hits 2)).
  assert (Hin : In (hd negative_fragment
                      (_merge_results sample_vector_hits sample_bm25_hits 2))
                   (_merge_results sample_vector_hits sample_bm25_hits 2)).
  { vm_compute. left. reflexivity. }
  split; [exact Hin|].
  apply (merge_results_score_range _ _ _ _ Hin).
Defined.

Lemma bm25_search_sound_witness :
  (0 <= 1)%Z /\
  (length (Hybrid._bm25_search (list (list string)) toy_scores toy_tokenize
             toy_snapshot "a" 1) <= Z.to_nat 1)%nat.
Proof.
  assert (H : (0 <= 1)%Z) by lia.
  split; [exact H|].
  destruct (bm25_search_sound toy_scores toy_tokenize toy_snapshot "a" 1)
    as (_ & _ & Hlen).
  apply (Hlen H).
Defined.

Lemma bm25_search_complete_witness :
  Bm25.bm25_index (list (list string)) toy_snapshot = Some [["a"]] /\
  toy_tokenize "a" <> [] /\
  map score (Hybrid._bm25_search (list (list string)) toy_scores
               toy_tokenize toy_snapshot "a" 5) = [1].
Proof.
  assert (H1 : Bm25.bm25_index (list (list string)) toy_snapshot
               = Some [["a"]]) by reflexivity.
  assert (H2 : toy_tokenize "a" <> []) by discriminate.
  split; [exact H1|]. split; [exact H2|].
  rewrite (bm25_search_complete toy_scores toy_tokenize toy_snapshot
             [["a"]] "a" 5 H1 H2); [reflexivity| |]; cbn; lia.
Defined.

Lemma hybrid_search_without_index_witness :
  exists d,
    In d (Hybrid.hybrid_search unit example_encode example_store
            (list (list string)) toy_scores toy_tokenize
            engine_without_index "q" 2) /\
    search_type d = Some "vector".
Proof.
  exists (hd negative_fragment
            (Hybrid.hybrid_search unit example_encode example_store
               (list (list string)) toy_scores toy_tokenize
               engine_without_index "q" 2)).
  assert (Hin : In (hd negative_fragment
                      (Hybrid.hybrid_search unit example_encode example_store
                         (list (list string)) toy_scores toy_tokenize
                         engine_without_index "q" 2))
                   (Hybrid.hybrid_search unit example_encode example_store
                      (list (list string)) toy_scores toy_tokenize
                      engine_without_index "q" 2)).
  { vm_compute. left. reflexivity. }
  split; [exact Hin|].
  apply (hybrid_search_without_index example_encode example_store toy_scores
           toy_tokenize engine_without_index "q" 2 _ eq_refl Hin).
Defined.


(** ** Grouping, sources and confidence, beyond the claims *)

Lemma concat_perm {A : Type} (l l' : list (list A)) :
  Permutation l l' -> Permutation (concat l) (concat l').
Proof.
  intros H. induction H as [|x l l' _ IH|x y l|l l' l'' _ IH1 _ IH2];
    cbn [concat].
  - reflexivity.
  - apply Permutation_app_head, IH.
  - rewrite !app_assoc. apply Permutation_app_tail, Permutation_app_comm.
  - etransitivity; eassumption.
Qed.

Lemma concat_map_perm {A B : Type} (f g : A -> list B) (ks : list A) :
  (forall k, Permutation (f k) (g k)) ->
  Permutation (concat (map f ks)) (concat (map g ks)).
Proof.
  intros H. induction ks as [|k ks IH]; cbn [map concat]; [reflexivity|].
  apply Permutation_app; [apply H|exact IH].
Qed.

(** Filtering a list by each of its keys, once, gives back the list up to
    order. *)
Lemma partition_by_keys (l : list result_dict) : forall ks : list string,
  List.NoDup ks -> (forall x, In x l -> In (key_of x) ks) ->
  Permutation (concat (map (fun k => List.filter (in_article k) l) ks)) l.
Proof.
  induction l as [|x l IH]; intros ks Hnd Hcov.
  - cbn [List.filter]. induction ks as [|k ks IHk]; [reflexivity|].
    cbn [map concat app]. apply IHk.
    + apply List.NoDup_cons_iff in Hnd. apply Hnd.
    + intros y [].
  - destruct (in_split (key_of x) ks (Hcov x (or_introl eq_refl)))
      as (ks1 & ks2 & ->).
    assert (Hnot : ~ In (key_of x) (ks1 ++ ks2)).
    { apply List.NoDup_remove_2, Hnd. }
    assert (Hrest : forall k, In k (ks1 ++ ks2) ->
              List.filter (in_article k) (x :: l)
              = List.filter (in_article k) l).
    { intros k Hk. cbn [List.filter]. unfold in_article at 1.
      destruct (String.eqb_spec (key_of x) k) as [<-|_];
        [contradiction|reflexivity]. }
    specialize (IH (ks1 ++ key_of x :: ks2)%list Hnd
                  (fun y Hy => Hcov y (or_intror Hy))).
    rewrite map_app, concat_app in IH |- *. cbn [map concat] in IH |- *.
    rewrite (map_ext_in _ (fun k => List.filter (in_article k) l) ks1)
      by (intros k Hk; apply Hrest, in_or_app; left; exact Hk).
    rewrite (map_ext_in _ (fun k => List.filter (in_article k) l) ks2)
      by (intros k Hk; apply Hrest, in_or_app; right; exact Hk).
    cbn [List.filter]. unfold in_article at 2. rewrite String.eqb_refl.
    cbn [app]. etransitivity; [symmetry; apply Permutation_middle|].
    apply perm_skip. exact IH.
Qed.

(** X10. [_group_chunks_by_article] neither loses nor duplicates a
    fragment: the chunks of all groups together are the input list up to
    order, the group keys are pairwise distinct, and every chunk lies in the
    group of its own article key. *)
Theorem group_chunks_partition (results : list result_dict) :
  exists groups,
    _group_chunks_by_article results = Some groups /\
    Permutation (concat (Py.values groups)) results /\
    List.NoDup (Py.keys groups) /\
    (forall k chunks r,
       In (k, chunks) groups -> In r chunks -> key_of r = k).
Proof.
  eexists. split; [apply group_chunks_by_article_closed_form|].
  set (sorted := Py.sort_desc entry_composite (article_groups results)).
  assert (Hperm : Permutation sorted (article_groups results))
    by apply sort_desc_perm.
  split; [|split].
  - etransitivity.
    { apply concat_perm. unfold Py.values. apply Permutation_map, Hperm. }
    unfold article_groups. rewrite map_map. cbn [snd].
    etransitivity.
    { apply (concat_map_perm _
               (fun k => List.filter (in_article k) results)).
      intros k. apply sort_desc_perm. }
    apply partition_by_keys; [apply first_occurrences_NoDup|].
    intros x Hx. apply first_occurrences_In, in_map, Hx.
  - apply (Permutation_NoDup (l := Py.keys (article_groups results))).
    + unfold Py.keys. apply Permutation_map. symmetry. exact Hperm.
    + rewrite article_groups_keys. apply first_occurrences_NoDup.
  - intros k chunks r Hin Hr. apply sort_desc_In in Hin.
    apply article_groups_entry in Hin. destruct Hin as [-> _].
    apply sort_desc_In, filter_In in Hr. destruct Hr as [_ Hr].
    apply String.eqb_eq, Hr.
Qed.

Lemma first_per_article_keys (results : list result_dict) :
  map key_of (first_per_article results) =
  first_occurrences (map key_of results).
Proof.
  induction results as [|r rs IH]; [reflexivity|].
  cbn [first_per_article map first_occurrences]. f_equal.
  rewrite <- IH, filter_map_comm. f_equal. apply List.filter_ext.
  intros x. unfold in_article. rewrite String.eqb_sym. reflexivity.
Qed.

(** X12. [_extract_sources] returns one entry per distinct article of
    its input, in the order in which the articles first appear. *)
Theorem extract_sources_one_per_article (results : list result_dict) :
  exists kept,
    _extract_sources results = map source_of kept /\
    map key_of kept = first_occurrences (map key_of results) /\
    List.NoDup (map key_of kept) /\
    (forall r, In r kept -> In r results) /\
    length (_extract_sources results)
      = length (first_occurrences (map key_of results)).
Proof.
  exists (first_per_article results).
  split; [apply extract_sources_first_per_article|].
  split; [apply first_per_article_keys|]. split; [|split].
  - rewrite first_per_article_keys. apply first_occurrences_NoDup.
  - apply first_per_article_In.
  - rewrite extract_sources_first_per_article, length_map.
    rewrite <- first_per_article_keys, length_map. reflexivity.
Qed.

(** Among fragments of one article, later never scores higher. *)
Lemma sorted_app {A : Type} (R : A -> A -> Prop) (l1 l2 : list A) :
  StronglySorted R l1 -> StronglySorted R l2 ->
  (forall a b, In a l1 -> In b l2 -> R a b) ->
  StronglySorted R (l1 ++ l2).
Proof.
  intros H1 H2 H. induction H1 as [|a l1 Hs IH Hall]; [exact H2|].
  cbn [app]. constructor.
  - apply IH. intros x y Hx Hy. apply H; [right; exact Hx|exact Hy].
  - apply List.Forall_forall. intros b Hb. apply in_app_or in Hb.
    destruct Hb as [Hb|Hb].
    + rewrite List.Forall_forall in Hall. apply Hall, Hb.
    + apply H; [left; reflexivity|exact Hb].
Qed.

Lemma sorted_app_l {A : Type} (R : A -> A -> Prop) (l1 l2 : list A) :
  StronglySorted R (l1 ++ l2) -> StronglySorted R l1.
Proof.
  induction l1 as [|a l1 IH]; intros H; [constructor|].
  cbn [app] in H. apply StronglySorted_inv in H. destruct H as [Hs Hall].
  constructor; [apply IH, Hs|].
  apply List.Forall_forall. intros b Hb. rewrite List.Forall_forall in Hall.
  apply Hall, in_or_app. left. exact Hb.
Qed.

Lemma sorted_after {A : Type} (R : A -> A -> Prop) (l1 l2 : list A) (a : A) :
  StronglySorted R (l1 ++ a :: l2) -> Forall (R a) l2.
Proof.
  induction l1 as [|b l1 IH]; cbn [app]; intros H;
    apply StronglySorted_inv in H; destruct H as [Hs Hall];
    [exact Hall|apply IH, Hs].
Qed.

Lemma sorted_weaken {A : Type} (R R' : A -> A -> Prop) (l : list A) :
  (forall a b, R a b -> R' a b) ->
  StronglySorted R l -> StronglySorted R' l.
Proof.
  intros H Hs. induction Hs as [|a l _ IH Hall]; constructor; [exact IH|].
  eapply List.Forall_impl; [|exact Hall]. intros b. apply H.
Qed.

Lemma groups_concat_sorted (groups : Py.dict (list result_dict)) :
  List.NoDup (Py.keys groups) ->
  (forall k chunks, In (k, chunks) groups ->
     descending score chunks /\ forall r, In r chunks -> key_of r = k) ->
  StronglySorted (fun a b => key_of a = key_of b -> score b <= score a)
                 (concat (Py.values groups)).
Proof.
  induction groups as [|[k chunks] groups IH]; intros Hnd H; [constructor|].
  cbn [Py.keys Py.values map fst snd concat] in *.
  apply List.NoDup_cons_iff in Hnd. destruct Hnd as [Hnot Hnd].
  destruct (H k chunks (or_introl eq_refl)) as [Hdesc Hkey].
  apply sorted_app.
  - eapply sorted_weaken; [|exact Hdesc]. intros a b Hab _. exact Hab.
  - apply IH; [exact Hnd|]. intros k' c' Hin. apply H. right. exact Hin.
  - intros a b Ha Hb Heq. exfalso. apply Hnot.
    apply in_concat in Hb. destruct Hb as [c' [Hc' Hb]].
    apply in_map_iff in Hc'. destruct Hc' as [[k' c''] [Hs Hin]].
    cbn [snd] in Hs. subst c''.
    destruct (H k' c' (or_intror Hin)) as [_ Hkey'].
    rewrite <- (Hkey a Ha), Heq, (Hkey' b Hb).
    change k' with (fst (k', c')). apply in_map, Hin.
Qed.

Lemma slice_to_prefix {A : Type} (n : Z) (l : list A) :
  exists m rest,
    Py.slice_to n l = firstn m l /\ l = (Py.slice_to n l ++ rest)%list.
Proof.
  unfold Py.slice_to. destruct (0 <=? n)%Z; eexists; eexists;
    (split; [reflexivity|symmetry; apply firstn_skipn]).
Qed.

Lemma first_per_article_split (l : list result_dict) (r : result_dict) :
  In r (first_per_article l) ->
  exists pre post,
    l = (pre ++ r :: post)%list /\
    forall x, In x pre -> key_of x <> key_of r.
Proof.
  induction l as [|a l IH]; [intros []|]. cbn [first_per_article].
  intros [<-|Hin].
  - exists [], l. split; [reflexivity|intros x []].
  - apply filter_In in Hin. destruct Hin as [Hin Hne].
    destruct (IH Hin) as (pre & post & -> & Hpre).
    exists (a :: pre), post. split; [reflexivity|].
    intros x [<-|Hx]; [|apply Hpre, Hx].
    unfold in_article in Hne. apply negb_true_iff, String.eqb_neq in Hne.
    intros Heq. apply Hne. symmetry. exact Heq.
Qed.

(** X13. On the flattened result list of the pipeline, cut at any point,
    [_extract_sources] builds each entry from a search result that no other
    search result of the same article outscores. *)
Theorem sources_are_best_of_article (results flattened : list result_dict)
    (max_results n : Z) :
  flatten_best results max_results = Some flattened ->
  exists kept,
    _extract_sources (Py.slice_to n flattened) = map source_of kept /\
    forall r, In r kept ->
      In r results /\
      forall x, In x results -> key_of x = key_of r -> score x <= score r.
Proof.
  intros Hflat.
  exists (first_per_article (Py.slice_to n flattened)).
  split; [apply extract_sources_first_per_article|].
  intros r Hr.
  assert (Hrf : In r flattened).
  { apply first_per_article_In, slice_to_In in Hr. exact Hr. }
  split; [apply (flatten_best_In _ _ _ _ Hflat Hrf)|].
  intros x Hx Hkey.
  unfold flatten_best in Hflat.
  rewrite group_chunks_by_article_closed_form in Hflat.
  inversion Hflat as [Hf]. clear Hflat.
  set (groups := Py.sort_desc entry_composite (article_groups results)) in *.
  assert (Hgroup : forall k chunks, In (k, chunks) groups ->
            chunks = Py.sort_desc score (List.filter (in_article k) results)).
  { intros k chunks Hin. apply sort_desc_In, article_groups_entry in Hin.
    apply Hin. }
  assert (Hsorted : StronglySorted
            (fun a b => key_of a = key_of b -> score b <= score a)
            (concat (Py.values groups))).
  { apply groups_concat_sorted.
    - apply (Permutation_NoDup (l := Py.keys (article_groups results))).
      + unfold Py.keys. apply Permutation_map. symmetry.
        apply sort_desc_perm.
      + rewrite article_groups_keys. apply first_occurrences_NoDup.
    - intros k chunks Hin. rewrite (Hgroup k chunks Hin).
      split; [apply sort_desc_descending|].
      intros y Hy. apply sort_desc_In, filter_In in Hy.
      apply String.eqb_eq, Hy. }
  destruct (slice_to_prefix max_results (Py.values groups))
    as (m & others & Hm & Hsplit_groups).
  assert (Hfm : flattened = concat (firstn m (Py.values groups))).
  { rewrite <- Hf, Hm. reflexivity. }
  assert (Hall : concat (Py.values groups)
                 = (flattened ++ concat others)%list).
  { rewrite Hsplit_groups at 1. rewrite concat_app, Hf. reflexivity. }
  assert (Hxf : In x flattened).
  { rewrite Hfm in Hrf |- *. apply in_concat in Hrf.
    destruct Hrf as [chunks [Hc Hrc]]. apply in_concat.
    exists chunks. split; [exact Hc|].
    apply firstn_In in Hc. unfold Py.values in Hc. apply in_map_iff in Hc.
    destruct Hc as [[k c'] [Hs Hin]]. cbn [snd] in Hs. subst c'.
    rewrite (Hgroup k chunks Hin) in Hrc |- *.
    apply sort_desc_In, filter_In in Hrc. destruct Hrc as [_ Hk].
    apply sort_desc_In, filter_In. split; [exact Hx|].
    unfold in_article in *. rewrite Hkey. exact Hk. }
  destruct (first_per_article_split _ _ Hr) as (pre & post & Hsplit & Hpre).
  assert (Hcut : exists tail, flattened = (pre ++ r :: tail)%list).
  { destruct (slice_to_prefix n flattened) as (_ & beyond & _ & Hb).
    exists (post ++ beyond)%list. rewrite Hb at 1.
    rewrite Hsplit, <- app_assoc. reflexivity. }
  destruct Hcut as (tail & Hcut).
  rewrite Hall in Hsorted. apply sorted_app_l in Hsorted.
  rewrite Hcut in Hsorted, Hxf. apply sorted_after in Hsorted.
  apply in_app_or in Hxf. destruct Hxf as [Hxp|[<-|Hxt]].
  - exfalso. apply (Hpre x Hxp Hkey).
  - apply Qle_refl.
  - rewrite List.Forall_forall in Hsorted. apply (Hsorted x Hxt).
    symmetry. exact Hkey.
Qed.

Lemma sources_are_best_of_article_witness :
  flatten_best (article_41_fragments ++ article_12_fragments) 5
    = Some (article_12_fragments ++ article_41_fragments)%list /\
  exists kept,
    _extract_sources
      (Py.slice_to 5 (article_12_fragments ++ article_41_fragments))
    = map source_of kept.
Proof.
  assert (H : flatten_best (article_41_fragments ++ article_12_fragments) 5
              = Some (article_12_fragments ++ article_41_fragments)%list)
    by (vm_compute; reflexivity).
  split; [exact H|].
  destruct (sources_are_best_of_article _ _ 5 5 H) as (kept & Hk & _).
  exists kept. exact Hk.
Defined.

Lemma round_half_even_cases (x : Q) :
  Py.round_half_even x = Qfloor x \/
  Py.round_half_even x = (Qfloor x + 1)%Z.
Proof.
  unfold Py.round_half_even.
  destruct (Py.Qlt_bool _ _); [left; reflexivity|].
  destruct (Py.Qlt_bool _ _); [right; reflexivity|].
  destruct (Z.even _); [left|right]; reflexivity.
Qed.

Lemma round_half_even_monotone (x y : Q) :
  x <= y -> (Py.round_half_even x <= Py.round_half_even y)%Z.
Proof.
  intros Hxy. pose proof (Qfloor_resp_le x y Hxy) as Hf.
  destruct (Z.eq_dec (Qfloor x) (Qfloor y)) as [Heq|Hne].
  - unfold Py.round_half_even. rewrite <- Heq.
    set (f := Qfloor x) in *.
    destruct (Py.Qlt_bool (x - inject_Z f) (1 # 2)) eqn:Ex1.
    + destruct (Py.Qlt_bool (y - inject_Z f) (1 # 2)); [lia|].
      destruct (Py.Qlt_bool (1 # 2) (y - inject_Z f)); [lia|].
      destruct (Z.even f); lia.
    + apply Qlt_bool_false in Ex1.
      destruct (Py.Qlt_bool (y - inject_Z f) (1 # 2)) eqn:Ey1.
      { apply Qlt_bool_true in Ey1. lra. }
      destruct (Py.Qlt_bool (1 # 2) (x - inject_Z f)) eqn:Ex2.
      * apply Qlt_bool_true in Ex2.
        destruct (Py.Qlt_bool (1 # 2) (y - inject_Z f)) eqn:Ey2; [lia|].
        apply Qlt_bool_false in Ey2. lra.
      * destruct (Py.Qlt_bool (1 # 2) (y - inject_Z f)); [|lia].
        destruct (Z.even f); lia.
  - destruct (round_half_even_cases x) as [-> | ->],
             (round_half_even_cases y) as [-> | ->]; lia.
Qed.

Lemma round3_monotone (x y : Q) : x <= y -> Py.round3 x <= Py.round3 y.
Proof.
  intros Hxy. unfold Py.round3, Qle. cbn [Qnum Qden].
  assert (H : (Py.round_half_even (x * 1000)
               <= Py.round_half_even (y * 1000))%Z).
  { apply round_half_even_monotone. lra. }
  lia.
Qed.

Lemma min2_monotone (x y c : Q) : x <= y -> Py.min2 x c <= Py.min2 y c.
Proof.
  intros Hxy. unfold Py.min2.
  destruct (Py.Qlt_bool c x) eqn:Ex, (Py.Qlt_bool c y) eqn:Ey;
    try apply Qlt_bool_true in Ex; try apply Qlt_bool_true in Ey;
    try apply Qlt_bool_false in Ex; try apply Qlt_bool_false in Ey; lra.
Qed.

Lemma fold_plus_monotone (l1 l2 : list Q) :
  List.Forall2 Qle l1 l2 ->
  forall a b, a <= b -> fold_left Qplus l1 a <= fold_left Qplus l2 b.
Proof.
  intros H. induction H as [|x y l1 l2 Hxy _ IH]; intros a b Hab;
    cbn [fold_left]; [exact Hab|].
  apply IH. lra.
Qed.

(** X14. Raising scores among the first five results, with the number of
    results and the presence of a hybrid tag unchanged, never lowers the
    confidence. *)
Theorem calculate_confidence_monotone (l1 l2 : list result_dict) :
  length l1 = length l2 ->
  existsb is_hybrid l1 = existsb is_hybrid l2 ->
  List.Forall2 (fun a b => score a <= score b) (firstn 5 l1) (firstn 5 l2) ->
  _calculate_confidence l1 <= _calculate_confidence l2.
Proof.
  intros Hlen Hhyb Htop.
  destruct l1 as [|a1 l1], l2 as [|a2 l2];
    [apply Qle_refl|discriminate|discriminate|].
  rewrite !calculate_confidence_raw by discriminate.
  apply round3_monotone, min2_monotone. unfold raw_confidence.
  rewrite <- Hhyb. unfold Py.len. rewrite <- Hlen.
  rewrite <- (List.Forall2_length Htop).
  set (n := inject_Z (Z.of_nat (length (firstn 5 (a1 :: l1))))).
  set (factor := Py.min2 (inject_Z (Z.of_nat (length (a1 :: l1))) / 3) 1).
  set (bonus := if existsb is_hybrid (a1 :: l1) then 11 # 10 else 1).
  assert (Hn : 0 < n).
  { apply (len_pos (firstn 5 (a1 :: l1))). discriminate. }
  assert (Hfactor : 0 <= factor).
  { apply min2_nonneg; [|lra]. apply Qle_shift_div_l; [reflexivity|].
    pose proof (len_pos (a1 :: l1)) as H. unfold Py.len in H.
    assert (0 < inject_Z (Z.of_nat (length (a1 :: l1))))
      by (apply H; discriminate). lra. }
  assert (Hbonus : 0 <= bonus).
  { unfold bonus. destruct (existsb is_hybrid (a1 :: l1)); lra. }
  assert (Hsum : Py.sum (map score (firstn 5 (a1 :: l1)))
                 <= Py.sum (map score (firstn 5 (a2 :: l2)))).
  { unfold Py.sum. apply fold_plus_monotone; [|apply Qle_refl].
    clear -Htop. induction Htop; cbn [map]; constructor; assumption. }
  assert (Havg : Py.sum (map score (firstn 5 (a1 :: l1))) / n
                 <= Py.sum (map score (firstn 5 (a2 :: l2))) / n).
  { unfold Qdiv. apply Qmult_le_compat_r; [exact Hsum|].
    apply Qlt_le_weak, Qinv_lt_0_compat, Hn. }
  apply Qmult_le_compat_r; [|exact Hbonus].
  apply Qmult_le_compat_r; [exact Havg|exact Hfactor].
Qed.

Lemma calculate_confidence_monotone_witness :
  length [low_fragment] = length [high_fragment] /\
  _calculate_confidence [low_fragment]
    <= _calculate_confidence [high_fragment].
Proof.
  assert (H : length [low_fragment] = length [high_fragment])
    by reflexivity.
  split; [exact H|].
  apply (calculate_confidence_monotone [low_fragment] [high_fragment] H).
  - reflexivity.
  - constructor; [|constructor]. vm_compute. discriminate.
Defined.

Lemma first_per_article_length (l : list result_dict) :
  (length (first_per_article l) <= length l)%nat.
Proof.
  induction l as [|a l IH]; [cbn; lia|]. cbn [first_per_article length].
  pose proof (List.filter_length_le
                (fun x => negb (in_article (key_of a) x))
                (first_per_article l)). lia.
Qed.

Lemma calculate_confidence_le_1 (results : list result_dict) :
  _calculate_confidence results <= 1.
Proof.
  destruct results as [|r results]; [cbn; lra|].
  rewrite calculate_confidence_raw by discriminate.
  apply round3_le_1, min2_le_r.
Qed.

Section ResponseProperties.

Context {embedding : Type}.
Context (reformulate : string -> string).
Context (encode : string -> option embedding).
Context (store : embedding -> Z -> list result_dict).
Context (generate : string -> list result_dict -> string).

Lemma source_preview_bound (r : result_dict) :
  (String.length (Source.text_preview (source_of r)) <= 153)%nat.
Proof.
  cbn [source_of Source.text_preview]. unfold text_preview_of.
  destruct (Nat.ltb_spec 150 (String.length (text r))) as [Hlt|Hle]; [|lia].
  rewrite length_append. unfold Py.str_slice_to.
  rewrite length_substring_0 by lia. cbn. lia.
Qed.

(** X15. Whatever the collaborators return or raise, the response of
    [search_and_answer] has a confidence of at most 1, at most five search
    types, previews of at most 153 characters and, for a non-negative
    [max_results], at most [max_results] sources. *)
Theorem search_and_answer_bounds (question : string) (max_results : Z) :
  let resp :=
    search_and_answer embedding reformulate encode store generate
      question max_results in
  confidence resp <= 1 /\
  (length (default [] (search_types resp)) <= 5)%nat /\
  Forall (fun s => (String.length (Source.text_preview s) <= 153)%nat)
         (sources resp) /\
  ((0 <= max_results)%Z ->
   (length (sources resp) <= Z.to_nat max_results)%nat).
Proof.
  cbn zeta. unfold search_and_answer, search_and_answer_try.
  destruct (tagged_search_results _ _ _ _ question) as [[|r0 results]|].
  2:{ destruct (flatten_best (r0 :: results) max_results) as [flat|].
      - cbn [confidence sources search_types default from_option id].
        split; [apply calculate_confidence_le_1|]. split; [|split].
        + rewrite length_map. apply (firstn_le_length 5).
        + rewrite extract_sources_first_per_article.
          apply List.Forall_forall. intros s Hs. apply in_map_iff in Hs.
          destruct Hs as [r [<- _]]. apply source_preview_bound.
        + intros Hm. rewrite extract_sources_first_per_article, length_map.
          eapply Nat.le_trans; [apply first_per_article_length|].
          unfold Py.slice_to. apply Z.leb_le in Hm. rewrite Hm.
          apply firstn_le_length.
      - cbn. split; [lra|]. split; [lia|]. split; [constructor|]. lia. }
  all: cbn; split; [lra|]; split; [lia|]; split; [constructor|]; lia.
Qed.

End ResponseProperties.

Lemma search_and_answer_bounds_witness :
  (0 <= 1)%Z /\
  (length (sources (search_and_answer unit example_reformulate
                      example_encode example_store example_generate
                      "q" 1)) <= Z.to_nat 1)%nat.
Proof.
  assert (H : (0 <= 1)%Z) by lia.
  split; [exact H|].
  apply (search_and_answer_bounds example_reformulate example_encode
           example_store example_generate "q" 1), H.
Defined.

(** ** Chunking and filling the collection *)

Lemma nth_error_combine_seq {A : Type} (l : list A) : forall a i,
  nth_error (combine (seq a (length l)) l) i =
  option_map (fun x => ((a + i)%nat, x)) (nth_error l i).
Proof.
  induction l as [|x l IH]; intros a i; cbn [length seq combine].
  - destruct i; reflexivity.
  - destruct i as [|i]; cbn [nth_error option_map].
    + rewrite Nat.add_0_r. reflexivity.
    + rewrite IH. rewrite Nat.add_succ_comm. reflexivity.
Qed.

Lemma append_inj_l (p a b : string) : (p ++ a = p ++ b)%string -> a = b.
Proof.
  induction p as [|c p IH]; cbn; intros H; [exact H|].
  inversion H. apply IH. assumption.
Qed.

Lemma of_nat_inj (n m : nat) : PyStr.of_nat n = PyStr.of_nat m -> n = m.
Proof.
  unfold PyStr.of_nat. intros H.
  apply DecimalNat.Unsigned.to_uint_inj.
  assert (Hs : Some (Nat.to_uint n) = Some (Nat.to_uint m)).
  { rewrite <- !DecimalString.NilEmpty.usu. rewrite H. reflexivity. }
  inversion Hs. reflexivity.
Qed.

Section ChunkerProperties.

Context (chunk_size : nat) (split_text : string -> list string).

Lemma chunk_single_article_nth (a : Article.t) (code : string) (start i : nat)
    (c : Chunker.Chunk) :
  nth_error (Chunker._chunk_single_article chunk_size split_text a code start)
            i = Some c ->
  Chunker.article_number (Chunker.metadata c) = Article.number a /\
  Chunker.code_source (Chunker.metadata c) = code /\
  Chunker.chunk_index (Chunker.metadata c) = i /\
  Chunker.total_chunks (Chunker.metadata c) =
    length (Chunker._chunk_single_article chunk_size split_text a code start)
  /\
  Chunker.id c =
    (code ++ "_art" ++ Article.number a ++ "_chunk" ++ PyStr.of_nat (i + 1))
    %string.
Proof.
  unfold Chunker._chunk_single_article.
  destruct (String.length (Article.content a) <=? chunk_size)%nat.
  - destruct i as [|i]; cbn [nth_error]; [|destruct i; discriminate].
    intros H. inversion H. cbn. repeat split; reflexivity.
  - rewrite nth_error_map, nth_error_combine_seq.
    destruct (nth_error (split_text (Article.content a)) i) as [t|];
      [|discriminate].
    cbn [option_map]. intros H. inversion H. cbn [Chunker.metadata
      Chunker.article_number Chunker.code_source Chunker.chunk_index
      Chunker.total_chunks Chunker.id fst snd].
    rewrite length_map, length_combine, length_seq, Nat.min_id.
    repeat split; reflexivity.
Qed.

(** X16. The chunks [_chunk_single_article] makes of one article carry
    the article's number and the code name, are numbered 0, 1, 2, ... in
    order with the total count in each, have pairwise distinct identifiers,
    and their texts are the whole content for an article within the chunk
    size and the splitter's pieces otherwise. *)
Theorem chunk_single_article_structure (a : Article.t) (code : string)
    (start : nat) :
  let chunks :=
    Chunker._chunk_single_article chunk_size split_text a code start in
  (forall i c, nth_error chunks i = Some c ->
     Chunker.article_number (Chunker.metadata c) = Article.number a /\
     Chunker.code_source (Chunker.metadata c) = code /\
     Chunker.chunk_index (Chunker.metadata c) = i /\
     Chunker.total_chunks (Chunker.metadata c) = length chunks) /\
  List.NoDup (map Chunker.id chunks) /\
  map Chunker.text chunks =
    (if (String.length (Article.content a) <=? chunk_size)%nat
     then [Article.content a] else split_text (Article.content a)).
Proof.
  cbn zeta. split; [|split].
  - intros i c H.
    destruct (chunk_single_article_nth a code start i c H)
      as (H1 & H2 & H3 & H4 & _). auto.
  - apply List.NoDup_nth_error. intros i j Hi Hij.
    rewrite length_map in Hi. rewrite !nth_error_map in Hij.
    destruct (nth_error _ i) as [ci|] eqn:Ei.
    2:{ apply nth_error_None in Ei. lia. }
    destruct (nth_error _ j) as [cj|] eqn:Ej; [|discriminate].
    cbn [option_map] in Hij. inversion Hij as [Hid].
    destruct (chunk_single_article_nth a code start i ci Ei)
      as (_ & _ & _ & _ & Hi').
    destruct (chunk_single_article_nth a code start j cj Ej)
      as (_ & _ & _ & _ & Hj').
    rewrite Hi', Hj' in Hid.
    do 4 apply append_inj_l in Hid. apply of_nat_inj in Hid. lia.
  - unfold Chunker._chunk_single_article.
    destruct (String.length (Article.content a) <=? chunk_size)%nat;
      [reflexivity|].
    rewrite map_map. cbn [Chunker.text].
    generalize (split_text (Article.content a)). intros l.
    generalize 0%nat. induction l as [|t l IH]; intros n; [reflexivity|].
    cbn [length seq combine map snd]. rewrite IH. reflexivity.
Qed.

Lemma fold_chunk_step (code : string) (articles : list Article.t) :
  forall (acc : list Chunker.Chunk) (counter : nat),
    fst (fold_left (Chunker.chunk_step chunk_size split_text code) articles
           (acc, counter)) =
    (acc ++ flat_map
              (fun a => Chunker._chunk_single_article chunk_size split_text
                          a code 0) articles)%list.
Proof.
  induction articles as [|a articles IH]; intros acc counter.
  - cbn. symmetry. apply app_nil_r.
  - cbn [fold_left flat_map]. unfold Chunker.chunk_step at 2.
    cbn [fst snd]. rewrite IH, <- app_assoc. reflexivity.
Qed.

(** X17. [chunk_articles] keeps the articles in order and gives each one
    exactly the chunks [_chunk_single_article] makes of it, so every chunk
    belongs to an article of the input, carries the code name, and has an
    index below its total; the running chunk counter has no effect. *)
Theorem chunk_articles_structure (code : string)
    (articles : list Article.t) :
  Chunker.chunk_articles chunk_size split_text code articles =
    flat_map (fun a => Chunker._chunk_single_article chunk_size split_text
                         a code 0) articles /\
  forall c,
    In c (Chunker.chunk_articles chunk_size split_text code articles) ->
    (exists a, In a articles /\
               Chunker.article_number (Chunker.metadata c)
               = Article.number a) /\
    Chunker.code_source (Chunker.metadata c) = code /\
    (Chunker.chunk_index (Chunker.metadata c)
     < Chunker.total_chunks (Chunker.metadata c))%nat.
Proof.
  assert (Heq : Chunker.chunk_articles chunk_size split_text code articles =
    flat_map (fun a => Chunker._chunk_single_article chunk_size split_text
                         a code 0) articles).
  { unfold Chunker.chunk_articles. rewrite fold_chunk_step. reflexivity. }
  split; [exact Heq|]. rewrite Heq. intros c Hc.
  apply in_flat_map in Hc. destruct Hc as [a [Ha Hc]].
  apply In_nth_error in Hc. destruct Hc as [i Hi].
  destruct (chunk_single_article_nth a code 0 i c Hi)
    as (H1 & H2 & H3 & H4 & _).
  split; [exists a; auto|]. split; [exact H2|].
  rewrite H3, H4. apply nth_error_Some. rewrite Hi. discriminate.
Qed.

End ChunkerProperties.

Lemma chunks_by_hundred {A : Type} (k : nat) : forall l : list A,
  (length l <= k * 100)%nat ->
  concat (map (fun j => firstn 100 (skipn (j * 100) l)) (seq 0 k)) = l.
Proof.
  induction k as [|k IH]; intros l Hlen.
  - destruct l; [reflexivity|cbn in Hlen; lia].
  - cbn [seq map concat]. rewrite <- seq_shift, map_map.
    change (skipn (0 * 100) l) with l.
    rewrite (map_ext _ (fun j => firstn 100 (skipn (j * 100) (skipn 100 l)))).
    + rewrite IH; [apply firstn_skipn|]. rewrite length_skipn. lia.
    + intros j. rewrite skipn_skipn. f_equal. f_equal. lia.
Qed.

Lemma batches_unfold {A : Type} (points : list A) :
  Qdrant.batches points =
  map (fun j => firstn 100 (skipn (j * 100) points))
      (seq 0 ((length points + 99) / 100)).
Proof.
  unfold Qdrant.batches, PyStr.range_step, PyStr.slice. rewrite map_map.
  replace (length points + 100 - 1)%nat with (length points + 99)%nat by lia.
  apply map_ext. intros j. f_equal. lia.
Qed.

(** The batches cut the list into consecutive pieces of at most 100, none
    of them empty. *)
Lemma batches_spec {A : Type} (points : list A) :
  concat (Qdrant.batches points) = points /\
  Forall (fun b => (1 <= length b <= 100)%nat) (Qdrant.batches points) /\
  length (Qdrant.batches points) = ((length points + 99) / 100)%nat.
Proof.
  rewrite batches_unfold.
  set (n := length points). set (k := ((n + 99) / 100)%nat).
  assert (Hk : (100 * k <= n + 99 < 100 * k + 100)%nat).
  { pose proof (Nat.div_mod_eq (n + 99) 100) as H.
    pose proof (Nat.mod_upper_bound (n + 99) 100) as H'. fold k in H.
    lia. }
  split; [|split].
  - apply chunks_by_hundred. fold n. lia.
  - apply List.Forall_forall. intros b Hb. apply in_map_iff in Hb.
    destruct Hb as [j [<- Hj]]. apply in_seq in Hj.
    rewrite length_firstn, length_skipn. fold n. lia.
  - rewrite length_map, length_seq. reflexivity.
Qed.

Section StoreProperties.

Context {vector : Type} (uuid4 : nat -> string).

Lemma points_payloads (embeddings : list vector)
    (items : list (nat * Chunker.Chunk)) :
  forall points,
    Py.mapM (Qdrant.point_of vector uuid4 embeddings) items = Some points ->
    map (Qdrant.payload vector) points =
    map (fun item =>
           {| Qdrant.text := Chunker.text (snd item);
              Qdrant.metadata := Chunker.metadata (snd item);
              Qdrant.chunk_id := Chunker.id (snd item) |}) items.
Proof.
  intros points H. apply mapM_Some_Forall2 in H.
  induction H as [|item p items ps Hp _ IH]; [reflexivity|].
  cbn [map]. rewrite IH. f_equal. unfold Qdrant.point_of in Hp.
  destruct (nth_error embeddings (fst item)); [|discriminate].
  inversion Hp. reflexivity.
Qed.

(** X18. [add_chunks] raises, before anything is written, exactly when
    there are fewer embeddings than chunks.  Otherwise the batches it
    upserts hold, in order, one point per chunk with that chunk's text,
    metadata and identifier, paired with the embedding of the same index;
    every batch has between 1 and 100 points and there are
    ceil(len(chunks) / 100) of them. *)
Theorem add_chunks_batches (chunks : list Chunker.Chunk)
    (embeddings : list vector) :
  ((length embeddings < length chunks)%nat ->
   Qdrant.add_chunks vector uuid4 chunks embeddings = None) /\
  ((length chunks <= length embeddings)%nat ->
   exists batches,
     Qdrant.add_chunks vector uuid4 chunks embeddings = Some batches /\
     map (Qdrant.payload vector) (concat batches) =
       map (fun c => {| Qdrant.text := Chunker.text c;
                        Qdrant.metadata := Chunker.metadata c;
                        Qdrant.chunk_id := Chunker.id c |}) chunks /\
     map (fun p => Some (Qdrant.point_vector vector p)) (concat batches) =
       map (nth_error embeddings) (seq 0 (length chunks)) /\
     Forall (fun b => (1 <= length b <= 100)%nat) batches /\
     length batches = ((length chunks + 99) / 100)%nat).
Proof.
  unfold Qdrant.add_chunks. split.
  - intros Hlt.
    destruct (Py.mapM _ _) as [points|] eqn:Em; [|reflexivity].
    exfalso. apply mapM_Some_Forall2 in Em.
    assert (Hin : exists c, nth_error chunks (length embeddings) = Some c).
    { destruct (nth_error chunks (length embeddings)) as [c|] eqn:E;
        [exists c; reflexivity|].
      apply nth_error_None in E. lia. }
    destruct Hin as [c Hc].
    assert (Hitem : In (length embeddings, c)
                       (combine (seq 0 (length chunks)) chunks)).
    { apply (nth_error_In _ (length embeddings)).
      rewrite nth_error_combine_seq, Hc. reflexivity. }
    clear -Em Hitem. induction Em as [|item p items ps Hp _ IH];
      [destruct Hitem|].
    destruct Hitem as [->|Hitem]; [|apply IH, Hitem].
    unfold Qdrant.point_of in Hp. cbn [fst] in Hp.
    assert (Hn : nth_error embeddings (length embeddings) = None)
      by (apply nth_error_None; lia).
    rewrite Hn in Hp. discriminate.
  - intros Hle.
    destruct (mapM_total (Qdrant.point_of vector uuid4 embeddings)
                (combine (seq 0 (length chunks)) chunks)) as [points Hp].
    { intros [i c] Hin. apply In_nth_error in Hin. destruct Hin as [j Hj].
      rewrite nth_error_combine_seq in Hj.
      destruct (nth_error chunks j) eqn:E; [|discriminate].
      cbn in Hj. injection Hj as Hi Hc. subst i c.
      assert (Hlt : (j < length chunks)%nat).
      { apply nth_error_Some. rewrite E. discriminate. }
      unfold Qdrant.point_of. cbn [fst].
      destruct (nth_error embeddings j) eqn:Ev; [eexists; reflexivity|].
      apply nth_error_None in Ev. lia. }
    rewrite Hp. exists (Qdrant.batches points).
    destruct (batches_spec points) as (Hcat & Hsize & Hcount).
    assert (Hlen : length points = length chunks).
    { apply mapM_Some_Forall2, List.Forall2_length in Hp.
      rewrite length_combine, length_seq, Nat.min_id in Hp.
      symmetry. exact Hp. }
    split; [reflexivity|]. rewrite Hcat.
    split; [|split; [|split]].
    + rewrite (points_payloads _ _ _ Hp). clear. generalize 0%nat.
      induction chunks as [|c cs IH]; intros n; [reflexivity|].
      cbn [length seq combine map snd]. rewrite IH. reflexivity.
    + apply mapM_Some_Forall2 in Hp.
      assert (Hfst : map fst (combine (seq 0 (length chunks)) chunks)
                     = seq 0 (length chunks)).
      { clear. generalize 0%nat.
        induction chunks as [|c cs IH]; intros n; [reflexivity|].
        cbn [length seq combine map fst]. rewrite IH. reflexivity. }
      rewrite <- Hfst, map_map. clear -Hp.
      induction Hp as [|item p items ps Hp _ IH]; [reflexivity|].
      cbn [map]. rewrite IH. f_equal. unfold Qdrant.point_of in Hp.
      destruct (nth_error embeddings (fst item)); [|discriminate].
      inversion Hp. reflexivity.
    + exact Hsize.
    + rewrite Hcount, Hlen. reflexivity.
Qed.

End StoreProperties.

(** ** Fragment identity of stored chunks *)







(** ** Validation of parsed articles *)

Section AscendingSort.
Context {A : Type} (key : A -> Z).

Lemma insert_asc_perm (x : A) (l : list A) :
  Permutation (Parser.insert_asc key x l) (x :: l).
Proof.
  induction l as [|y l IH]; cbn [Parser.insert_asc]; [reflexivity|].
  destruct (key x <=? key y)%Z; [reflexivity|].
  rewrite IH. apply perm_swap.
Qed.

Lemma sort_asc_perm (l : list A) : Permutation (Parser.sort_asc key l) l.
Proof.
  induction l as [|x l IH]; cbn; [reflexivity|].
  fold (Parser.sort_asc key l). rewrite insert_asc_perm, IH. reflexivity.
Qed.

Lemma insert_asc_sorted (x : A) (l : list A) :
  StronglySorted (fun a b => (key a <= key b)%Z) l ->
  StronglySorted (fun a b => (key a <= key b)%Z) (Parser.insert_asc key x l).
Proof.
  induction l as [|y l IH]; intros Hs; cbn [Parser.insert_asc].
  - constructor; constructor.
  - destruct (Z.leb_spec (key x) (key y)) as [Hle|Hgt].
    + constructor; [exact Hs|]. constructor; [exact Hle|].
      apply StronglySorted_inv in Hs. destruct Hs as [_ Hall].
      eapply List.Forall_impl; [|exact Hall]. intros a Ha. cbn in Ha. lia.
    + apply StronglySorted_inv in Hs. destruct Hs as [Hs Hall].
      constructor; [apply IH, Hs|].
      apply List.Forall_forall. intros a Ha.
      apply (Permutation_in _ (insert_asc_perm x l)) in Ha.
      destruct Ha as [<-|Ha]; [lia|].
      rewrite List.Forall_forall in Hall. apply Hall, Ha.
Qed.

Lemma sort_asc_sorted (l : list A) :
  StronglySorted (fun a b => (key a <= key b)%Z) (Parser.sort_asc key l).
Proof.
  induction l as [|x l IH]; cbn; [constructor|].
  apply insert_asc_sorted, IH.
Qed.

(** Stability: a test that fixes the key selects the same elements in the
    same order before and after sorting. *)
Lemma insert_asc_filter (p : A -> bool) (v : Z) (x : A) (s : list A) :
  (forall a, p a = true -> key a = v) ->
  List.filter p (Parser.insert_asc key x s) = List.filter p (x :: s).
Proof.
  intros Hp. induction s as [|y s IHs]; cbn [Parser.insert_asc];
    [reflexivity|].
  destruct (Z.leb_spec (key x) (key y)) as [Hle|Hgt]; [reflexivity|].
  cbn [List.filter]. rewrite IHs. cbn [List.filter].
  destruct (p x) eqn:Ex; [|reflexivity].
  destruct (p y) eqn:Ey; [|reflexivity].
  apply Hp in Ex, Ey. lia.
Qed.

Lemma sort_asc_stable (p : A -> bool) (v : Z) (l : list A) :
  (forall a, p a = true -> key a = v) ->
  List.filter p (Parser.sort_asc key l) = List.filter p l.
Proof.
  intros Hp. induction l as [|x l IH]; [reflexivity|].
  cbn [Parser.sort_asc fold_right]. fold (Parser.sort_asc key l).
  rewrite (insert_asc_filter p v) by exact Hp.
  cbn [List.filter]. rewrite IH. reflexivity.
Qed.

End AscendingSort.

Lemma filter_sorted {A : Type} (R : A -> A -> Prop) (p : A -> bool)
    (l : list A) :
  StronglySorted R l -> StronglySorted R (List.filter p l).
Proof.
  intros H. induction H as [|a l _ IH Hall]; [constructor|].
  cbn [List.filter]. destruct (p a); [|exact IH].
  constructor; [exact IH|].
  apply List.Forall_forall. intros b Hb. apply filter_In in Hb.
  rewrite List.Forall_forall in Hall. apply Hall, Hb.
Qed.

Lemma filter_head_split {A : Type} (p : A -> bool) (l : list A) (a : A)
    (rest : list A) :
  List.filter p l = a :: rest ->
  exists pre post,
    l = (pre ++ a :: post)%list /\ forall x, In x pre -> p x = false.
Proof.
  induction l as [|y l IH]; [discriminate|]. cbn [List.filter].
  destruct (p y) eqn:Ey.
  - intros H. inversion H; subst. exists [], l.
    split; [reflexivity|intros x []].
  - intros H. destruct (IH H) as (pre & post & -> & Hpre).
    exists (y :: pre), post. split; [reflexivity|].
    intros x [<-|Hx]; [exact Ey|apply Hpre, Hx].
Qed.

Lemma first_by_number_In (l : list Article.t) (x : Article.t) :
  In x (first_by_number l) -> In x l.
Proof.
  induction l as [|a l IH]; [intros []|]. cbn [first_by_number].
  intros [<-|Hin]; [left; reflexivity|].
  apply filter_In in Hin. right. apply IH, Hin.
Qed.

Lemma first_by_number_numbers (l : list Article.t) :
  map Article.number (first_by_number l) =
  first_occurrences (map Article.number l).
Proof.
  induction l as [|a l IH]; [reflexivity|].
  cbn [first_by_number map first_occurrences]. f_equal.
  rewrite <- IH, filter_map_comm. reflexivity.
Qed.

Lemma first_by_number_sorted (R : Article.t -> Article.t -> Prop)
    (l : list Article.t) :
  StronglySorted R l -> StronglySorted R (first_by_number l).
Proof.
  intros H. induction H as [|a l _ IH Hall]; [constructor|].
  cbn [first_by_number]. constructor; [apply filter_sorted, IH|].
  apply List.Forall_forall. intros b Hb. apply filter_In in Hb.
  destruct Hb as [Hb _]. apply first_by_number_In in Hb.
  rewrite List.Forall_forall in Hall. apply Hall, Hb.
Qed.

Lemma first_by_number_head (l : list Article.t) (a : Article.t) :
  In a (first_by_number l) ->
  exists rest,
    List.filter (fun x => String.eqb (Article.number x) (Article.number a)) l
    = a :: rest.
Proof.
  induction l as [|b l IH]; [intros []|].
  cbn [first_by_number List.filter]. intros [<-|Hin].
  - rewrite String.eqb_refl. eexists. reflexivity.
  - apply filter_In in Hin. destruct Hin as [Hin Hne].
    apply negb_true_iff in Hne. rewrite Hne. apply IH, Hin.
Qed.

Lemma fold_unique_step (l : list Article.t) :
  forall (acc : list Article.t) (seen : gset string),
    fst (fold_left Parser.unique_step l (acc, seen)) =
    (acc ++ List.filter
              (fun x => negb (bool_decide (Article.number x ∈ seen)))
              (first_by_number l))%list.
Proof.
  induction l as [|a l IH]; intros acc seen.
  - cbn. symmetry. apply app_nil_r.
  - cbn [fold_left first_by_number List.filter].
    unfold Parser.unique_step at 2. cbn [fst snd].
    destruct (bool_decide (Article.number a ∈ seen)) eqn:E; cbn [negb].
    + rewrite IH. f_equal. rewrite filter_filter.
      apply List.filter_ext. intros x.
      apply bool_decide_eq_true in E.
      destruct (String.eqb_spec (Article.number a) (Article.number x))
        as [Heq|Hne]; [|reflexivity].
      cbn [negb andb]. rewrite <- Heq.
      rewrite bool_decide_eq_true_2 by exact E. reflexivity.
    + rewrite IH, <- app_assoc. cbn [app]. f_equal. f_equal.
      rewrite filter_filter. apply List.filter_ext. intros x.
      apply bool_decide_eq_false in E.
      destruct (String.eqb_spec (Article.number a) (Article.number x))
        as [Heq|Hne]; cbn [negb andb].
      * rewrite <- Heq.
        rewrite bool_decide_eq_true_2
          by (apply elem_of_union_l, elem_of_singleton; reflexivity).
        reflexivity.
      * f_equal. apply bool_decide_ext.
        rewrite elem_of_union, elem_of_singleton.
        split; [|tauto]. intros [Heq|H]; [|exact H].
        exfalso. apply Hne. symmetry. exact Heq.
Qed.

Section ParserProperties.

Context (int_of : string -> option Z).

Lemma validate_first_by_number (articles : list Article.t) (code : string) :
  Parser._validate_and_clean_articles int_of articles code =
  first_by_number (Parser.sort_asc (Parser.sort_key int_of) articles).
Proof.
  unfold Parser._validate_and_clean_articles. rewrite fold_unique_step.
  cbn [app].
  induction (first_by_number _) as [|x l IH]; [reflexivity|].
  cbn [List.filter].
  rewrite bool_decide_eq_false_2 by apply not_elem_of_empty.
  cbn [negb]. rewrite IH. reflexivity.
Qed.

(** X20. [_validate_and_clean_articles] returns the articles in
    ascending order of their numeric key (99999 for a number that is not an
    integer), with pairwise distinct numbers and exactly the numbers of the
    input; of several articles with one number it keeps the one that comes
    first in the input. *)
Theorem validate_and_clean_articles_spec (articles : list Article.t)
    (code : string) :
  let out := Parser._validate_and_clean_articles int_of articles code in
  List.NoDup (map Article.number out) /\
  StronglySorted
    (fun a b => (Parser.sort_key int_of a <= Parser.sort_key int_of b)%Z)
    out /\
  (forall n, In n (map Article.number out) <->
             In n (map Article.number articles)) /\
  (forall a, In a out ->
     exists pre post,
       articles = (pre ++ a :: post)%list /\
       forall x, In x pre -> Article.number x <> Article.number a).
Proof.
  cbn zeta. rewrite validate_first_by_number.
  set (sorted := Parser.sort_asc (Parser.sort_key int_of) articles).
  assert (Hperm : Permutation sorted articles) by apply sort_asc_perm.
  split; [|split; [|split]].
  - rewrite first_by_number_numbers. apply first_occurrences_NoDup.
  - apply first_by_number_sorted, sort_asc_sorted.
  - intros n. rewrite first_by_number_numbers, first_occurrences_In.
    split; apply Permutation_in, Permutation_map;
      [exact Hperm|symmetry; exact Hperm].
  - intros a Ha. destruct (first_by_number_head _ _ Ha) as [rest Hrest].
    unfold sorted in Hrest.
    rewrite (sort_asc_stable _ _
               (Parser.number_key int_of (Article.number a))) in Hrest.
    + destruct (filter_head_split _ _ _ _ Hrest) as (pre & post & Hs & Hpre).
      exists pre, post. split; [exact Hs|].
      intros x Hx Heq. specialize (Hpre x Hx). cbn in Hpre.
      rewrite Heq, String.eqb_refl in Hpre. discriminate.
    + intros x Hx. apply String.eqb_eq in Hx.
      unfold Parser.sort_key. rewrite Hx. reflexivity.
Qed.

End ParserProperties.

(** ** The cache file of the keyword index *)

Section CacheProperties.

Context {bm25 : Type}.
Context (BM25Okapi : list (list string) -> option bm25).
Context (tokenize : string -> list string).

(** The engine [_create_bm25_index] leaves behind. *)
Lemma create_bm25_index_result (all_results : list result_dict)
    (e : Bm25.engine bm25) :
  Bm25._create_bm25_index bm25 BM25Okapi tokenize all_results e =
  {| Bm25.bm25_index :=
       match map (fun r => tokenize (text r)) all_results with
       | [] => Bm25.bm25_index bm25 e
       | tokenized_docs =>
           match BM25Okapi tokenized_docs with
           | Some b => Some b
           | None => Bm25.bm25_index bm25 e
           end
       end;
     Bm25.documents := map text all_results;
     Bm25.metadata_list := map metadata all_results |}.
Proof.
  unfold Bm25._create_bm25_index, Bm25._create_bm25_index_stmts.
  unfold Bm25.run at 1. cbn [app fold_left].
  change (fold_left (fun e s => Bm25.exec bm25 BM25Okapi s e) ?ss ?e0)
    with (Bm25.run bm25 BM25Okapi ss e0).
  rewrite run_loop. cbn [Bm25.exec Bm25.bm25_index Bm25.documents
                           Bm25.metadata_list app].
  destruct (map (fun r => tokenize (text r)) all_results) as [|t ts];
    [reflexivity|].
  unfold Bm25.run. cbn [fold_left Bm25.exec].
  destruct (BM25Okapi (t :: ts)); reflexivity.
Qed.

(** X21. An index built from a non-empty corpus is written to the cache
    file as the complete snapshot, and the next start-up loads exactly that
    engine state from the file, whatever the vector store holds by then:
    the loaded snapshot is not compared with the store. *)
Theorem cache_round_trip (all_results later : list result_dict)
    (old : Bm25.engine bm25) (f : Cache.file bm25) (b : bm25) :
  all_results <> [] ->
  BM25Okapi (map (fun r => tokenize (text r)) all_results) = Some b ->
  let st := Cache._create_bm25_index bm25 BM25Okapi tokenize all_results
              (old, f) in
  fst st = Bm25.snapshot bm25 all_results b /\
  snd st =
    Cache.pickled bm25
      {| Cache.cached_bm25_index := Some b;
         Cache.cached_documents := Some (map text all_results);
         Cache.cached_metadata_list := Some (map metadata all_results) |} /\
  Cache._load_or_create_bm25_index bm25 BM25Okapi tokenize later
    (Cache.fresh bm25, snd st) = st.
Proof.
  intros Hne Hb.
  cbn zeta. unfold Cache._create_bm25_index. cbn [fst snd].
  rewrite create_bm25_index_result.
  destruct (map (fun r => tokenize (text r)) all_results) as [|t ts] eqn:Et.
  { destruct all_results; [contradiction|discriminate]. }
  rewrite Hb. cbn [fst snd]. split; [reflexivity|]. split; reflexivity.
Qed.

(** X22. Restarting after a rebuild.  A rebuild followed by a fresh start
    on the same store contents gives the documents, the metadata and the
    cache file of the running engine.  When the store returns a non-empty
    corpus and the index construction succeeds, the rebuild leaves the new
    index structure in the engine and the snapshot in the cache file, and
    the restarted engine is the running one.  When the store returns
    nothing or the index construction raises, the rebuild leaves no cache
    file, the restarted engine has no index structure, and the running
    engine still holds the one it had before the rebuild. *)
Theorem rebuild_then_restart (all_results : list result_dict)
    (old : Bm25.engine bm25) (f : Cache.file bm25) :
  let running := Cache.rebuild_bm25_index bm25 BM25Okapi tokenize all_results
                   (old, f) in
  let restarted := Cache._load_or_create_bm25_index bm25 BM25Okapi tokenize
                     all_results (Cache.fresh bm25, snd running) in
  snd restarted = snd running /\
  Bm25.documents bm25 (fst restarted) = Bm25.documents bm25 (fst running) /\
  Bm25.metadata_list bm25 (fst restarted)
    = Bm25.metadata_list bm25 (fst running) /\
  (forall b,
     all_results <> [] ->
     BM25Okapi (map (fun r => tokenize (text r)) all_results) = Some b ->
     Bm25.bm25_index bm25 (fst running) = Some b /\
     snd running =
       Cache.pickled bm25
         {| Cache.cached_bm25_index := Some b;
            Cache.cached_documents := Some (map text all_results);
            Cache.cached_metadata_list :=
              Some (map metadata all_results) |} /\
     restarted = running) /\
  (all_results = [] \/
   BM25Okapi (map (fun r => tokenize (text r)) all_results) = None ->
   snd running = Cache.missing bm25 /\
   Bm25.bm25_index bm25 (fst restarted) = None /\
   Bm25.bm25_index bm25 (fst running) = Bm25.bm25_index bm25 old).
Proof.
  cbn zeta. unfold Cache.rebuild_bm25_index, Cache._create_bm25_index.
  cbn [fst snd]. rewrite create_bm25_index_result.
  destruct (map (fun r => tokenize (text r)) all_results) as [|t ts] eqn:Et.
  - cbn [fst snd Cache._load_or_create_bm25_index].
    unfold Cache._create_bm25_index. cbn [fst snd].
    rewrite create_bm25_index_result, Et. cbn [fst snd Bm25.bm25_index
      Bm25.documents Bm25.metadata_list Cache.fresh].
    split; [reflexivity|]. split; [reflexivity|]. split; [reflexivity|].
    split.
    + intros b Hne _. destruct all_results; [contradiction|discriminate].
    + intros _. split; [reflexivity|]. split; reflexivity.
  - destruct (BM25Okapi (t :: ts)) as [b|] eqn:Eb.
    + cbn [fst snd Cache._load_or_create_bm25_index Cache.cached_bm25_index
             Cache.cached_documents Cache.cached_metadata_list
             Bm25.bm25_index Bm25.documents Bm25.metadata_list].
      split; [reflexivity|]. split; [reflexivity|]. split; [reflexivity|].
      split.
      * intros b' _ Hb'. inversion Hb'. subst b'.
        split; [reflexivity|]. split; reflexivity.
      * intros [Hnil|Hnone]; [|discriminate].
        rewrite Hnil in Et. discriminate.
    + cbn [fst snd Cache._load_or_create_bm25_index].
      unfold Cache._create_bm25_index. cbn [fst snd].
      rewrite create_bm25_index_result, Et, Eb. cbn [fst snd Bm25.bm25_index
        Bm25.documents Bm25.metadata_list Cache.fresh].
      split; [reflexivity|]. split; [reflexivity|]. split; [reflexivity|].
      split.
      * intros b _ Hb. discriminate.
      * intros _. split; [reflexivity|]. split; reflexivity.
Qed.

End CacheProperties.

Lemma cache_round_trip_witness :
  one_document <> [] /\
  fst (Cache._create_bm25_index (list (list string)) toy_index toy_tokenize
         one_document (engine_without_index, Cache.missing _))
  = toy_snapshot.
Proof.
  assert (H : one_document <> []) by discriminate.
  split; [exact H|].
  apply (cache_round_trip toy_index toy_tokenize one_document []
           engine_without_index (Cache.missing _) [["a"]] H eq_refl).
Defined.

(** ** Instances *)

Lemma chunk_single_article_structure_witness :
  nth_error (Chunker._chunk_single_article 5 toy_split
               (sample_article "1" "abcdefgh") "code_travail" 0) 1
  = Some {| Chunker.id := "code_travail_art1_chunk2";
            Chunker.text := "fgh";
            Chunker.metadata :=
              {| Chunker.article_number := "1";
                 Chunker.code_source := "code_travail";
                 Chunker.chunk_index := 1;
                 Chunker.total_chunks := 2;
                 Chunker.is_complete_article := false |};
            Chunker.token_count := 1 |} /\
  Chunker.chunk_index second_chunk_metadata = 1%nat.
Proof.
  assert (H : nth_error (Chunker._chunk_single_article 5 toy_split
                           (sample_article "1" "abcdefgh") "code_travail" 0)
                        1
              = Some {| Chunker.id := "code_travail_art1_chunk2";
                        Chunker.text := "fgh";
                        Chunker.metadata :=
                          {| Chunker.article_number := "1";
                             Chunker.code_source := "code_travail";
                             Chunker.chunk_index := 1;
                             Chunker.total_chunks := 2;
                             Chunker.is_complete_article := false |};
                        Chunker.token_count := 1 |})
    by (vm_compute; reflexivity).
  split; [exact H|].
  destruct (chunk_single_article_structure 5 toy_split
              (sample_article "1" "abcdefgh") "code_travail" 0)
    as (Hnth & _).
  destruct (Hnth _ _ H) as (_ & _ & Hidx & _). exact Hidx.
Defined.

Lemma chunk_articles_structure_witness :
  exists c,
    In c (Chunker.chunk_articles 5 toy_split "code_travail"
            [sample_article "1" "abc"; sample_article "2" "abcdefgh"]) /\
    Chunker.code_source (Chunker.metadata c) = "code_travail".
Proof.
  exists (hd {| Chunker.id := ""; Chunker.text := "";
                Chunker.metadata := first_chunk_metadata;
                Chunker.token_count := 0 |}
            (Chunker.chunk_articles 5 toy_split "code_travail"
               [sample_article "1" "abc"; sample_article "2" "abcdefgh"])).
  assert (Hin : In (hd {| Chunker.id := ""; Chunker.text := "";
                          Chunker.metadata := first_chunk_metadata;
                          Chunker.token_count := 0 |}
                      (Chunker.chunk_articles 5 toy_split "code_travail"
                         [sample_article "1" "abc";
                          sample_article "2" "abcdefgh"]))
                   (Chunker.chunk_articles 5 toy_split "code_travail"
                      [sample_article "1" "abc";
                       sample_article "2" "abcdefgh"])).
  { vm_compute. left. reflexivity. }
  split; [exact Hin|].
  destruct (chunk_articles_structure 5 toy_split "code_travail"
              [sample_article "1" "abc"; sample_article "2" "abcdefgh"])
    as (_ & H).
  apply (H _ Hin).
Defined.

Lemma add_chunks_batches_witness :
  (length [tt] < length [{| Chunker.id := "a"; Chunker.text := "a";
                            Chunker.metadata := first_chunk_metadata;
                            Chunker.token_count := 1 |};
                         {| Chunker.id := "b"; Chunker.text := "b";
                            Chunker.metadata := second_chunk_metadata;
                            Chunker.token_count := 1 |}])%nat /\
  Qdrant.add_chunks unit PyStr.of_nat
    [{| Chunker.id := "a"; Chunker.text := "a";
        Chunker.metadata := first_chunk_metadata;
        Chunker.token_count := 1 |};
     {| Chunker.id := "b"; Chunker.text := "b";
        Chunker.metadata := second_chunk_metadata;
        Chunker.token_count := 1 |}] [tt] = None.
Proof.
  assert (H : (length [tt]
               < length [{| Chunker.id := "a"; Chunker.text := "a";
                            Chunker.metadata := first_chunk_metadata;
                            Chunker.token_count := 1 |};
                         {| Chunker.id := "b"; Chunker.text := "b";
                            Chunker.metadata := second_chunk_metadata;
                            Chunker.token_count := 1 |}])%nat)
    by (cbn; lia).
  split; [exact H|].
  apply (add_chunks_batches PyStr.of_nat _ [tt]), H.
Defined.


Lemma group_chunks_partition_witness :
  exists groups,
    _group_chunks_by_article (article_41_fragments ++ article_12_fragments)
    = Some groups /\
    Permutation (concat (Py.values groups))
      (article_41_fragments ++ article_12_fragments) /\
    List.NoDup (Py.keys groups).
Proof.
  destruct (group_chunks_partition
              (article_41_fragments ++ article_12_fragments))
    as (groups & Hrun & Hperm & Hkeys & _).
  exists groups. split; [exact Hrun|]. split; [exact Hperm|exact Hkeys].
Defined.

Lemma extract_sources_one_per_article_witness :
  length (_extract_sources (article_41_fragments ++ article_12_fragments))
  = length (first_occurrences
              (map key_of (article_41_fragments ++ article_12_fragments))).
Proof.
  destruct (extract_sources_one_per_article
              (article_41_fragments ++ article_12_fragments))
    as (kept & _ & _ & _ & _ & Hlen).
  exact Hlen.
Defined.

Lemma validate_and_clean_articles_spec_witness :
  exists a,
    In a (Parser._validate_and_clean_articles toy_int
            [sample_article "2" "x"; sample_article "1" "y";
             sample_article "2" "z"] "code_travail") /\
    exists pre post,
      [sample_article "2" "x"; sample_article "1" "y";
       sample_article "2" "z"] = (pre ++ a :: post)%list.
Proof.
  exists (sample_article "2" "x").
  assert (Hin : In (sample_article "2" "x")
                   (Parser._validate_and_clean_articles toy_int
                      [sample_article "2" "x"; sample_article "1" "y";
                       sample_article "2" "z"] "code_travail")).
  { vm_compute. right. left. reflexivity. }
  split; [exact Hin|].
  destruct (validate_and_clean_articles_spec toy_int
              [sample_article "2" "x"; sample_article "1" "y";
               sample_article "2" "z"] "code_travail") as (_ & _ & _ & H).
  destruct (H _ Hin) as (pre & post & Hs & _). exists pre, post. exact Hs.
Defined.

Lemma normalize_scores_rank_preserving_witness :
  exists g : Q -> Q,
    (forall x y, x <= y -> g x <= g y) /\
    _normalize_scores sample_vector_hits vector_score_key =
      map (fun r => set_norm vector_score_key
                      (g (get_score vector_score_key r)) r)
          sample_vector_hits.
Proof.
  exact (normalize_scores_rank_preserving sample_vector_hits
           vector_score_key).
Defined.

(** ** Fusion by document identifier *)

Lemma last_hit_snoc (id : string) (l : list result_dict) (r : result_dict) :
  last_hit id (l ++ [r]) = if has_doc_id id r then Some r else last_hit id l.
Proof. unfold last_hit. rewrite rev_app_distr. reflexivity. Qed.

Lemma first_hit_snoc (id : string) (l : list result_dict) (r : result_dict) :
  first_hit id (l ++ [r]) =
  match first_hit id l with
  | Some x => Some x
  | None => if has_doc_id id r then Some r else None
  end.
Proof.
  unfold first_hit.
  induction l as [|y l IH]; cbn [app List.find]; [reflexivity|].
  destruct (has_doc_id id y); [reflexivity|exact IH].
Qed.

Lemma first_hit_None (id : string) (l : list result_dict) :
  ~ In id (map doc_id_of l) -> first_hit id l = None.
Proof.
  unfold first_hit. induction l as [|y l IH]; intros H; [reflexivity|].
  cbn [List.find]. unfold has_doc_id at 1.
  destruct (String.eqb_spec (doc_id_of y) id) as [Heq|_].
  - exfalso. apply H. left. exact Heq.
  - apply IH. intros Hin. apply H. right. exact Hin.
Qed.

Lemma last_hit_None (id : string) (l : list result_dict) :
  ~ In id (map doc_id_of l) -> last_hit id l = None.
Proof.
  intros H. unfold last_hit. apply (first_hit_None id (rev l)).
  rewrite map_rev. intros Hin. apply H, in_rev, Hin.
Qed.

(** [merged_docs] after the first loop: a later vector hit replaces an
    earlier one with the same identifier. *)
Lemma merge_vector_last (l : list result_dict) (id : string)
    (x : result_dict) :
  In (id, x) (fold_left merge_vector l []) ->
  exists r,
    last_hit id l = Some r /\
    x = set_bm25_score_norm 0
          (set_vector_score_norm (default 0 (vector_score_norm r)) r).
Proof.
  revert id x. induction l as [|r l IH] using rev_ind; intros id x;
    [intros []|].
  rewrite fold_left_app. cbn [fold_left]. unfold merge_vector at 1.
  fold (doc_id_of r).
  destruct (merge_vector_invariant l) as (Hnd & _ & _). cbn zeta in Hnd.
  intros Hin. apply (set_In _ _ _ _ _ Hnd) in Hin.
  rewrite last_hit_snoc. unfold has_doc_id.
  destruct Hin as [[-> ->]|[Hne Hin]].
  - rewrite String.eqb_refl. exists r. split; reflexivity.
  - destruct (String.eqb_spec (doc_id_of r) id) as [Heq|_];
      [congruence|]. apply IH, Hin.
Qed.

(** [merged_docs] after the second loop has gone over [l]: the entry
    stored under [id], term by term. *)
Lemma merge_bm25_last (vn l : list result_dict) (id : string)
    (x : result_dict) :
  In (id, x) (fold_left merge_bm25 l (fold_left merge_vector vn [])) ->
  vector_score_norm x = Some (vector_term_of id vn) /\
  bm25_score_norm x = Some (keyword_term_of id l) /\
  exists r, carrier id vn l = Some r /\
            text x = text r /\ metadata x = metadata r.
Proof.
  revert id x. induction l as [|r l IH] using rev_ind; intros id x.
  - cbn [fold_left]. intros Hin.
    destruct (merge_vector_last vn id x Hin) as (r & Hr & ->).
    unfold vector_term_of, keyword_term_of, carrier. rewrite Hr.
    split; [reflexivity|]. split; [reflexivity|].
    exists r. split; [reflexivity|]. split; reflexivity.
  - rewrite fold_left_app. cbn [fold_left].
    set (d := fold_left merge_bm25 l (fold_left merge_vector vn [])) in *.
    destruct (merge_bm25_invariant vn l) as (Hnd & Hcov & _).
    cbn zeta in Hnd, Hcov. fold d in Hnd, Hcov.
    unfold merge_bm25. fold (doc_id_of r).
    assert (Hother : forall i, i <> doc_id_of r ->
              keyword_term_of i (l ++ [r]) = keyword_term_of i l /\
              carrier i vn (l ++ [r]) = carrier i vn l).
    { intros i Hne.
      assert (Hf : has_doc_id i r = false).
      { unfold has_doc_id. apply String.eqb_neq. congruence. }
      unfold keyword_term_of, carrier.
      rewrite last_hit_snoc, first_hit_snoc, Hf. split; [reflexivity|].
      destruct (last_hit i vn); [reflexivity|].
      destruct (first_hit i l); reflexivity. }
    assert (Hself : has_doc_id (doc_id_of r) r = true)
      by apply String.eqb_refl.
    destruct (Py.contains d (doc_id_of r)) eqn:E.
    + intros Hin. apply (update_In d _ _ _ _ Hnd) in Hin.
      destruct Hin as [[-> (x0 & Hx0 & ->)]|[Hne Hin]].
      * destruct (IH _ _ Hx0) as (Hv & _ & src & Hsrc & Ht & Hm).
        split; [exact Hv|]. split.
        { unfold keyword_term_of. rewrite last_hit_snoc, Hself.
          reflexivity. }
        exists src. split; [|split; assumption].
        unfold carrier in Hsrc |- *. rewrite first_hit_snoc.
        destruct (last_hit (doc_id_of r) vn); [exact Hsrc|].
        rewrite Hsrc. reflexivity.
      * destruct (Hother id Hne) as [-> ->]. apply IH, Hin.
    + assert (Hfresh : ~ In (doc_id_of r) (Py.keys d)).
      { intros H. apply contains_keys in H. congruence. }
      intros Hin. apply (set_In d _ _ _ _ Hnd) in Hin.
      destruct Hin as [[-> ->]|[Hne Hin]].
      * assert (Hvn : last_hit (doc_id_of r) vn = None).
        { apply last_hit_None. intros H. apply in_map_iff in H.
          destruct H as [r' [Hid Hr']]. apply Hfresh. rewrite <- Hid.
          apply Hcov. left. exact Hr'. }
        assert (Hl : first_hit (doc_id_of r) l = None).
        { apply first_hit_None. intros H. apply in_map_iff in H.
          destruct H as [r' [Hid Hr']]. apply Hfresh. rewrite <- Hid.
          apply Hcov. right. exact Hr'. }
        unfold vector_term_of, keyword_term_of, carrier.
        rewrite Hvn, last_hit_snoc, first_hit_snoc, Hl, Hself.
        split; [reflexivity|]. split; [reflexivity|].
        exists r. split; [reflexivity|]. split; reflexivity.
      * destruct (Hother id Hne) as [-> ->]. apply IH, Hin.
Qed.

(** X23. [_merge_results], over the identifier [_get_doc_id] computes.
    The result is the slice [[:limit]] of the stable descending sort by
    fused score of a list [entries] that has one entry per distinct
    identifier of the two hit lists, in order of first appearance (vector
    list first).  The entry of an identifier has vector term [v], the
    normalised vector score of the last vector hit with that identifier or
    0 without one, keyword term [b], likewise for the keyword hits, and
    score and hybrid score [0.4 * v + 0.6 * b]; it carries the text and
    metadata of the last vector hit with that identifier, or of the first
    keyword hit when there is no vector hit.  So of several hits under one
    identifier only one survives, and a later vector hit replaces an
    earlier one. *)
Theorem merge_results_by_doc_id
    (vector_results bm25_results : list result_dict) (limit : Z) :
  let vn := _normalize_scores vector_results vector_score_key in
  let bn := _normalize_scores bm25_results bm25_score_key in
  let out := _merge_results vector_results bm25_results limit in
  exists entries,
    map doc_id_of entries =
      first_occurrences (map doc_id_of (vector_results ++ bm25_results)) /\
    (forall d, In d entries ->
       let v := vector_term_of (doc_id_of d) vn in
       let b := keyword_term_of (doc_id_of d) bn in
       vector_score_norm d = Some v /\
       bm25_score_norm d = Some b /\
       score d = (4 # 10) * v + (6 # 10) * b /\
       hybrid_score d = Some (score d) /\
       exists r, carrier (doc_id_of d) vn bn = Some r /\
                 text d = text r /\ metadata d = metadata r) /\
    out = Py.slice_to limit (Py.sort_desc score entries) /\
    descending score out /\
    ((0 <= limit)%Z ->
     out = firstn (Z.to_nat limit) (Py.sort_desc score entries)).
Proof.
  intros vn bn out.
  destruct (merge_bm25_invariant vn bn) as (_ & _ & Hent).
  cbn zeta in Hent. fold (merged_docs_of vn bn) in Hent.
  set (merged := merged_docs_of vn bn) in *.
  assert (Hout : out = Py.slice_to limit
                   (Py.sort_desc score (map scored (Py.values merged)))).
  { apply merge_results_unfold. }
  exists (map scored (Py.values merged)).
  split; [|split; [|split; [|split]]].
  - rewrite merged_doc_ids by (intros id x Hin; apply (Hent id x Hin)).
    unfold merged, merged_docs_of. rewrite merged_keys, !map_app.
    unfold vn, bn. rewrite !normalize_scores_doc_ids. reflexivity.
  - intros d Hd. apply in_map_iff in Hd. destruct Hd as [x [<- Hx]].
    unfold Py.values in Hx. apply in_map_iff in Hx.
    destruct Hx as [[id x'] [Heq Hin]]. cbn [snd] in Heq. subst x'.
    destruct (Hent id x Hin) as (Hid & _).
    rewrite scored_doc_id, Hid.
    destruct (merge_bm25_last vn bn id x Hin)
      as (Hv & Hb & r & Hr & Ht & Hm).
    assert (Hsc : scored x =
      set_hybrid_score
        ((4 # 10) * vector_term_of id vn + (6 # 10) * keyword_term_of id bn)
        (set_score
           ((4 # 10) * vector_term_of id vn
            + (6 # 10) * keyword_term_of id bn) x)).
    { unfold scored, final_score. rewrite Hv, Hb. reflexivity. }
    cbn zeta. rewrite Hsc.
    split; [exact Hv|]. split; [exact Hb|]. split; [reflexivity|].
    split; [reflexivity|]. exists r. split; [exact Hr|].
    split; [exact Ht|exact Hm].
  - exact Hout.
  - rewrite Hout. unfold Py.slice_to.
    destruct (0 <=? limit)%Z; apply descending_firstn, sort_desc_descending.
  - intros Hlimit. rewrite Hout. unfold Py.slice_to.
    apply Z.leb_le in Hlimit. rewrite Hlimit. reflexivity.
Qed.

Lemma merge_results_by_doc_id_witness :
  (0 <= 5)%Z /\
  exists entries,
    map doc_id_of entries = ["code_travail_41_1"; "code_penal_12_1"] /\
    _merge_results repeated_vector_hits [] 5
      = firstn 5 (Py.sort_desc score entries) /\
    forall d, In d entries ->
      vector_score_norm d
        = Some (vector_term_of (doc_id_of d)
                  (_normalize_scores repeated_vector_hits vector_score_key)).
Proof.
  assert (H : (0 <= 5)%Z) by lia.
  split; [exact H|].
  destruct (merge_results_by_doc_id repeated_vector_hits [] 5)
    as (entries & Hids & Hent & _ & _ & Hlim).
  exists entries. split; [exact Hids|]. split; [exact (Hlim H)|].
  intros d Hd. exact (proj1 (Hent d Hd)).
Defined.

(** Of the two vector hits under one identifier the later, lower-scored
    one survives. *)
Example merge_results_repeated_sample :
  map (fun d => (doc_id_of d, Qred (default 0 (vector_score d)),
                 Qred (score d)))
      (_merge_results repeated_vector_hits [] 5)
  = [("code_travail_41_1", 1 # 2, 1 # 5); ("code_penal_12_1", 1 # 10, 0)].
Proof. vm_compute. reflexivity. Qed.

(** ** Chunks of one article under one document identifier *)

(** C1, the claim fails on hits as the store returns them.  The vector
    search finds the first chunk of article 41 and the keyword search the
    second one: two fragments with different identity keys, each present
    in one list only.  [_get_doc_id] gives both the identifier
    [code_travail_41_0], and the fusion returns a single fragment: the
    first chunk, tagged [hybrid], with the keyword score of the second
    chunk as its keyword term and fused score 1, where the claim has two
    fragments with fused scores 0.4 and 0.6. *)
Theorem hybrid_search_collapses_chunks :
  let vector_results :=
    Hybrid._vector_search unit example_encode first_chunk_store "b" 10 in
  let bm25_results :=
    Hybrid._bm25_search (list (list string)) toy_scores toy_tokenize
      two_chunk_engine "b" 10 in
  let out :=
    Hybrid.hybrid_search unit example_encode first_chunk_store
      (list (list string)) toy_scores toy_tokenize two_chunk_engine "b" 5 in
  fragment_identity first_chunk_metadata
    <> fragment_identity second_chunk_metadata /\
  map (fun r => (text r, metadata r)) vector_results
    = [("a", search_metadata first_chunk_metadata)] /\
  map (fun r => (text r, metadata r)) bm25_results
    = [("b", search_metadata second_chunk_metadata)] /\
  map doc_id_of vector_results = ["code_travail_41_0"] /\
  map doc_id_of bm25_results = ["code_travail_41_0"] /\
  out = _merge_results vector_results bm25_results 5 /\
  exists d,
    out = [d] /\
    text d = "a" /\
    search_type d = Some "hybrid" /\
    vector_score_norm d = Some 1 /\
    bm25_score_norm d = Some 1 /\
    score d == 1 /\
    ~ score d == 4 # 10 /\ ~ score d == 6 # 10.
Proof.
  cbn zeta. split; [discriminate|].
  split; [reflexivity|]. split; [reflexivity|].
  split; [reflexivity|]. split; [reflexivity|]. split; [reflexivity|].
  eexists. split; [vm_compute; reflexivity|].
  split; [reflexivity|]. split; [reflexivity|]. split; [reflexivity|].
  split; [reflexivity|]. split; [reflexivity|].
  split; intros H; discriminate H.
Qed.

Lemma rebuild_then_restart_witness :
  one_document <> [] /\
  Cache._load_or_create_bm25_index (list (list string)) toy_index
    toy_tokenize one_document
    (Cache.fresh _,
     snd (Cache.rebuild_bm25_index (list (list string)) toy_index
            toy_tokenize one_document
            (engine_without_index, Cache.missing _)))
  = Cache.rebuild_bm25_index (list (list string)) toy_index toy_tokenize
      one_document (engine_without_index, Cache.missing _) /\
  Bm25.bm25_index _
    (fst (Cache.rebuild_bm25_index (list (list string)) toy_index
            toy_tokenize [] (toy_snapshot, Cache.missing _)))
  = Bm25.bm25_index _ toy_snapshot.
Proof.
  assert (H : one_document <> []) by discriminate.
  split; [exact H|]. split.
  - destruct (rebuild_then_restart toy_index toy_tokenize one_document
                engine_without_index (Cache.missing _))
      as (_ & _ & _ & Hbuilt & _).
    destruct (Hbuilt [["a"]] H eq_refl) as (_ & _ & Hsame). exact Hsame.
  - destruct (rebuild_then_restart toy_index toy_tokenize []
                toy_snapshot (Cache.missing _))
      as (_ & _ & _ & _ & Hfailed).
    destruct (Hfailed (or_introl eq_refl)) as (_ & _ & Hkept). exact Hkept.
Defined.
